(** * Vertex Pursuit: recorder (vertex_pursuit_game.py) and replay viewer
      (replay_viewer.py)

    A shallow embedding of the two programs' data pipeline: the trial state
    machine of the recorder, the CSV persistence of trajectory records, the
    participant auto-numbering, and the playback loop of the viewer.

    Conventions of the embedding.
    - Python [int] is [Z]; Python [float] is a binary64 value, [PrimFloat.float].
    - Text is [string], holding the UTF-8 form of a Python [str].
    - The built-ins [float()], [repr] of a float and [int()] are interpreter
      primitives; the programs are modelled over any implementation of them
      ([FloatText], [IntText]), and one implementation of each is given to run
      the programs on concrete input.
    - A CSV file is the list of rows that [csv.reader] yields from it
      (equivalently, that [csv.writer.writerow] was given), each row a list of
      fields, together with whether the reader gets through to the end of the
      file.
    - The trajectory directory [data/raw/trajectories] is a finite map from file
      names to CSV files.
    - What the environment answers is part of the input: the clock, the outcome
      of writing a file, what is typed, and which coordinates pygame's drawing
      functions take ([Pygame]).
    - Console output of the recorder is not modelled; the viewer's console and
      screen output is a trace of [Effect]s. *)

From Stdlib Require Import ZArith NArith Ascii String DecimalString DecimalZ DecimalPos Uint63 PrimFloat FloatOps.
From stdpp Require Import gmap strings list.

Set Warnings "-inexact-float".
Local Open Scope string_scope.
Local Open Scope list_scope.
Local Open Scope Z_scope.

(** ** Python built-ins used by the programs *)

Module Py.

(** White space as C's [isspace] sees it ([Py_ISSPACE]): what [int()] and
    [float()] skip around a number. *)
Definition c_isspace (a : ascii) : bool :=
  let n := nat_of_ascii a in
  ((9 <=? n) && (n <=? 13) || (n =? 32))%nat.

Definition digit_of (a : ascii) : option Z :=
  let n := nat_of_ascii a in
  if ((48 <=? n) && (n <=? 57))%nat then Some (Z.of_nat n - 48) else None.

Fixpoint ltrim (s : string) : string :=
  match s with
  | EmptyString => EmptyString
  | String a s' => if c_isspace a then ltrim s' else s
  end.

Fixpoint rtrim (s : string) : string :=
  match s with
  | EmptyString => EmptyString
  | String a s' =>
      match rtrim s' with
      | EmptyString => if c_isspace a then EmptyString else String a EmptyString
      | r => String a r
      end
  end.

Definition trim (s : string) : string := rtrim (ltrim s).

(** A continuation byte of UTF-8 and its six bits. *)
Definition continuation (a : ascii) : option N :=
  let b := N_of_ascii a in
  if ((0x80 <=? b) && (b <? 0xC0))%N then Some (b - 0x80)%N else None.

(** A byte that begins no well-formed UTF-8 sequence stands for itself, as
    the lone surrogate that [surrogateescape] decodes it to. *)
Definition escaped (a : ascii) : N * string :=
  ((0xDC00 + N_of_ascii a)%N, String a EmptyString).

(** The characters of a text: each code point with the bytes it is written
    in. *)
Fixpoint chars (s : string) : list (N * string) :=
  match s with
  | EmptyString => []
  | String a s1 =>
      let b0 := N_of_ascii a in
      if (b0 <? 0x80)%N then (b0, String a EmptyString) :: chars s1
      else
        match s1 with
        | String a1 s2 =>
            match continuation a1 with
            | Some c1 =>
                if ((0xC2 <=? b0) && (b0 <? 0xE0))%N
                then (((b0 - 0xC0) * 64 + c1)%N, String a (String a1 EmptyString))
                     :: chars s2
                else
                  match s2 with
                  | String a2 s3 =>
                      match continuation a2 with
                      | Some c2 =>
                          if ((0xE0 <=? b0) && (b0 <? 0xF0))%N then
                            let cp := ((b0 - 0xE0) * 4096 + c1 * 64 + c2)%N in
                            if ((0x800 <=? cp)
                                && negb ((0xD800 <=? cp) && (cp <? 0xE000)))%N
                            then (cp, String a (String a1 (String a2 EmptyString)))
                                 :: chars s3
                            else escaped a :: chars s1
                          else
                            match s3 with
                            | String a3 s4 =>
                                match continuation a3 with
                                | Some c3 =>
                                    let cp := ((b0 - 0xF0) * 262144 + c1 * 4096
                                               + c2 * 64 + c3)%N in
                                    if ((0xF0 <=? b0) && (b0 <? 0xF5)
                                        && (0x10000 <=? cp) && (cp <? 0x110000))%N
                                    then (cp, String a (String a1 (String a2
                                                (String a3 EmptyString))))
                                         :: chars s4
                                    else escaped a :: chars s1
                                | None => escaped a :: chars s1
                                end
                            | EmptyString => escaped a :: chars s1
                            end
                      | None => escaped a :: chars s1
                      end
                  | EmptyString => escaped a :: chars s1
                  end
            | None => escaped a :: chars s1
            end
        | EmptyString => [escaped a]
        end
  end.

(** The text that characters are written as. *)
Definition text_of (l : list (N * string)) : string :=
  fold_right (fun c r => c.2 +:+ r) EmptyString l.

(** [str.isspace()] of one character ([Py_UNICODE_ISSPACE]). *)
Definition isspace (c : N) : bool :=
  ((9 <=? c) && (c <=? 13) || (28 <=? c) && (c <=? 32)
   || (c =? 0x85) || (c =? 0xA0) || (c =? 0x1680)
   || (0x2000 <=? c) && (c <=? 0x200A)
   || (c =? 0x2028) || (c =? 0x2029) || (c =? 0x202F) || (c =? 0x205F)
   || (c =? 0x3000))%N.

Fixpoint lstrip (l : list (N * string)) : list (N * string) :=
  match l with
  | [] => []
  | c :: l' => if isspace c.1 then lstrip l' else l
  end.

Fixpoint rstrip (l : list (N * string)) : list (N * string) :=
  match l with
  | [] => []
  | c :: l' =>
      match rstrip l' with
      | [] => if isspace c.1 then [] else [c]
      | r => c :: r
      end
  end.

(** [s.strip()] *)
Definition strip (s : string) : string := text_of (rstrip (lstrip (chars s))).

(** The decimal digits of the Unicode database (version 14.0, the one of
    Python 3.11): each entry is the digit zero of a script, followed by its
    digits one to nine. *)
Definition digit_zeros : list N :=
  [0x30; 0x660; 0x6F0; 0x7C0; 0x966; 0x9E6; 0xA66; 0xAE6; 0xB66; 0xBE6; 0xC66;
   0xCE6; 0xD66; 0xDE6; 0xE50; 0xED0; 0xF20; 0x1040; 0x1090; 0x17E0; 0x1810;
   0x1946; 0x19D0; 0x1A80; 0x1A90; 0x1B50; 0x1BB0; 0x1C40; 0x1C50; 0xA620;
   0xA8D0; 0xA900; 0xA9D0; 0xA9F0; 0xAA50; 0xABF0; 0xFF10; 0x104A0; 0x10D30;
   0x11066; 0x110F0; 0x11136; 0x111D0; 0x112F0; 0x11450; 0x114D0; 0x11650;
   0x116C0; 0x11730; 0x118E0; 0x11950; 0x11C50; 0x11D50; 0x11DA0; 0x16A60;
   0x16AC0; 0x16B50; 0x1D7CE; 0x1D7D8; 0x1D7E2; 0x1D7EC; 0x1D7F6; 0x1E140;
   0x1E2F0; 0x1E950; 0x1FBF0]%N.

(** [Py_UNICODE_TODECIMAL] *)
Definition decimal (c : N) : option N :=
  (fun zero => c - zero)%N <$>
  List.find (fun zero => (zero <=? c) && (c <? zero + 10))%N digit_zeros.

(** [_PyUnicode_TransformDecimalAndSpaceToASCII], which [int()] and
    [float()] apply to their argument: a text with a character outside ASCII
    has its white space replaced by blanks and its decimal digits by ASCII
    digits, and is cut off with a question mark at the first character that
    is neither; an ASCII text is taken as it is. *)
Fixpoint to_ascii (l : list (N * string)) : string :=
  match l with
  | [] => EmptyString
  | c :: l' =>
      if (c.1 <? 127)%N then String (ascii_of_N c.1) (to_ascii l')
      else if isspace c.1 then String " " (to_ascii l')
      else match decimal c.1 with
           | Some d => String (ascii_of_N (48 + d)) (to_ascii l')
           | None => "?"
           end
  end.

Fixpoint is_ascii (s : string) : bool :=
  match s with
  | EmptyString => true
  | String a s' => (N_of_ascii a <? 0x80)%N && is_ascii s'
  end.

Definition transform (s : string) : string :=
  if is_ascii s then s else to_ascii (chars s).

(** Decimal digits, single underscores allowed between two digits; [prev]
    tells whether the previous character was a digit. *)
Fixpoint int_digits (acc : Z) (prev : bool) (s : string) : option Z :=
  match s with
  | EmptyString => if prev then Some acc else None
  | String a s' =>
      match digit_of a with
      | Some d => int_digits (10 * acc + d) true s'
      | None => if Ascii.eqb a "_" && prev then int_digits acc false s' else None
      end
  end.

Fixpoint count_digits (s : string) : N :=
  match s with
  | EmptyString => 0%N
  | String a s' =>
      match digit_of a with
      | Some _ => N.succ (count_digits s')
      | None => count_digits s'
      end
  end.

(** [int(s)] in base 10; [None] stands for [ValueError]. [max_str_digits] is
    [sys.get_int_max_str_digits()]: a text with more digits is refused, unless
    the limit is 0, which switches it off. *)
Definition int_of_str (max_str_digits : N) (s : string) : option Z :=
  let t := trim (transform s) in
  let '(negative, digits) := match t with
                             | String "-" r => (true, r)
                             | String "+" r => (false, r)
                             | r => (false, r)
                             end in
  if ((0 <? max_str_digits) && (max_str_digits <? count_digits digits))%N then None
  else (fun v => if negative then - v else v) <$> int_digits 0 false digits.

(** [str(n)] for an integer [n]. *)
Definition str_of_int (z : Z) : string := NilZero.string_of_int (Z.to_int z).

(** [s.split(sep)] for a one-character separator. *)
Fixpoint split (sep : ascii) (s : string) : list string :=
  match s with
  | EmptyString => [EmptyString]
  | String a s' =>
      if Ascii.eqb a sep then EmptyString :: split sep s'
      else match split sep s' with
           | h :: t => String a h :: t
           | [] => [String a EmptyString]
           end
  end.

Fixpoint startswith (p s : string) : bool :=
  match p, s with
  | EmptyString, _ => true
  | String a p', String b s' => Ascii.eqb a b && startswith p' s'
  | String _ _, EmptyString => false
  end.

Fixpoint endswith (suf s : string) : bool :=
  String.eqb s suf ||
  match s with
  | EmptyString => false
  | String _ s' => endswith suf s'
  end.

(** [name.rpartition('.')], [None] when [name] has no dot. *)
Fixpoint rpartition_dot (s : string) : option (string * string) :=
  match s with
  | EmptyString => None
  | String a s' =>
      match rpartition_dot s' with
      | Some (b, e) => Some (String a b, e)
      | None => if Ascii.eqb a "." then Some (EmptyString, s') else None
      end
  end.

(** [PurePath.stem]: the name without its last suffix. *)
Definition stem (name : string) : string :=
  match rpartition_dot name with
  | Some (b, e) =>
      if negb (String.eqb b "") && negb (String.eqb e "") then b else name
  | None => name
  end.

(** [max(l, default=d)] *)
Definition max_default (l : list Z) (d : Z) : Z :=
  match l with
  | [] => d
  | x :: l' => fold_left Z.max l' x
  end.

(** [min(a, b)] on floats: the first argument unless the second is smaller. *)
Definition fmin (a b : float) : float := if PrimFloat.ltb b a then b else a.

End Py.

(** ** Interpreter and library primitives *)

(** Text form of floats. [repr] is what [csv.writer] writes for a float field
    ([repr(x)], the shortest decimal that reads back as [x]) and [float_of_str]
    is [float(s)], with [None] for [ValueError]. *)
Class FloatText := {
  repr : float -> string;
  float_of_str : string -> option float
}.

(** [int(s)], with [None] for [ValueError]. What it accepts depends on the
    interpreter: on its Unicode database, for the digits of other scripts,
    and on its limit on the number of digits. *)
Class IntText := {
  int_of_str : string -> option Z
}.

(** The round trip of integers through text: [int(str(n)) == n]. *)
Class IntRoundTrip `{IntText} : Prop :=
  int_of_str_of_int : forall z : Z, int_of_str (Py.str_of_int z) = Some z.

(** pygame's drawing functions, [pygame.draw.line] for its two ends and
    [pygame.draw.circle] for its centre alike, take a coordinate that fits
    the C integer they convert it to and raise on any other; how wide that
    integer is depends on the platform and on the version of pygame. *)
Class Pygame := {
  drawable : Z -> bool
}.

(** ** Data model *)

(** A sample is the tuple [(timestamp, x, y, event)]. *)
Definition Sample : Type := float * Z * Z * Z.

Definition Row : Type := list string.

(** A CSV file as [csv.reader] reads it: the rows it yields, and whether it
    then comes to the end of the file. It does not when reading raises on the
    way: the file cannot be opened for reading, a byte is not UTF-8, a field
    exceeds the field size limit. *)
Record File := mkFile {
  file_rows : list Row;
  reads_through : bool
}.

(** A file that reads through. *)
Definition text (rows : list Row) : File := mkFile rows true.

(** The trajectory directory: file name to CSV file. *)
Abbreviation Dir := (gmap string File).

Inductive Key :=
  | K_s | K_q | K_y | K_n | K_p | K_r | K_SPACE | K_ESCAPE
  | K_other (code : Z).

Inductive PgEvent :=
  | QUIT
  | KEYDOWN (key : Key)
  | KEYUP (key : Key)
  | MOUSEMOTION (pos : Z * Z)
  | OTHEREVENT.

Definition is_key (k1 k2 : Key) : bool :=
  match k1, k2 with
  | K_s, K_s | K_q, K_q | K_y, K_y | K_n, K_n | K_p, K_p | K_r, K_r
  | K_SPACE, K_SPACE | K_ESCAPE, K_ESCAPE => true
  | K_other a, K_other b => Z.eqb a b
  | _, _ => false
  end.

(** ** Recorder: [VertexPursuitGame] *)

Record Game := mkGame {
  tracking : bool;
  mouse_positions : list Sample;
  space_event : Z;
  start_time : float;
  save_prompt : bool;
  next_participant : bool;
  participant_number : Z;
  trial_number : Z;
  max_trials : Z
}.

(** [f"SHSA_{participant_number}_{trial_number}.csv"] *)
Definition file_name (participant trial : Z) : string :=
  "SHSA_" +:+ Py.str_of_int participant +:+ "_" +:+ Py.str_of_int trial +:+ ".csv".

Definition expected_header : Row := ["Timestamp"; "X"; "Y"; "Event"].

(** [data_dir.glob("SHSA_*.csv")] over the names in the directory, compared
    letter by letter as on a POSIX file system. *)
Definition glob_SHSA_csv (names : list string) : list string :=
  filter (fun n => Py.startswith "SHSA_" n && Py.endswith ".csv" n = true) names.

Definition listing (d : Dir) : list string := (map_to_list d).*1.

(** What [_render_ui] shows besides the status line: the save prompt, the
    advance prompt, or the idle help; nothing while tracking. *)
Inductive UiMessage := SaveThisTrial | MoveToNextParticipant | PressSToStart.

(** What the storage does when the data file is written: the file is opened,
    written and closed; or [open(filepath, 'w')] raises [IOError] and the file
    is not touched; or [open] succeeds, which empties the file, and a write
    or the closing of the file raises [IOError], the file then holding
    whatever reached it before, as the rows [remains] (none, when nothing
    did). *)
Inductive Disk :=
  | Written
  | OpenFails
  | WriteFails (remains : list Row).

(** One polled event together with what the environment answers while it is
    handled: the clock and the outcome of writing the data file. *)
Record Input := mkInput { now : float; disk : Disk; ev : PgEvent }.

(** The recorder's state: the session, the directory, and [running]. *)
Definition Recorder : Type := Game * Dir * bool.

(** ** Replay viewer: [VertexPursuitReplay] *)

(** What [_load_trial_data] raises: [FileNotFoundError], or the generic
    [Exception] that wraps every other failure: the [StopIteration] of
    [next(reader)] on a file with no row at all, the [ValueError] for zero
    valid rows, and whatever opening, decoding or the reader raise. *)
Inductive LoadCause := NoHeaderRow | NoValidData | ReaderRaised.
Inductive LoadError := FileNotFound | Invalid (cause : LoadCause).

(** What [_replay_trial] catches and reports: a failed load, or an error
    raised by a drawing function. *)
Inductive ReplayError := LoadFailed (e : LoadError) | DrawFailed.

Inductive Message :=
  | WarnHeader (header : Row)
  | WarnRow (row_num : Z) (row : Row)
  | MsgLoaded (n : nat)
  | MsgReplay (paused : bool)
  | MsgStopped
  | MsgRestarting
  | MsgCompleted
  | MsgReplayError (e : ReplayError)
  | MsgInvalidInput
  | MsgCancelled
  | MsgLoading (participant trial : Z)
  | MsgFileNotFound (name : string)
  | MsgClosed.

Inductive StatusText :=
  | StPressR
  | StPressP
  | StProgress (paused : bool) (counter total : nat)
  | StCompleted.

Inductive Effect :=
  | Print (m : Message)
  | Blit
  | Status (text : StatusText)
  | DrawLine (start_pos end_pos : Z * Z)
  | DrawCircle (pos : Z * Z)
  | Sleep (seconds : float)
  | Flip
  | Tick
  | PygameQuit.

(** The fields of [self] that the replay uses. *)
Record Viewer := mkViewer {
  is_paused : bool;
  spacebar_events : list (Z * Z)
}.

(** The locals of [_replay_trial]. *)
Record Cursor := mkCursor {
  counter : nat;
  previous_position : Z * Z;
  previous_timestamp : float
}.

(** Where a run of the replay loop stands: the viewer, the cursor, the
    return code ([None] while the loop is still waiting for input), the
    frames not yet polled, and the effects so far. *)
Record Outcome := mkOutcome {
  o_viewer : Viewer;
  o_cursor : Cursor;
  o_code : option Z;
  o_frames : list (list PgEvent);
  o_trace : list Effect
}.

Definition emit (out : list Effect) (o : Outcome) : Outcome :=
  mkOutcome (o_viewer o) (o_cursor o) (o_code o) (o_frames o) (out ++ o_trace o).

Definition start_cursor : Cursor := mkCursor 0 (-1, -1) 0%float.

(** What the evaluator types at the two [input()] prompts. *)
Inductive Typed := Lines (participant_num trial_num : string) | KeyboardInterrupt.

Definition _get_data_file_path (participant_number trial_number : Z) : string :=
  file_name participant_number trial_number.

(** The viewer application: [self], [running], the input still to come (event
    batches and typed lines), the effects so far, and [in_replay]: the cursor
    of a replay loop that the recorded input left waiting. *)
Record App := mkApp {
  app_viewer : Viewer;
  app_running : bool;
  app_frames : list (list PgEvent);
  app_typed : list Typed;
  app_trace : list Effect;
  in_replay : option Cursor
}.

Section Programs.
Context {float_text : FloatText} {int_text : IntText} {pygame : Pygame}.

(** *** The recorder *)

(** Participant numbers found in the directory listing: the names matching
    [SHSA_*.csv] whose second [_]-separated stem component reads as an
    integer. *)
Fixpoint existing_numbers (existing_files : list string) : list Z :=
  match existing_files with
  | [] => []
  | file :: rest =>
      match Py.split "_" (Py.stem file) with
      | _ :: p1 :: _ =>
          match int_of_str p1 with
          | Some n => n :: existing_numbers rest
          | None => existing_numbers rest
          end
      | _ => existing_numbers rest
      end
  end.

(** [_get_next_participant_number], over the listing of the directory. *)
Definition _get_next_participant_number (listing : list string) : Z :=
  let existing_files := glob_SHSA_csv listing in
  match existing_files with
  | [] => 1
  | _ => Py.max_default (existing_numbers existing_files) 0 + 1
  end.

Definition sample_row (s : Sample) : Row :=
  let '(timestamp, x, y, event) := s in
  [repr timestamp; Py.str_of_int x; Py.str_of_int y; Py.str_of_int event].

(** [_save_trajectory_data]; the first component is the returned flag. An
    empty record returns before the storage is touched. Opening with ['w']
    truncates, so a successful save replaces whatever the name held, and a
    save that fails after opening leaves what was written before the error.
    The directory exists since construction, so [mkdir(exist_ok=True)] does
    nothing. The header written is the one the viewer expects. *)
Definition _save_trajectory_data (disk : Disk) (g : Game) (d : Dir)
  : bool * Dir :=
  match mouse_positions g with
  | [] => (false, d)
  | _ =>
      let filename := file_name (participant_number g) (trial_number g) in
      match disk with
      | Written =>
          (true, <[filename := text (expected_header :: map sample_row (mouse_positions g))]> d)
      | OpenFails => (false, d)
      | WriteFails remains => (false, <[filename := text remains]> d)
      end
  end.

(** [_handle_keydown]; the last component is the returned flag. [now] is
    [time.time()]. *)
Definition _handle_keydown (now : float) (disk : Disk) (key : Key)
    (g : Game) (d : Dir) : Game * Dir * bool :=
  if is_key key K_s && negb (next_participant g) then
    (mkGame true [] (space_event g) now (save_prompt g) (next_participant g)
            (participant_number g) (trial_number g) (max_trials g), d, true)
  else if is_key key K_q then
    (mkGame false (mouse_positions g) (space_event g) (start_time g) true
            (next_participant g) (participant_number g) (trial_number g)
            (max_trials g), d, true)
  else if is_key key K_y && save_prompt g then
    let '(saved, d') := _save_trajectory_data disk g d in
    let trial := if saved then trial_number g + 1 else trial_number g in
    let np := if saved && (max_trials g <? trial) then true
              else next_participant g in
    (mkGame (tracking g) (mouse_positions g) (space_event g) (start_time g)
            false np (participant_number g) trial (max_trials g), d', true)
  else if is_key key K_n && save_prompt g then
    (mkGame (tracking g) (mouse_positions g) (space_event g) (start_time g)
            false (next_participant g) (participant_number g) (trial_number g)
            (max_trials g), d, true)
  else if is_key key K_y && next_participant g then
    (mkGame (tracking g) (mouse_positions g) (space_event g) (start_time g)
            (save_prompt g) false (participant_number g + 1) 1 (max_trials g),
     d, true)
  else if is_key key K_n && next_participant g then
    (mkGame (tracking g) (mouse_positions g) (space_event g) (start_time g)
            (save_prompt g) false (participant_number g) (trial_number g)
            (max_trials g), d, true)
  else if is_key key K_SPACE then
    (mkGame (tracking g) (mouse_positions g) 1 (start_time g) (save_prompt g)
            (next_participant g) (participant_number g) (trial_number g)
            (max_trials g), d, true)
  else if is_key key K_ESCAPE then (g, d, false)
  else (g, d, true).

Definition _handle_keyup (key : Key) (g : Game) : Game :=
  if is_key key K_SPACE then
    mkGame (tracking g) (mouse_positions g) 0 (start_time g) (save_prompt g)
           (next_participant g) (participant_number g) (trial_number g)
           (max_trials g)
  else g.

Definition _handle_mouse_motion (now : float) (pos : Z * Z) (g : Game) : Game :=
  if tracking g then
    let '(x, y) := pos in
    let timestamp := PrimFloat.sub now (start_time g) in
    mkGame (tracking g) (mouse_positions g ++ [(timestamp, x, y, space_event g)])
           (space_event g) (start_time g) (save_prompt g) (next_participant g)
           (participant_number g) (trial_number g) (max_trials g)
  else g.

(** [_render_trajectory]: the points handed to [pygame.draw.lines], if it is
    called. *)
Definition _render_trajectory (g : Game) : option (list (Z * Z)) :=
  if tracking g && (1 <? length (mouse_positions g))%nat
  then Some (map (fun pos : Sample => (pos.1.1.2, pos.1.2)) (mouse_positions g))
  else None.

(** [_render_ui]: the numbers of the status line ([Participant: p | Trial:
    t/max]) and the message displayed. *)
Definition _render_ui (g : Game) : (Z * Z * Z) * option UiMessage :=
  ((participant_number g, trial_number g, max_trials g),
   if save_prompt g then Some SaveThisTrial
   else if next_participant g then Some MoveToNextParticipant
   else if negb (tracking g) then Some PressSToStart
   else None).

(** The body of [for event in pygame.event.get()] in [run]. *)
Definition dispatch (i : Input) (r : Recorder) : Recorder :=
  let '(g, d, running) := r in
  match ev i with
  | QUIT => (g, d, false)
  | KEYDOWN key =>
      let '(g', d', continue) := _handle_keydown (now i) (disk i) key g d in
      (g', d', if continue then running else false)
  | KEYUP key => (_handle_keyup key g, d, running)
  | MOUSEMOTION pos => (_handle_mouse_motion (now i) pos g, d, running)
  | OTHEREVENT => r
  end.

Definition handle_events (batch : list Input) (r : Recorder) : Recorder :=
  fold_left (fun r i => dispatch i r) batch r.

(** [run]: one batch of events per frame, until [running] is cleared or the
    recorded input ends. *)
Fixpoint run (frames : list (list Input)) (r : Recorder) : Recorder :=
  match frames with
  | [] => r
  | batch :: rest =>
      let r' := handle_events batch r in
      if r'.2 then run rest r' else r'
  end.

(** [__init__]: the session a fresh recorder starts with. *)
Definition init (d : Dir) : Game :=
  mkGame false [] 0 0%float false false
         (_get_next_participant_number (listing d)) 1 5.

(** *** The viewer *)

Definition parse_row (row : Row) : option Sample :=
  f0 ← row !! 0%nat; timestamp ← float_of_str f0;
  f1 ← row !! 1%nat; x ← int_of_str f1;
  f2 ← row !! 2%nat; y ← int_of_str f2;
  f3 ← row !! 3%nat; event ← int_of_str f3;
  Some (timestamp, x, y, event).

(** The [for row_num, row in enumerate(reader, start=2)] loop: the samples
    appended to [events_data] and the warnings printed. *)
Fixpoint load_rows (row_num : Z) (rows : list Row) : list Sample * list Message :=
  match rows with
  | [] => ([], [])
  | row :: rest =>
      let '(events_data, warnings) := load_rows (row_num + 1) rest in
      match parse_row row with
      | Some s => (s :: events_data, warnings)
      | None => (events_data, WarnRow row_num row :: warnings)
      end
  end.

(** [_load_trial_data]: the result and the warnings printed. An error of the
    reader is raised where the reader is asked for the next row, outside the
    [try] that guards the fields of a row: it ends the load as a failure,
    whatever rows were valid before. *)
Definition _load_trial_data (d : Dir) (filepath : string)
  : (LoadError + list Sample) * list Message :=
  match d !! filepath with
  | None => (inl FileNotFound, [])
  | Some file =>
      match file_rows file with
      | [] => (inl (Invalid (if reads_through file then NoHeaderRow else ReaderRaised)), [])
      | header :: rows =>
          let hw := if decide (header = expected_header) then []
                    else [WarnHeader header] in
          let '(events_data, warnings) := load_rows 2 rows in
          if reads_through file then
            match events_data with
            | [] => (inl (Invalid NoValidData), hw ++ warnings)
            | _ => (inr events_data, hw ++ warnings)
            end
          else (inl (Invalid ReaderRaised), hw ++ warnings)
      end
  end.

(** Whether [pygame.draw] takes a position. *)
Definition on_screen (pos : Z * Z) : bool := drawable pos.1 && drawable pos.2.

(** [_draw_trajectory_segment]; [None] when [pygame.draw.line] raises. *)
Definition _draw_trajectory_segment (start_pos end_pos : Z * Z)
  : option (list Effect) :=
  if decide (start_pos = (-1, -1)) then Some []
  else if on_screen start_pos && on_screen end_pos
       then Some [DrawLine start_pos end_pos]
       else None.

(** The loop of [_draw_spacebar_events]: the circles drawn, and whether it
    got through; it does not when [pygame.draw.circle] raises. *)
Fixpoint draw_circles (positions : list (Z * Z)) : list Effect * bool :=
  match positions with
  | [] => ([], true)
  | pos :: rest =>
      if on_screen pos then
        let '(out, through) := draw_circles rest in (DrawCircle pos :: out, through)
      else ([], false)
  end.

Definition _draw_spacebar_events (v : Viewer) : list Effect * bool :=
  draw_circles (spacebar_events v).

(** The body of [if not self.is_paused:] in the replay loop; the last
    component is [false] when a drawing function raises, which leaves the
    cursor where it was. *)
Definition play_sample (events_data : list Sample) (v : Viewer) (c : Cursor)
  : Viewer * Cursor * list Effect * bool :=
  match events_data !! counter c with
  | None => (v, c, [], true)
  | Some (timestamp, x, y, spacebar_event) =>
      let current_position := (x, y) in
      match _draw_trajectory_segment (previous_position c) current_position with
      | None => (v, c, [], false)
      | Some segment =>
          let v' := if spacebar_event =? 1
                    then mkViewer (is_paused v) (spacebar_events v ++ [current_position])
                    else v in
          let '(circles, through) := _draw_spacebar_events v' in
          if through then
            let delay := PrimFloat.sub timestamp (previous_timestamp c) in
            let sleep := if (0 <? counter c)%nat && PrimFloat.ltb 0 delay
                         then [Sleep (Py.fmin delay 0.1)] else [] in
            (v', mkCursor (S (counter c)) current_position timestamp,
             segment ++ circles ++ sleep, true)
          else (v', c, segment ++ circles, false)
      end
  end.

(** The [for event in pygame.event.get()] loop inside [_replay_trial]:
    [Some code] when it returns from the function. *)
Fixpoint poll (batch : list PgEvent) (v : Viewer)
  : Viewer * list Effect * option Z :=
  match batch with
  | [] => (v, [], None)
  | QUIT :: _ => (v, [], Some (-1))
  | KEYDOWN K_p :: rest =>
      let v' := mkViewer (negb (is_paused v)) (spacebar_events v) in
      let '(v'', out, r) := poll rest v' in
      (v'', Print (MsgReplay (is_paused v')) :: out, r)
  | KEYDOWN K_q :: _ => (v, [Print MsgStopped], Some (-1))
  | KEYDOWN K_r :: _ => (v, [Print MsgRestarting], Some 1)
  | _ :: rest => poll rest v
  end.

(** [while counter < len(events_data)], one batch of events per iteration.
    An error raised while a sample is drawn is caught by the [except] of
    [_replay_trial]: it is printed and the function returns [-1]. *)
Fixpoint replay_loop (events_data : list Sample) (frames : list (list PgEvent))
    (v : Viewer) (c : Cursor) : Outcome :=
  if (counter c <? length events_data)%nat then
    match frames with
    | [] => mkOutcome v c None [] []
    | batch :: frames' =>
        match poll batch v with
        | (v1, out1, Some code) => mkOutcome v1 c (Some code) frames' out1
        | (v1, out1, None) =>
            let '(v2, c2, out2, drawn) :=
              if is_paused v1 then (v1, c, [], true)
              else play_sample events_data v1 c in
            if drawn then
              emit (out1 ++ out2 ++
                    [Status (StProgress (is_paused v2) (counter c2) (length events_data));
                     Flip; Tick])
                   (replay_loop events_data frames' v2 c2)
            else
              mkOutcome v2 c2 (Some (-1)) frames'
                        (out1 ++ out2 ++ [Print (MsgReplayError DrawFailed)])
        end
    end
  else mkOutcome v c (Some 0) frames [Status StCompleted; Flip; Print MsgCompleted].

(** [_replay_trial]; a load failure is caught, printed, and returns [-1]. *)
Definition _replay_trial (d : Dir) (filepath : string)
    (frames : list (list PgEvent)) (v : Viewer) : Outcome :=
  match _load_trial_data d filepath with
  | (inl e, warnings) =>
      mkOutcome v start_cursor (Some (-1)) frames
                (map Print warnings ++ [Print (MsgReplayError (LoadFailed e))])
  | (inr events_data, warnings) =>
      emit (map Print warnings ++
            [Print (MsgLoaded (length events_data)); Blit; Status StPressP; Flip])
           (replay_loop events_data frames (mkViewer (is_paused v) []) start_cursor)
  end.

Definition _get_trial_selection (t : Typed) : option (Z * Z) * list Effect :=
  match t with
  | KeyboardInterrupt => (None, [Print MsgCancelled])
  | Lines participant_num trial_num =>
      match int_of_str (Py.strip participant_num),
            int_of_str (Py.strip trial_num) with
      | Some participant_number, Some trial_number =>
          if negb ((1 <=? participant_number) && (participant_number <=? 24))
          then (None, [Print MsgInvalidInput])
          else if negb ((1 <=? trial_number) && (trial_number <=? 5))
          then (None, [Print MsgInvalidInput])
          else (Some (participant_number, trial_number), [])
      | _, _ => (None, [Print MsgInvalidInput])
      end
  end.

(** The [KEYDOWN K_r] branch of [run]. *)
Definition load_and_replay (d : Dir) (a : App) : App :=
  let '(selection, out1) :=
    match app_typed a with
    | [] => _get_trial_selection KeyboardInterrupt
    | t :: _ => _get_trial_selection t
    end in
  let typed' := tail (app_typed a) in
  match selection with
  | None => mkApp (app_viewer a) (app_running a) (app_frames a) typed'
                  (app_trace a ++ out1) None
  | Some (participant_num, trial_num) =>
      let filepath := _get_data_file_path participant_num trial_num in
      match d !! filepath with
      | None => mkApp (app_viewer a) (app_running a) (app_frames a) typed'
                      (app_trace a ++ out1 ++ [Print (MsgFileNotFound filepath)])
                      None
      | Some _ =>
          let v := mkViewer true (spacebar_events (app_viewer a)) in
          let o := _replay_trial d filepath (app_frames a) v in
          mkApp (o_viewer o)
                (match o_code o with
                 | Some code => if code =? -1 then false else app_running a
                 | None => app_running a
                 end)
                (o_frames o) typed'
                (app_trace a ++ out1 ++
                 [Print (MsgLoading participant_num trial_num); Blit; Flip] ++
                 o_trace o)
                (match o_code o with Some _ => None | None => Some (o_cursor o) end)
      end
  end.

(** The [for event in pygame.event.get()] loop of [run]. *)
Fixpoint run_events (d : Dir) (batch : list PgEvent) (a : App) : App :=
  match in_replay a with
  | Some _ => a
  | None =>
      match batch with
      | [] => a
      | QUIT :: rest =>
          run_events d rest
            (mkApp (app_viewer a) false (app_frames a) (app_typed a) (app_trace a) None)
      | KEYDOWN K_r :: rest => run_events d rest (load_and_replay d a)
      | KEYDOWN K_ESCAPE :: rest =>
          run_events d rest
            (mkApp (app_viewer a) false (app_frames a) (app_typed a) (app_trace a) None)
      | _ :: rest => run_events d rest a
      end
  end.

(** [while running:] of the viewer's [run]; [fuel] bounds the iterations, and
    one more than the number of frames is always enough. The frame's
    [clock.tick] is reached once the events of the frame are handled, a
    replay entered on the way having returned. *)
Fixpoint run_loop (fuel : nat) (d : Dir) (a : App) : App :=
  match fuel with
  | O => a
  | S fuel' =>
      match in_replay a with
      | Some _ => a
      | None =>
          if app_running a then
            match app_frames a with
            | [] => a
            | batch :: rest =>
                let a1 := run_events d batch
                   (mkApp (app_viewer a) true rest (app_typed a) (app_trace a) None) in
                match in_replay a1 with
                | Some _ => a1
                | None =>
                    run_loop fuel' d
                      (mkApp (app_viewer a1) (app_running a1) (app_frames a1)
                             (app_typed a1) (app_trace a1 ++ [Tick]) None)
                end
            end
          else
            mkApp (app_viewer a) false (app_frames a) (app_typed a)
                  (app_trace a ++ [PygameQuit; Print MsgClosed]) None
      end
  end.

(** The viewer's [run] on recorded input, from a fresh [VertexPursuitReplay]. *)
Definition viewer_run (d : Dir) (frames : list (list PgEvent)) (typed : list Typed) : App :=
  run_loop (S (S (length frames))) d
    (mkApp (mkViewer true []) true frames typed [Blit; Status StPressR; Flip] None).

End Programs.

(** ** One implementation of the primitives

    A reader of floats that rounds a decimal literal to the nearest float
    (ties to even) and a printer that emits the fewest significant digits
    that read back as the same float, laid out the way [repr] lays them out;
    [int()] with the digit limit switched off; and drawing functions that
    take the coordinates of a 32-bit C integer. They are used to run the
    programs on concrete records. *)

Module DecimalText.

(** Nearest float to [num / den], for positive [num] and [den]. *)
Definition round_ratio (num den : Z) : float :=
  let l := Z.log2 num - Z.log2 den in
  let quot e := if 0 <=? e then num / (den * 2 ^ e) else (num * 2 ^ (- e)) / den in
  let e1 := l - 52 in
  let q1 := quot e1 in
  let e2 := if 2 ^ 53 <=? q1 then e1 + 1 else if q1 <? 2 ^ 52 then e1 - 1 else e1 in
  let e := Z.max e2 (-1074) in
  let n := if 0 <=? e then num else num * 2 ^ (- e) in
  let dv := if 0 <=? e then den * 2 ^ e else den in
  let q := n / dv in
  let r := n mod dv in
  let q' := if (dv <? 2 * r) || ((dv =? 2 * r) && Z.odd q) then q + 1 else q in
  Z.ldexp (PrimFloat.of_uint63 (Uint63.of_Z q')) e.

(** Nearest float to [n * 10 ^ k], for [0 <= n]. *)
Definition of_decimal (n k : Z) : float :=
  if n =? 0 then 0%float
  else if 0 <=? k then round_ratio (n * 10 ^ k) 1
  else round_ratio n (10 ^ (- k)).

Fixpoint span_digits (s : string) : string * string :=
  match s with
  | EmptyString => (EmptyString, EmptyString)
  | String a s' =>
      match Py.digit_of a with
      | Some _ => let '(ds, r) := span_digits s' in (String a ds, r)
      | None => (EmptyString, s)
      end
  end.

Fixpoint horner (acc : Z) (s : string) : Z :=
  match s with
  | EmptyString => acc
  | String a s' => horner (10 * acc + default 0 (Py.digit_of a)) s'
  end.

Definition read_exponent (s : string) : option Z :=
  match s with
  | EmptyString => Some 0
  | String c r =>
      if Ascii.eqb c "e" then
        let '(neg, r') := match r with
                          | String "-" t => (true, t)
                          | String "+" t => (false, t)
                          | _ => (false, r)
                          end in
        match span_digits r' with
        | (String a ds, EmptyString) =>
            let v := horner 0 (String a ds) in Some (if neg then - v else v)
        | _ => None
        end
      else None
  end.

Definition lower (a : ascii) : ascii :=
  let n := N_of_ascii a in
  if ((65 <=? n) && (n <=? 90))%N then ascii_of_N (n + 32) else a.

Fixpoint lowercase (s : string) : string :=
  match s with
  | EmptyString => EmptyString
  | String a s' => String (lower a) (lowercase s')
  end.

(** Underscores are taken out; each has to stand between two digits. *)
Fixpoint without_underscores (prev : bool) (s : string) : option string :=
  match s with
  | EmptyString => Some EmptyString
  | String a s' =>
      if Ascii.eqb a "_" then
        match s' with
        | String b _ =>
            if prev && bool_decide (is_Some (Py.digit_of b))
            then without_underscores false s' else None
        | EmptyString => None
        end
      else String a <$> without_underscores (bool_decide (is_Some (Py.digit_of a))) s'
  end.

(** [float(s)] on decimal literals, [inf] and [nan]. *)
Definition read (s : string) : option float :=
  s1 ← without_underscores false (lowercase (Py.trim (Py.transform s)));
  let '(neg, s2) := match s1 with
                    | String "-" r => (true, r)
                    | String "+" r => (false, r)
                    | _ => (false, s1)
                    end in
  let sign (f : float) := if neg then PrimFloat.opp f else f in
  if String.eqb s2 "inf" || String.eqb s2 "infinity" then Some (sign infinity)
  else if String.eqb s2 "nan" then Some nan
  else
    let '(ip, r1) := span_digits s2 in
    let '(fp, r2) := match r1 with
                     | String "." r => span_digits r
                     | _ => (EmptyString, r1)
                     end in
    if String.eqb ip "" && String.eqb fp "" then None
    else match read_exponent r2 with
         | None => None
         | Some ex =>
             Some (sign (of_decimal (horner 0 (ip +:+ fp))
                                    (ex - Z.of_nat (String.length fp))))
         end.

Definition ndigits (z : Z) : Z := Z.of_nat (String.length (Py.str_of_int z)).

(** The exponent [d] with [10 ^ d <= num / den < 10 ^ (d + 1)]. *)
Definition decimal_exponent (num den : Z) : Z :=
  if den <=? num then ndigits (num / den) - 1
  else let j := ndigits (den / num) in
       if den <=? num * 10 ^ (j - 1) then - (j - 1) else - j.

(** [num / den] in units of [10 ^ s]: the two integers next to it, the
    nearer one first (on a tie, the even one). *)
Definition scaled_digits (num den s : Z) : Z * Z :=
  let n := if 0 <=? s then num else num * 10 ^ (- s) in
  let dv := if 0 <=? s then den * 10 ^ s else den in
  let q := n / dv in
  let r := n mod dv in
  if (dv <? 2 * r) || ((dv =? 2 * r) && Z.odd q) then (q + 1, q) else (q, q + 1).

(** The first precision [p], counting up, at which one of the two decimals
    next to [f] reads back as [f]; the nearer one, if both do. *)
Fixpoint shortest (fuel : nat) (p : Z) (f : float) (num den dexp : Z) : Z * Z :=
  let s := dexp - p + 1 in
  let '(near, far) := scaled_digits num den s in
  match fuel with
  | O => (near, s)
  | S fuel' =>
      if PrimFloat.eqb (of_decimal near s) f then (near, s)
      else if PrimFloat.eqb (of_decimal far s) f then (far, s)
      else shortest fuel' (p + 1) f num den dexp
  end.

Fixpoint strip_zeros (fuel : nat) (dg k : Z) : Z * Z :=
  match fuel with
  | O => (dg, k)
  | S fuel' =>
      if (dg mod 10 =? 0) && negb (dg =? 0) then strip_zeros fuel' (dg / 10) (k + 1)
      else (dg, k)
  end.

Fixpoint zeros (n : nat) : string :=
  match n with
  | O => EmptyString
  | S n' => String "0" (zeros n')
  end.

(** Layout of the digits [ds] with the decimal point after [decpt] digits. *)
Definition layout (ds : string) (decpt : Z) : string :=
  let nd := Z.of_nat (String.length ds) in
  if (16 <? decpt) || (decpt <? -3) then
    let ex := decpt - 1 in
    let es := Py.str_of_int (Z.abs ex) in
    let mant := match ds with
                | String a EmptyString => ds
                | String a r => String a (String "." r)
                | EmptyString => ds
                end in
    mant +:+ "e" +:+ (if ex <? 0 then "-" else "+")
         +:+ (if Z.abs ex <? 10 then "0" else "") +:+ es
  else if decpt <=? 0 then "0." +:+ zeros (Z.to_nat (- decpt)) +:+ ds
  else if nd <=? decpt then ds +:+ zeros (Z.to_nat (decpt - nd)) +:+ ".0"
  else String.substring 0 (Z.to_nat decpt) ds +:+ "."
       +:+ String.substring (Z.to_nat decpt) (Z.to_nat (nd - decpt)) ds.

Definition print (f : float) : string :=
  match Prim2SF f with
  | SpecFloat.S754_zero s => if s then "-0.0" else "0.0"
  | SpecFloat.S754_infinity s => if s then "-inf" else "inf"
  | SpecFloat.S754_nan => "nan"
  | SpecFloat.S754_finite s m e =>
      let num := if 0 <=? e then Z.pos m * 2 ^ e else Z.pos m in
      let den := if 0 <=? e then 1 else 2 ^ (- e) in
      let '(dg0, k0) := shortest 16 1 (PrimFloat.abs f) num den
                                 (decimal_exponent num den) in
      let '(dg, k) := strip_zeros 17 dg0 k0 in
      let ds := Py.str_of_int dg in
      (if s then "-" else "") +:+ layout ds (Z.of_nat (String.length ds) + k)
  end.

End DecimalText.

Definition decimal_text : FloatText :=
  {| repr := DecimalText.print; float_of_str := DecimalText.read |}.

(** [int()] with [sys.set_int_max_str_digits(0)]. *)
Definition python_int : IntText := {| int_of_str := Py.int_of_str 0 |}.

(** Coordinates in the range of a 32-bit C integer. *)
Definition c_int : Pygame :=
  {| drawable := fun z => (- 2 ^ 31 <=? z) && (z <? 2 ^ 31) |}.

(** ** Vocabulary of the properties *)

(** *** Text *)

(** Characters of a printed integer. *)
Definition numchar (a : ascii) : bool :=
  match Py.digit_of a with Some _ => true | None => Ascii.eqb a "-" end.

Fixpoint all_chars (P : ascii -> bool) (s : string) : bool :=
  match s with
  | EmptyString => true
  | String a s' => P a && all_chars P s'
  end.

(** Horner value of a decimal numeral, from the accumulator [acc]. *)
Fixpoint uint_val (acc : Z) (d : Decimal.uint) : Z :=
  match d with
  | Decimal.Nil => acc
  | Decimal.D0 l => uint_val (10 * acc + 0) l
  | Decimal.D1 l => uint_val (10 * acc + 1) l
  | Decimal.D2 l => uint_val (10 * acc + 2) l
  | Decimal.D3 l => uint_val (10 * acc + 3) l
  | Decimal.D4 l => uint_val (10 * acc + 4) l
  | Decimal.D5 l => uint_val (10 * acc + 5) l
  | Decimal.D6 l => uint_val (10 * acc + 6) l
  | Decimal.D7 l => uint_val (10 * acc + 7) l
  | Decimal.D8 l => uint_val (10 * acc + 8) l
  | Decimal.D9 l => uint_val (10 * acc + 9) l
  end.

(** An ASCII text, character by character. *)
Fixpoint ascii_chars (s : string) : list (N * string) :=
  match s with
  | EmptyString => []
  | String a s' => (N_of_ascii a, String a EmptyString) :: ascii_chars s'
  end.

(** *** Directory scan *)

(** The participant number that the directory scan reads off a name: the
    name matches [SHSA_*.csv] and the second [_]-separated component of its
    stem is an integer. *)
Definition participant_of `{IntText} (name : string) : option Z :=
  if Py.startswith "SHSA_" name && Py.endswith ".csv" name then
    match Py.split "_" (Py.stem name) with
    | _ :: p1 :: _ => int_of_str p1
    | _ => None
    end
  else None.

(** A directory entry: a record stored by the recorder; a file named
    [SHSA_{p}.csv] or [SHSA_{p}_{rest}.csv] for an integer [p] and any text
    [rest], which need not be a record name; or any other file. *)
Inductive Entry :=
  | RecordFile (participant trial : Z)
  | StrayFile (participant : Z) (rest : option string)
  | OtherFile (name : string).

Definition stray_name (participant : Z) (rest : option string) : string :=
  match rest with
  | None => "SHSA_" +:+ Py.str_of_int participant +:+ ".csv"
  | Some r => "SHSA_" +:+ Py.str_of_int participant +:+ "_" +:+ r +:+ ".csv"
  end.

Definition entry_name (e : Entry) : string :=
  match e with
  | RecordFile participant trial => file_name participant trial
  | StrayFile participant rest => stray_name participant rest
  | OtherFile name => name
  end.

(** The participants that the entries stand for. *)
Definition participants (es : list Entry) : list Z :=
  omap (fun e => match e with
                 | RecordFile p _ | StrayFile p _ => Some p
                 | OtherFile _ => None
                 end) es.

(** The other files are ones the scan reads no number from. *)
Definition ignored `{IntText} (e : Entry) : Prop :=
  match e with
  | RecordFile _ _ | StrayFile _ _ => True
  | OtherFile name => participant_of name = None
  end.

(** *** Recording cycles *)

(** One recording cycle as the recorder receives it: start, the events during
    tracking, stop, confirm; the data file is written. *)
Definition during_tracking (i : Input) : bool :=
  match ev i with
  | MOUSEMOTION _ | KEYUP _ | OTHEREVENT | KEYDOWN K_SPACE => true
  | _ => false
  end.

Definition is_motion (i : Input) : bool :=
  match ev i with MOUSEMOTION _ => true | _ => false end.

Definition cycle (t_start : float) (body : list Input) (t_stop t_confirm : float)
  : list Input :=
  mkInput t_start Written (KEYDOWN K_s) :: body ++
  [mkInput t_stop Written (KEYDOWN K_q); mkInput t_confirm Written (KEYDOWN K_y)].

(** A cycle given by its times and the events during tracking. *)
Definition CycleIn : Type := float * list Input * float * float.

Definition cycle_inputs (c : CycleIn) : list Input :=
  let '(t_start, body, t_stop, t_confirm) := c in cycle t_start body t_stop t_confirm.

(** The cycle records something: only tracking-time events between start and
    stop, at least one pointer motion among them. *)
Definition valid_cycle (c : CycleIn) : Prop :=
  forallb during_tracking c.1.1.2 = true /\ existsb is_motion c.1.1.2 = true.

Definition Idle (g : Game) : Prop :=
  tracking g = false /\ save_prompt g = false /\ next_participant g = false.

Definition AdvancePrompt (g : Game) : Prop :=
  tracking g = false /\ save_prompt g = false /\ next_participant g = true.

(** "No further recording possible": whatever input follows, the recorder
    neither tracks nor stores anything. *)
Definition recording_blocked `{FloatText} (r : Recorder) : Prop :=
  forall inputs : list Input,
    (handle_events inputs r).1.2 = r.1.2 /\
    tracking (handle_events inputs r).1.1 = false.

(** The pointer motions of an input list: time and position. *)
Definition motions (inputs : list Input) : list (float * (Z * Z)) :=
  omap (fun i => match ev i with
                 | MOUSEMOTION pos => Some (now i, pos)
                 | _ => None
                 end) inputs.

(** An event flag is 0 or 1. *)
Definition flag_ok (z : Z) : Prop := z = 0 \/ z = 1.

Definition flags_ok (g : Game) : Prop :=
  flag_ok (space_event g) /\
  Forall (fun s : Sample => flag_ok s.2) (mouse_positions g).

(** A stored file as the recorder writes it: it reads through, and holds the
    header and then at least one row, each row of four fields. *)
Definition well_formed_file (file : File) : Prop :=
  exists data, data <> [] /\ file = text (expected_header :: data) /\
               Forall (fun r : Row => length r = 4%nat) data.

Definition stored_well (d : Dir) : Prop :=
  forall name file, d !! name = Some file -> well_formed_file file.

(** No write of the file is cut short while the input is handled. *)
Definition writes_through (i : Input) : bool :=
  match disk i with
  | WriteFails _ => false
  | _ => true
  end.

(** The advance prompt is up only when the trials are used up. *)
Definition prompt_justified (g : Game) : Prop :=
  next_participant g = true -> max_trials g < trial_number g.

Definition is_stop (i : Input) : bool :=
  match ev i with
  | QUIT | KEYDOWN K_ESCAPE => true
  | _ => false
  end.

Definition is_answer (i : Input) : bool :=
  match ev i with
  | KEYDOWN K_y | KEYDOWN K_n => true
  | _ => false
  end.

(** *** Loading *)

(** The warnings a file's data rows call for: one per row that does not
    parse, with its line number (the header is line 1). *)
Definition row_warning `{FloatText} `{IntText} (first_line : Z) (i : nat) (row : Row)
  : option Message :=
  match parse_row row with
  | None => Some (WarnRow (first_line + Z.of_nat i) row)
  | Some _ => None
  end.

Definition expected_warnings `{FloatText} `{IntText} (first_line : Z) (rows : list Row)
  : list Message :=
  omap id (imap (row_warning first_line) rows).

(** The row warnings among messages. *)
Definition is_row_warning (m : Message) : bool :=
  match m with WarnRow _ _ => true | _ => false end.

Definition row_warnings (ms : list Message) : list Message :=
  List.filter is_row_warning ms.

(** *** Playback *)

(** The sleeps of a trace, in order. *)
Definition sleeps (trace : list Effect) : list float :=
  omap (fun e => match e with Sleep s => Some s | _ => None end) trace.

(** Differences of successive timestamps. *)
Fixpoint deltas (data : list Sample) : list float :=
  match data with
  | a :: (b :: _) as rest => PrimFloat.sub b.1.1.1 a.1.1.1 :: deltas rest
  | _ => []
  end.

(** The pacing the playback is meant to have: the positive differences, each
    capped at 0.1 s. *)
Definition playback_delays (data : list Sample) : list float :=
  map (fun delay => Py.fmin delay 0.1%float)
      (filter (fun delay => PrimFloat.ltb 0 delay = true) (deltas data)).

(** The positions of the samples whose event flag is 1. *)
Definition flagged (data : list Sample) : list (Z * Z) :=
  omap (fun s : Sample => let '(_, x, y, event) := s in
                          if event =? 1 then Some (x, y) else None) data.

(** The cursor stands where a pass over [data] can be: within the record,
    and remembering the timestamp of the sample played last. *)
Definition tracks (data : list Sample) (c : Cursor) : Prop :=
  (counter c <= length data)%nat /\
  match last (take (counter c) data) with
  | Some a => previous_timestamp c = a.1.1.1
  | None => True
  end.

(** The position of a sample is one that the drawing functions take. *)
Definition fits_screen `{Pygame} (s : Sample) : bool := on_screen (s.1.1.2, s.1.2).


(** A drawing error was reported. *)
Definition is_draw_error (e : Effect) : bool :=
  match e with
  | Print (MsgReplayError DrawFailed) => true
  | _ => false
  end.

(** Events that end a replay pass or toggle the pause. *)
Definition is_control (e : PgEvent) : bool :=
  match e with
  | QUIT | KEYDOWN K_p | KEYDOWN K_q | KEYDOWN K_r => true
  | _ => false
  end.

Definition is_exit (e : PgEvent) : bool :=
  match e with
  | QUIT | KEYDOWN K_q | KEYDOWN K_r => true
  | _ => false
  end.

Definition is_p (e : PgEvent) : bool :=
  match e with KEYDOWN K_p => true | _ => false end.

(** The line segments of a trace, in order. *)
Definition lines (trace : list Effect) : list ((Z * Z) * (Z * Z)) :=
  omap (fun e => match e with DrawLine a b => Some (a, b) | _ => None end) trace.

(** The segments between successive samples, leaving out those that start at
    the position [(-1, -1)]. *)
Fixpoint segments (data : list Sample) : list ((Z * Z) * (Z * Z)) :=
  match data with
  | a :: (b :: _) as rest =>
      (if decide ((a.1.1.2, a.1.2) = (-1, -1)) then []
       else [((a.1.1.2, a.1.2), (b.1.1.2, b.1.2))]) ++ segments rest
  | _ => []
  end.

(** The cursor remembers the position of the sample played last. *)
Definition follows (data : list Sample) (c : Cursor) : Prop :=
  (counter c <= length data)%nat /\
  match last (take (counter c) data) with
  | Some a => previous_position c = (a.1.1.2, a.1.2)
  | None => previous_position c = (-1, -1)
  end.

(** Effects that only refresh the screen. *)
Definition is_refresh (e : Effect) : bool :=
  match e with
  | Status _ | Flip | Tick => true
  | _ => false
  end.

(** Events that the viewer's main loop reacts to. *)
Definition is_R (e : PgEvent) : bool :=
  match e with KEYDOWN K_r => true | _ => false end.

Definition is_close (e : PgEvent) : bool :=
  match e with
  | QUIT | KEYDOWN K_ESCAPE => true
  | _ => false
  end.

(** ** Concrete input used to run the programs *)

Definition demo_body : list Input :=
  [mkInput 10.5 Written (MOUSEMOTION (100, 200));
   mkInput 10.75 Written (KEYDOWN K_SPACE);
   mkInput 11 Written (MOUSEMOTION (130, 220));
   mkInput 11.25 Written (KEYUP K_SPACE);
   mkInput 12.5 Written (MOUSEMOTION (150, 260))].

Definition demo_cycle : CycleIn := (10%float, demo_body, 13%float, 14%float).

Definition demo_samples : list Sample :=
  [(0%float, 100, 200, 0); (0.05%float, 110, 205, 1); (0.2%float, 130, 220, 0)].

Definition demo_game : Game := mkGame false demo_samples 0 0%float true false 1 1 5.

(** The directory after the recorder has saved [demo_game], and a file with a
    foreign header, a malformed row and a short row. *)
Definition demo_dir : Dir := (@_save_trajectory_data decimal_text Written demo_game ∅).2.

Definition damaged_file : list Row :=
  [["time"; "x"; "y"; "flag"];
   ["0.0"; "100"; "200"; "0"];
   ["0.05"; "abc"; "205"; "1"];
   ["0.2"; "130"];
   ["0.25"; "140"; "230"; "1"]].

Definition damaged_dir : Dir := <["SHSA_2_1.csv" := text damaged_file]> ∅.

(** The same rows in a file that does not read through: after the last of
    them the reader raises, as it does on a field longer than the limit of
    the [csv] module. *)
Definition broken_dir : Dir := <["SHSA_2_1.csv" := mkFile damaged_file false]> ∅.

(** The evaluator loads participant 1, trial 1, starts the replay, lets two
    samples play and presses R; three more frames follow. *)
Definition restart_frames : list (list PgEvent) :=
  [[KEYDOWN K_r]; [KEYDOWN K_p]; []; [KEYDOWN K_r]; []; []; []].

Definition restart_typed : list Typed := [Lines "1" "1"].


(** Five recording cycles, one per frame. *)
Definition five_frames : list (list Input) := replicate 5 (cycle_inputs demo_cycle).

(** Two frames of recording. *)
Definition demo_frames : list (list Input) :=
  [cycle_inputs demo_cycle; cycle_inputs demo_cycle].

(** A frame that holds a close event followed by the start key. *)
Definition quit_batch : list Input :=
  [mkInput 30 Written QUIT; mkInput 31 Written (KEYDOWN K_s)].

(** A frame behind the close event. *)
Definition unread_frames : list (list Input) := [cycle_inputs demo_cycle].

(** The advance prompt is up after the fifth trial; the evaluator tries to
    start, moves the pointer, and stops. *)
Definition prompt_up : Game := mkGame false demo_samples 0 0%float false true 1 6 5.

Definition unanswered : list Input :=
  [mkInput 40 Written (KEYDOWN K_s); mkInput 41 Written (MOUSEMOTION (5, 5));
   mkInput 42 Written (KEYDOWN K_SPACE); mkInput 43 Written (KEYDOWN K_q)].

(** A stored file in which no row parses. *)
Definition hopeless_file : list Row :=
  [["Timestamp"; "X"; "Y"; "Event"]; ["soon"; "1"; "2"; "0"]; ["0.5"; "1"]].

Definition hopeless_dir : Dir := <["SHSA_2_1.csv" := text hopeless_file]> ∅.

Definition fresh_app (frames : list (list PgEvent)) (typed : list Typed) : App :=
  mkApp (mkViewer false [(7, 7)]) true frames typed [] None.

Definition idle_frames : list (list PgEvent) :=
  [[]; [KEYUP K_p; MOUSEMOTION (3, 4)]; [KEYDOWN K_s]].

(** A record whose first sample, flagged, lies at a coordinate beyond a
    32-bit integer. *)
Definition far_samples : list Sample :=
  [(0%float, 5000000000, 205, 1); (0.05%float, 110, 205, 0)].

Definition far_dir : Dir :=
  <["SHSA_3_1.csv" := text (expected_header :: map (@sample_row decimal_text) far_samples)]> ∅.

(** * Properties *)

(** ** Integers as text *)

Example int_of_str_samples :
  map (Py.int_of_str 0)
      ["42"; " -7 "; "+1_000"; "007"; ""; "1__0"; "12a"; "-"; "3.5"; "+ 1"; "_1"]
  = [Some 42; Some (-7); Some 1000; Some 7; None; None; None; None; None; None; None].
Proof. vm_compute. reflexivity. Qed.

(** Digits of other scripts and white space outside ASCII are taken; the
    separators U+001C to U+001F, which [str.strip()] removes, are not. *)
Example int_of_str_unicode :
  map (Py.int_of_str 0)
      ["７"; "1７"; "　７ "; "-７"; "－7"; "٣"; "²"; String "028" "6"; "6" +:+ String "031" ""]
  = [Some 7; Some 17; Some 7; Some (-7); None; Some 3; None; None; None] /\
  map Py.strip [String "028" "6" +:+ String "031" " "; " 1　"; "a b"]
  = ["6"; "1"; "a b"].
Proof. vm_compute. split; reflexivity. Qed.

(** With the limit of 4300 digits, a numeral of 4301 digits is refused. *)
Example int_of_str_limit :
  let digits := String "1" (DecimalText.zeros 4300) in
  Py.count_digits digits = 4301%N /\
  Py.int_of_str 4300 digits = None /\
  Py.int_of_str 4300 (DecimalText.zeros 4300) = Some 0 /\
  Py.int_of_str 0 digits = Some (10 ^ 4300).
Proof. vm_compute. repeat split. Qed.

Example split_samples :
  Py.split "_" "SHSA_3_2" = ["SHSA"; "3"; "2"] /\ Py.split "_" "" = [""] /\
  Py.split "_" "a__b_" = ["a"; ""; "b"; ""].
Proof. repeat split. Qed.

Example stem_samples :
  Py.stem "SHSA_3_2.csv" = "SHSA_3_2" /\ Py.stem "a.b.csv" = "a.b" /\
  Py.stem ".csv" = ".csv" /\ Py.stem "abc." = "abc." /\ Py.stem "abc" = "abc".
Proof. repeat split. Qed.

Section IntText.

Lemma uint_val_acc d : forall p, uint_val (Z.pos p) d = Z.pos (Pos.of_uint_acc d p).
Proof.
  induction d; intros p; cbn [uint_val Pos.of_uint_acc]; try reflexivity;
    rewrite <- IHd; f_equal; lia.
Qed.

Lemma uint_val_of_uint d : uint_val 0 d = Z.of_N (Pos.of_uint d).
Proof.
  induction d; cbn [uint_val Pos.of_uint]; try reflexivity;
    try (change (10 * 0 + 0) with 0; exact IHd);
    match goal with
    | |- uint_val ?k _ = _ =>
        let p := eval cbv in (Z.to_pos k) in
        change k with (Z.pos p); rewrite uint_val_acc; reflexivity
    end.
Qed.

Lemma int_digits_uint d :
  forall acc prev, d <> Decimal.Nil \/ prev = true ->
    Py.int_digits acc prev (NilEmpty.string_of_uint d) = Some (uint_val acc d).
Proof.
  induction d; intros acc prev Hd;
    [ destruct Hd as [Hd| ->]; [congruence | reflexivity] | .. ];
    cbn [NilEmpty.string_of_uint Py.int_digits uint_val];
    match goal with
    | |- context [Py.digit_of ?a] =>
        let v := eval vm_compute in (Py.digit_of a) in
        change (Py.digit_of a) with v
    end; cbv iota; apply IHd; now right.
Qed.

Lemma all_numchar_uint d : all_chars numchar (NilEmpty.string_of_uint d) = true.
Proof. induction d; cbn; auto. Qed.

Lemma all_numchar_str z : all_chars numchar (Py.str_of_int z) = true.
Proof.
  destruct z as [|p|p]; cbn; [reflexivity | |];
    unfold NilZero.string_of_uint; destruct (Pos.to_uint p) eqn:E;
    try reflexivity; rewrite <- E; apply all_numchar_uint.
Qed.

Lemma numchar_facts a :
  numchar a = true ->
  Py.c_isspace a = false /\ Py.isspace (N_of_ascii a) = false /\
  (N_of_ascii a <? 0x80)%N = true /\
  Ascii.eqb a "_" = false /\ Ascii.eqb a "." = false.
Proof.
  destruct a as [[] [] [] [] [] [] [] []]; vm_compute; intros; try discriminate; auto.
Qed.

Lemma is_ascii_numchar s : all_chars numchar s = true -> Py.is_ascii s = true.
Proof.
  induction s as [|a s IH]; cbn; [reflexivity|].
  intros [Ha Hs]%andb_prop. destruct (numchar_facts a Ha) as (_ & _ & -> & _).
  now apply IH.
Qed.

Lemma transform_id s : all_chars numchar s = true -> Py.transform s = s.
Proof. intros Hs. unfold Py.transform. now rewrite is_ascii_numchar. Qed.

Lemma rtrim_id s : all_chars numchar s = true -> Py.rtrim s = s.
Proof.
  induction s as [|a s IH]; cbn; [reflexivity|].
  intros [Ha Hs]%andb_prop. rewrite (IH Hs).
  destruct (numchar_facts a Ha) as (-> & _). now destruct s.
Qed.

Lemma trim_id s : all_chars numchar s = true -> Py.trim s = s.
Proof.
  intros Hs. unfold Py.trim.
  assert (Py.ltrim s = s) as ->; [|now apply rtrim_id].
  destruct s as [|a s]; cbn in *; [reflexivity|].
  apply andb_prop in Hs as [Ha _]. now destruct (numchar_facts a Ha) as (-> & _).
Qed.

Lemma chars_numchar s : all_chars numchar s = true -> Py.chars s = ascii_chars s.
Proof.
  induction s as [|a s IH]; [reflexivity|]. cbn [all_chars].
  intros [Ha Hs]%andb_prop. cbn [Py.chars ascii_chars].
  destruct (numchar_facts a Ha) as (_ & _ & -> & _). now rewrite (IH Hs).
Qed.

Lemma text_of_ascii_chars s : Py.text_of (ascii_chars s) = s.
Proof.
  induction s as [|a s IH]; [reflexivity|].
  cbn [ascii_chars Py.text_of fold_right snd]. fold (Py.text_of (ascii_chars s)).
  rewrite IH. reflexivity.
Qed.

Lemma rstrip_numchar s :
  all_chars numchar s = true -> Py.rstrip (ascii_chars s) = ascii_chars s.
Proof.
  induction s as [|a s IH]; [reflexivity|]. cbn [all_chars].
  intros [Ha Hs]%andb_prop. cbn [ascii_chars Py.rstrip fst]. rewrite (IH Hs).
  destruct (numchar_facts a Ha) as (_ & -> & _). now destruct s.
Qed.

(** [str.strip()] leaves a printed integer as it is. *)
Lemma strip_id s : all_chars numchar s = true -> Py.strip s = s.
Proof.
  intros Hs. unfold Py.strip. rewrite (chars_numchar s Hs).
  assert (Py.lstrip (ascii_chars s) = ascii_chars s) as ->.
  { destruct s as [|a s]; [reflexivity|]. cbn [all_chars] in Hs.
    apply andb_prop in Hs as [Ha _]. cbn [ascii_chars Py.lstrip fst].
    now destruct (numchar_facts a Ha) as (_ & -> & _). }
  rewrite (rstrip_numchar s Hs). apply text_of_ascii_chars.
Qed.

Lemma int_of_str_uint d :
  d <> Decimal.Nil ->
  Py.int_of_str 0 (NilEmpty.string_of_uint d) = Some (Z.of_N (Pos.of_uint d)) /\
  Py.int_of_str 0 (String "-" (NilEmpty.string_of_uint d))
    = Some (- Z.of_N (Pos.of_uint d)).
Proof.
  intros Hd. unfold Py.int_of_str.
  rewrite !transform_id, !trim_id by (cbn; rewrite ?all_numchar_uint; reflexivity).
  rewrite <- uint_val_of_uint.
  pose proof (int_digits_uint d 0 false (or_introl Hd)) as Hi. split.
  - destruct d; try congruence; cbn [NilEmpty.string_of_uint] in *;
      cbv beta iota; change ((0 <? 0)%N) with false; cbn [andb];
      rewrite Hi; reflexivity.
  - cbv beta iota. change ((0 <? 0)%N) with false. cbn [andb].
    rewrite Hi. reflexivity.
Qed.

(** [int(str(z)) == z], for [int()] without a limit on the digits. *)
Lemma python_int_round_trip z : Py.int_of_str 0 (Py.str_of_int z) = Some z.
Proof.
  destruct z as [|p|p]; [reflexivity | |]; cbn [Py.str_of_int Z.to_int NilZero.string_of_int];
    pose proof (DecimalPos.Unsigned.to_uint_nonnil p) as Hp;
    pose proof (DecimalPos.Unsigned.of_to p) as Hv;
    destruct (int_of_str_uint _ Hp) as [H1 H2];
    assert (NilZero.string_of_uint (Pos.to_uint p) = NilEmpty.string_of_uint (Pos.to_uint p)) as ->
      by (unfold NilZero.string_of_uint; destruct (Pos.to_uint p); congruence).
  - rewrite H1, Hv. reflexivity.
  - rewrite H2, Hv. reflexivity.
Qed.

End IntText.

(** The implementation given above has the round trip. *)
Lemma python_int_law : @IntRoundTrip python_int.
Proof. exact python_int_round_trip. Qed.

(** ** Record names *)

Section Names.
Context {int_text : IntText} {round_trip : IntRoundTrip}.

Lemma append_nil (b : string) : "" +:+ b = b.
Proof. reflexivity. Qed.

Lemma append_cons (x : ascii) (a b : string) :
  String x a +:+ b = String x (a +:+ b).
Proof. reflexivity. Qed.

Ltac push_append := rewrite ?append_cons, ?append_nil.

Lemma append_assoc (a b c : string) : (a +:+ b) +:+ c = a +:+ (b +:+ c).
Proof.
  induction a as [|x a IH]; push_append; [reflexivity | now rewrite IH].
Qed.

Lemma endswith_append (suf a : string) : Py.endswith suf (a +:+ suf) = true.
Proof.
  induction a as [|x a IH]; push_append.
  - destruct suf; cbn; rewrite ?Ascii.eqb_refl, ?String.eqb_refl; reflexivity.
  - cbn [Py.endswith]. rewrite IH. apply orb_true_r.
Qed.

Lemma rpartition_dot_csv (a : string) :
  Py.rpartition_dot (a +:+ ".csv") = Some (a, "csv").
Proof.
  induction a as [|x a IH]; push_append; [reflexivity|].
  cbn [Py.rpartition_dot]. now rewrite IH.
Qed.

Lemma stem_csv (a : string) : a <> "" -> Py.stem (a +:+ ".csv") = a.
Proof.
  intros Ha. unfold Py.stem. rewrite rpartition_dot_csv.
  destruct a; [congruence | reflexivity].
Qed.

Lemma split_append (sep : ascii) (a b : string) :
  all_chars (fun c => negb (Ascii.eqb c sep)) a = true ->
  Py.split sep (a +:+ String sep b) = a :: Py.split sep b.
Proof.
  induction a as [|x a IH]; push_append; cbn [Py.split all_chars].
  - intros _. now rewrite Ascii.eqb_refl.
  - intros [Hx Ha]%andb_prop. apply negb_true_iff in Hx. rewrite Hx, (IH Ha).
    reflexivity.
Qed.

Lemma all_chars_impl (P Q : ascii -> bool) (s : string) :
  (forall a, P a = true -> Q a = true) ->
  all_chars P s = true -> all_chars Q s = true.
Proof.
  intros HPQ. induction s as [|a s IH]; cbn; [reflexivity|].
  intros [Ha Hs]%andb_prop. now rewrite (HPQ a Ha), (IH Hs).
Qed.

Lemma str_of_int_no_underscore z :
  all_chars (fun c => negb (Ascii.eqb c "_")) (Py.str_of_int z) = true.
Proof.
  apply (all_chars_impl numchar); [|apply all_numchar_str].
  intros a Ha. now destruct (numchar_facts a Ha) as (_ & _ & _ & -> & _).
Qed.

Lemma file_name_shape (p t : Z) :
  file_name p t = ("SHSA_" +:+ Py.str_of_int p +:+ "_" +:+ Py.str_of_int t) +:+ ".csv".
Proof. unfold file_name. now rewrite !append_assoc. Qed.

Lemma split_no_sep (sep : ascii) (a : string) :
  all_chars (fun c => negb (Ascii.eqb c sep)) a = true ->
  Py.split sep a = [a].
Proof.
  induction a as [|x a IH]; cbn [Py.split all_chars]; [reflexivity|].
  intros [Hx Ha]%andb_prop. apply negb_true_iff in Hx. now rewrite Hx, (IH Ha).
Qed.

(** The components of a record name. *)
Lemma parts_of_file_name (p t : Z) :
  Py.split "_" (Py.stem (file_name p t))
  = ["SHSA"; Py.str_of_int p; Py.str_of_int t].
Proof.
  rewrite file_name_shape, stem_csv by discriminate.
  change ("SHSA_" +:+ Py.str_of_int p +:+ "_" +:+ Py.str_of_int t)
    with ("SHSA" +:+ String "_" (Py.str_of_int p +:+ String "_" (Py.str_of_int t))).
  rewrite split_append by reflexivity.
  rewrite split_append by apply str_of_int_no_underscore.
  rewrite split_no_sep by apply str_of_int_no_underscore.
  reflexivity.
Qed.

Lemma str_of_int_inj (a b : Z) : Py.str_of_int a = Py.str_of_int b -> a = b.
Proof.
  intros E. pose proof (python_int_round_trip a) as Ha.
  rewrite E, python_int_round_trip in Ha. congruence.
Qed.

Lemma file_name_inj (p t p' t' : Z) :
  file_name p t = file_name p' t' -> p = p' /\ t = t'.
Proof.
  intros E. pose proof (parts_of_file_name p t) as Hp.
  rewrite E, parts_of_file_name in Hp.
  injection Hp as Hp Ht. split; now apply str_of_int_inj.
Qed.

(** A name [SHSA_{p}.csv] or [SHSA_{p}_{rest}.csv] is found by the directory
    scan and read as participant [p], whatever [rest] is. *)
Lemma participant_of_stray_name (p : Z) (rest : option string) :
  participant_of (stray_name p rest) = Some p.
Proof.
  unfold participant_of.
  assert (Py.startswith "SHSA_" (stray_name p rest) = true) as ->
    by (destruct rest; unfold stray_name, Py.startswith; push_append; reflexivity).
  destruct rest as [r|]; unfold stray_name.
  - replace ("SHSA_" +:+ Py.str_of_int p +:+ "_" +:+ r +:+ ".csv")
      with (("SHSA" +:+ String "_" (Py.str_of_int p +:+ String "_" r)) +:+ ".csv")
      by (rewrite !append_assoc; push_append; now rewrite !append_assoc).
    rewrite endswith_append, stem_csv by discriminate. cbn [andb].
    rewrite split_append by reflexivity.
    rewrite split_append by apply str_of_int_no_underscore.
    apply int_of_str_of_int.
  - replace ("SHSA_" +:+ Py.str_of_int p +:+ ".csv")
      with (("SHSA" +:+ String "_" (Py.str_of_int p)) +:+ ".csv")
      by (rewrite !append_assoc; push_append; reflexivity).
    rewrite endswith_append, stem_csv by discriminate. cbn [andb].
    rewrite split_append by reflexivity.
    rewrite split_no_sep by apply str_of_int_no_underscore.
    apply int_of_str_of_int.
Qed.

(** A record name is found by the directory scan, and its participant
    component is read back. *)
Lemma participant_of_file_name (p t : Z) : participant_of (file_name p t) = Some p.
Proof. apply (participant_of_stray_name p (Some (Py.str_of_int t))). Qed.

Lemma existing_numbers_glob (names : list string) :
  existing_numbers (glob_SHSA_csv names) = omap participant_of names.
Proof.
  unfold glob_SHSA_csv.
  induction names as [|n names IH]; [reflexivity|].
  change (omap participant_of (n :: names))
    with (match participant_of n with
          | Some x => x :: omap participant_of names
          | None => omap participant_of names
          end).
  rewrite filter_cons. unfold participant_of at 1.
  destruct (Py.startswith "SHSA_" n && Py.endswith ".csv" n) eqn:E.
  - rewrite decide_True by reflexivity. cbn [existing_numbers].
    destruct (Py.split "_" (Py.stem n)) as [|? [|p1 ?]]; try exact IH.
    destruct (int_of_str p1); [now rewrite IH | exact IH].
  - rewrite decide_False by discriminate. exact IH.
Qed.

Lemma next_participant_number_omap (names : list string) :
  _get_next_participant_number names
  = Py.max_default (omap participant_of names) 0 + 1.
Proof.
  unfold _get_next_participant_number. rewrite <- existing_numbers_glob.
  destruct (glob_SHSA_csv names); reflexivity.
Qed.

Lemma fold_max_spec (l : list Z) : forall x,
  (fold_left Z.max l x = x \/ fold_left Z.max l x ∈ l) /\
  x <= fold_left Z.max l x /\
  (forall q, q ∈ l -> q <= fold_left Z.max l x).
Proof.
  induction l as [|y l IH]; intros x; cbn [fold_left].
  - repeat split; [now left | lia | intros q Hq; inversion Hq].
  - destruct (IH (Z.max x y)) as (Hm & Hx & Hl). repeat split.
    + destruct Hm as [Hm|Hm]; [|right; now constructor].
      rewrite Hm. destruct (Z.max_spec x y) as [[_ E]|[_ E]]; rewrite E;
        [right; constructor | now left].
    + lia.
    + intros q [->|Hq]%elem_of_cons; [lia | now apply Hl].
Qed.


Lemma max_default_ge (l : list Z) (dflt x : Z) :
  x ∈ l -> x <= Py.max_default l dflt.
Proof.
  destruct l as [|y l]; [intros Hx; inversion Hx|]. cbn.
  destruct (fold_max_spec l y) as (_ & Hy & Hl).
  intros [-> | Hx]%elem_of_cons; [exact Hy | now apply Hl].
Qed.

(** ** Participant auto-numbering *)

Lemma scan_entries (es : list Entry) :
  Forall ignored es -> omap participant_of (map entry_name es) = participants es.
Proof.
  induction 1 as [|e es He _ IH]; [reflexivity|].
  destruct e as [p t|p rest|name]; unfold participants;
    cbn [map omap list_omap entry_name].
  - rewrite participant_of_file_name. f_equal. exact IH.
  - rewrite participant_of_stray_name. f_equal. exact IH.
  - cbn in He. rewrite He. exact IH.
Qed.

Example next_participant_empty_directory :
  _get_next_participant_number [] = 1 /\ _get_next_participant_number (listing ∅) = 1.
Proof. split; reflexivity. Qed.

(** Participants {1,3,3,7} give 8 whatever the trial numbers are. *)
Lemma next_participant_ignores_trials (t1 t2 t3 t4 : Z) :
  _get_next_participant_number
    [file_name 1 t1; file_name 3 t2; file_name 3 t3; file_name 7 t4] = 8.
Proof.
  rewrite next_participant_number_omap.
  change [file_name 1 t1; file_name 3 t2; file_name 3 t3; file_name 7 t4]
    with (map entry_name
            [RecordFile 1 t1; RecordFile 3 t2; RecordFile 3 t3; RecordFile 7 t4]).
  rewrite scan_entries by (repeat constructor).
  reflexivity.
Qed.


End Names.


(** ** Recorder *)

Section Recorder.
Context {float_text : FloatText}.

Ltac game g := destruct g as [? ? ? ? ? ? ? ? ?]; cbn in *; subst.

Ltac step_body IH Hall :=
  match goal with
  | |- context [handle_events _ (?g1, ?d, ?r)] =>
      destruct (IH g1 d r Hall eq_refl)
        as (g' & extra & E & ? & ? & ? & ? & ? & ? & Hm & ?)
  end.

Lemma save_result (disk : Disk) (g : Game) (d : Dir) :
  _save_trajectory_data disk g d =
  if bool_decide (mouse_positions g = []) then (false, d)
  else
    match disk with
    | Written =>
        (true, <[file_name (participant_number g) (trial_number g) :=
                   text (expected_header :: map sample_row (mouse_positions g))]> d)
    | OpenFails => (false, d)
    | WriteFails remains =>
        (false, <[file_name (participant_number g) (trial_number g) := text remains]> d)
    end.
Proof.
  unfold _save_trajectory_data.
  destruct (mouse_positions g); [reflexivity|].
  rewrite bool_decide_eq_false_2 by discriminate. reflexivity.
Qed.

(** C5: saving an empty record fails, whatever the disk does, and leaves
    every file of the directory as it was: nothing is created and nothing is
    overwritten. Confirming the save prompt over an empty record therefore
    changes neither the directory nor the trial number. *)
Theorem save_empty_record_fails
    (now : float) (disk : Disk) (g : Game) (d : Dir) :
  mouse_positions g = [] ->
  _save_trajectory_data disk g d = (false, d) /\
  (forall name, (_save_trajectory_data disk g d).2 !! name = d !! name) /\
  (save_prompt g = true ->
   let '(g', d', _) := _handle_keydown now disk K_y g d in
   d' = d /\ trial_number g' = trial_number g /\
   participant_number g' = participant_number g /\
   next_participant g' = next_participant g).
Proof.
  intros E.
  assert (_save_trajectory_data disk g d = (false, d)) as Hsave
    by (unfold _save_trajectory_data; now rewrite E).
  split; [exact Hsave|]. split; [now rewrite Hsave|].
  intros Hsp. unfold _handle_keydown. cbn [is_key andb]. rewrite Hsp, Hsave.
  repeat split.
Qed.

(** C10: saving a non-empty record under a name that already exists succeeds
    and replaces the old content by the new record; the old content plays no
    part, and the other files are untouched. *)
Theorem save_overwrites_existing_file (g : Game) (d : Dir) (old : File) :
  mouse_positions g <> [] ->
  d !! file_name (participant_number g) (trial_number g) = Some old ->
  let name := file_name (participant_number g) (trial_number g) in
  let '(saved, d') := _save_trajectory_data Written g d in
  saved = true /\
  d' !! name = Some (text (expected_header :: map sample_row (mouse_positions g))) /\
  (forall other, other <> name -> d' !! other = d !! other) /\
  d' = (_save_trajectory_data Written g (delete name d)).2.
Proof.
  intros Hne _ name. rewrite !save_result.
  rewrite bool_decide_eq_false_2 by exact Hne. cbn [snd].
  repeat split.
  - apply lookup_insert_eq.
  - intros other Ho. now apply lookup_insert_ne.
  - subst name. now rewrite insert_delete_eq.
Qed.

(** C8: on confirm in the save prompt the trial number goes up exactly when
    the save succeeds. When the save fails, because the file cannot be opened
    or because writing it is cut short by an error, participant, trial and
    record are unchanged, no other file is touched, and the record can be
    saved by stopping and confirming again. The file itself is as it was
    only when it could not be opened: an error after opening leaves what
    reached the file before, in place of what the name held. *)
Theorem confirm_increments_trial_iff_saved
    (now : float) (disk : Disk) (g : Game) (d : Dir) :
  save_prompt g = true ->
  let name := file_name (participant_number g) (trial_number g) in
  let saved := (_save_trajectory_data disk g d).1 in
  let '(g', d', continue) := _handle_keydown now disk K_y g d in
  (trial_number g' = trial_number g + 1 <-> saved = true) /\
  (saved = false -> trial_number g' = trial_number g) /\
  participant_number g' = participant_number g /\
  mouse_positions g' = mouse_positions g /\
  save_prompt g' = false /\
  (disk <> Written ->
     saved = false /\ trial_number g' = trial_number g /\
     (forall other, other <> name -> d' !! other = d !! other) /\
     (disk = OpenFails -> d' = d) /\
     (forall remains, disk = WriteFails remains -> mouse_positions g <> [] ->
        d' !! name = Some (text remains)) /\
     forall now1 now2,
       mouse_positions g <> [] ->
       let '(g1, d1, _) := _handle_keydown now1 Written K_q g' d' in
       let '(g2, d2, _) := _handle_keydown now2 Written K_y g1 d1 in
       d2 !! name
         = Some (text (expected_header :: map sample_row (mouse_positions g))) /\
       trial_number g2 = trial_number g + 1).
Proof.
  intros Hsp name. subst name. game g. unfold _handle_keydown. cbn.
  rewrite save_result. cbn.
  destruct (bool_decide (mouse_positions0 = [])) eqn:E;
    [apply bool_decide_eq_true in E | apply bool_decide_eq_false in E];
    destruct disk as [| |remains]; cbn;
    repeat split; try lia; try congruence; try discriminate;
    try (intros other Ho; now apply lookup_insert_ne);
    try (intros remains' [= <-] _; apply lookup_insert_eq).
  all: intros now1 now2 Hne; unfold _handle_keydown; cbn;
    rewrite save_result; cbn; rewrite bool_decide_eq_false_2 by exact Hne; cbn;
    split; [apply lookup_insert_eq | reflexivity].
Qed.

(** C9: the stop command is taken in every state, tracking or not, prompt
    showing or not, and opens the save prompt over the record in memory; so
    after a trial has been saved, stop and confirm store the same samples
    again under the next trial number. *)
Theorem stop_is_not_guarded (now0 now1 now2 : float) (g : Game) (d : Dir) :
  tracking g = false ->
  save_prompt g = true ->
  mouse_positions g <> [] ->
  (forall now disk g0 d0,
     let '(g', d', continue) := _handle_keydown now disk K_q g0 d0 in
     save_prompt g' = true /\ tracking g' = false /\
     mouse_positions g' = mouse_positions g0 /\
     trial_number g' = trial_number g0 /\
     participant_number g' = participant_number g0 /\
     next_participant g' = next_participant g0 /\ d' = d0 /\ continue = true) /\
  let stored := text (expected_header :: map sample_row (mouse_positions g)) in
  let '(g1, d1, _) := _handle_keydown now0 Written K_y g d in
  let '(g2, d2, _) := _handle_keydown now1 Written K_q g1 d1 in
  let '(g3, d3, _) := _handle_keydown now2 Written K_y g2 d2 in
  d1 !! file_name (participant_number g) (trial_number g) = Some stored /\
  tracking g1 = false /\ save_prompt g2 = true /\
  d3 !! file_name (participant_number g) (trial_number g + 1) = Some stored /\
  trial_number g3 = trial_number g + 2.
Proof.
  intros Ht Hsp Hne. split.
  { intros now disk g0 d0. game g0. unfold _handle_keydown. cbn.
    repeat split. }
  game g. unfold _handle_keydown. cbn. rewrite !save_result. cbn.
  rewrite bool_decide_eq_false_2 by exact Hne. cbn.
  rewrite save_result. cbn. rewrite bool_decide_eq_false_2 by exact Hne. cbn.
  repeat split; try apply lookup_insert_eq. lia.
Qed.

Lemma handle_events_cons (i : Input) (l : list Input) (r : Recorder) :
  handle_events (i :: l) r = handle_events l (dispatch i r).
Proof. reflexivity. Qed.

Lemma handle_events_app (l1 l2 : list Input) (r : Recorder) :
  handle_events (l1 ++ l2) r = handle_events l2 (handle_events l1 r).
Proof. apply fold_left_app. Qed.

(** Events during tracking only append samples and toggle the key flag. *)
Lemma tracking_body (body : list Input) : forall g d r,
  forallb during_tracking body = true ->
  tracking g = true ->
  exists g' extra,
    handle_events body (g, d, r) = (g', d, r) /\
    tracking g' = true /\ save_prompt g' = save_prompt g /\
    next_participant g' = next_participant g /\
    participant_number g' = participant_number g /\
    trial_number g' = trial_number g /\ max_trials g' = max_trials g /\
    mouse_positions g' = mouse_positions g ++ extra /\
    (existsb is_motion body = true -> extra <> []).
Proof.
  induction body as [|i body IH]; intros g d r Hall Htr.
  - exists g, []. rewrite app_nil_r. repeat split; try reflexivity; try assumption.
    discriminate.
  - cbn [forallb] in Hall. apply andb_prop in Hall as [Hi Hall].
    rewrite handle_events_cons.
    destruct i as [now0 ok0 e]. unfold during_tracking in Hi. cbn [ev] in Hi.
    game g.
    destruct e as [|key|key|pos|]; try discriminate Hi.
    + destruct key; try discriminate Hi. cbn. step_body IH Hall.
      exists g', extra. rewrite E. cbn in *. repeat split; auto.
    + unfold dispatch, _handle_keyup. cbn.
      destruct (is_key key K_SPACE); step_body IH Hall;
        exists g', extra; rewrite E; cbn in *; repeat split; auto.
    + unfold dispatch, _handle_mouse_motion. cbn. destruct pos as [x y].
      step_body IH Hall. eexists g', (_ :: extra). rewrite E. cbn in *.
      repeat split; auto.
      rewrite Hm, <- app_assoc. reflexivity.
    + cbn. now apply IH.
Qed.

(** One cycle from a state without advance prompt stores the record under
    the current trial number and moves to the next trial. *)
Lemma cycle_spec (c : CycleIn) (g : Game) (d : Dir) (r : bool) :
  valid_cycle c ->
  next_participant g = false ->
  exists g' file,
    handle_events (cycle_inputs c) (g, d, r)
      = (g', <[file_name (participant_number g) (trial_number g) := file]> d, r) /\
    tracking g' = false /\ save_prompt g' = false /\
    participant_number g' = participant_number g /\
    trial_number g' = trial_number g + 1 /\
    max_trials g' = max_trials g /\
    next_participant g' = (max_trials g <? trial_number g + 1).
Proof.
  destruct c as [[[t0 body] tq] ty]. intros [Hall Hmot] Hnp. cbn in Hall, Hmot.
  unfold cycle_inputs, cycle. rewrite handle_events_cons, handle_events_app.
  game g. unfold dispatch at 2. unfold _handle_keydown. cbn.
  edestruct (tracking_body body) as (g' & extra & E & ? & ? & ? & ? & ? & ? & Hm & Hex);
    [exact Hall | | rewrite E]; [reflexivity|].
  specialize (Hex Hmot). game g'. cbn in Hex.
  unfold handle_events, dispatch, _handle_keydown. cbn.
  rewrite save_result. cbn. rewrite bool_decide_eq_false_2 by exact Hex. cbn.
  eexists _, _. split; [reflexivity|]. cbn. repeat split.
  destruct (max_trials0 <? trial_number0 + 1); reflexivity.
Qed.

Lemma cycles_spec (cs : list CycleIn) : forall (g : Game) (d : Dir) (r : bool),
  Forall valid_cycle cs ->
  next_participant g = false ->
  trial_number g + Z.of_nat (length cs) <= max_trials g + 1 ->
  exists g' d',
    handle_events (concat (map cycle_inputs cs)) (g, d, r) = (g', d', r) /\
    participant_number g' = participant_number g /\
    max_trials g' = max_trials g /\
    trial_number g' = trial_number g + Z.of_nat (length cs) /\
    (cs <> [] ->
       tracking g' = false /\ save_prompt g' = false /\
       next_participant g' = (max_trials g <? trial_number g')).
Proof.
  induction cs as [|c cs IH]; intros g d r Hv Hnp Hle.
  - exists g, d. cbn. repeat split; try lia; congruence.
  - apply Forall_cons in Hv as [Hc Hv]. cbn [map concat]. rewrite handle_events_app.
    destruct (cycle_spec c g d r Hc Hnp) as (g1 & rows & E & Ht & Hs & Hp & Htn & Hmx & Hn1).
    rewrite E. cbn [length] in Hle.
    destruct cs as [|c' cs'].
    + exists g1, (<[file_name (participant_number g) (trial_number g) := rows]> d).
      cbn. repeat split; try assumption; try lia. now rewrite Htn.
    + assert (next_participant g1 = false) as Hnp1.
      { rewrite Hn1. cbn [length] in Hle. apply Z.ltb_ge. lia. }
      edestruct (IH g1) as (g' & d' & E' & Hp' & Hmx' & Htn' & Hrest);
        [exact Hv | exact Hnp1 | lia |].
      exists g', d'. rewrite E'. split; [reflexivity|].
      destruct Hrest as (? & ? & ?); [discriminate|].
      cbn [length] in *. repeat split; try congruence; try lia.
Qed.

(** C2 (as amended): from Idle at trial 1, five confirmed save cycles lead to
    the advance prompt with trial number 6; confirming there moves to the next
    participant at trial 1; cancelling keeps the participant and trial number
    6, and from there a further cycle still records: it stores the record as
    trial 6 and brings the advance prompt back with trial number 7. *)
Theorem five_cycles_reach_advance_prompt
    (g : Game) (d : Dir) (cs : list CycleIn) :
  Idle g -> trial_number g = 1 -> max_trials g = 5 ->
  length cs = 5%nat -> Forall valid_cycle cs ->
  let '(g5, d5, running) := handle_events (concat (map cycle_inputs cs)) (g, d, true) in
  AdvancePrompt g5 /\ trial_number g5 = 6 /\
  participant_number g5 = participant_number g /\ running = true /\
  (forall now disk,
     let '(g6, d6, _) := _handle_keydown now disk K_y g5 d5 in
     participant_number g6 = participant_number g + 1 /\ trial_number g6 = 1 /\
     Idle g6 /\ d6 = d5) /\
  (forall now disk,
     let '(g6, d6, _) := _handle_keydown now disk K_n g5 d5 in
     participant_number g6 = participant_number g /\ trial_number g6 = 6 /\
     Idle g6 /\ d6 = d5 /\
     forall c, valid_cycle c ->
       let '(g7, d7, _) := handle_events (cycle_inputs c) (g6, d6, true) in
       is_Some (d7 !! file_name (participant_number g) 6) /\
       AdvancePrompt g7 /\ trial_number g7 = 7 /\
       participant_number g7 = participant_number g).
Proof.
  intros (Ht & Hs & Hn) Htn Hmx Hlen Hv.
  destruct (cycles_spec cs g d true Hv Hn) as (g5 & d5 & E & Hp & Hmx5 & Htn5 & Hrest);
    [rewrite Hlen; lia|].
  rewrite E. destruct Hrest as (Ht5 & Hs5 & Hn5); [now destruct cs|].
  rewrite Hlen, Htn in Htn5. rewrite Htn5, Hmx in Hn5. cbn in Htn5, Hn5.
  repeat split; try assumption.
  - intros now0 ok0. game g5. unfold _handle_keydown. cbn. repeat split; try lia.
  - intros now0 ok0. game g5. unfold _handle_keydown. cbn. repeat split; try lia.
    intros c Hc.
    edestruct (cycle_spec c) as (g7 & rows & E7 & Ht7 & Hs7 & Hp7 & Htn7 & Hmx7 & Hn7);
      [exact Hc | | rewrite E7]; [reflexivity|].
    cbn in *. subst. repeat split; try assumption; try lia.
    + rewrite lookup_insert_eq. eauto.
    + rewrite Hn7, Hmx. reflexivity.
Qed.

End Recorder.

(** ** Loading records *)

Section Loading.
Context {float_text : FloatText} {int_text : IntText}.

Lemma row_warning_shift (n : Z) (rows : list Row) :
  imap (row_warning n ∘ S) rows = imap (row_warning (n + 1)) rows.
Proof.
  apply imap_ext. intros i x _. unfold row_warning. cbn.
  destruct (parse_row x); [reflexivity|]. do 2 f_equal. lia.
Qed.

Lemma expected_warnings_cons (n : Z) (row : Row) (rows : list Row) :
  expected_warnings n (row :: rows) =
  match parse_row row with
  | None => WarnRow n row :: expected_warnings (n + 1) rows
  | Some _ => expected_warnings (n + 1) rows
  end.
Proof.
  unfold expected_warnings. rewrite imap_cons, row_warning_shift.
  cbn [omap list_omap]. unfold row_warning at 1.
  destruct (parse_row row); cbn; [reflexivity|]. now rewrite Z.add_0_r.
Qed.

Lemma load_rows_spec (rows : list Row) : forall row_num,
  load_rows row_num rows = (omap parse_row rows, expected_warnings row_num rows).
Proof.
  induction rows as [|row rows IH]; intros n; [reflexivity|].
  cbn [load_rows]. rewrite IH, expected_warnings_cons. cbn [omap list_omap].
  destruct (parse_row row); reflexivity.
Qed.

(** Loading a file with a header row. *)
Lemma load_stored (d : Dir) (path : string) (header : Row) (rows : list Row)
    (through : bool) :
  d !! path = Some (mkFile (header :: rows) through) ->
  _load_trial_data d path =
  (if through then
     match omap parse_row rows with
     | [] => inl (Invalid NoValidData)
     | valid => inr valid
     end
   else inl (Invalid ReaderRaised),
   (if decide (header = expected_header) then [] else [WarnHeader header])
   ++ expected_warnings 2 rows).
Proof.
  intros E. unfold _load_trial_data. rewrite E. cbn [file_rows reads_through].
  rewrite load_rows_spec.
  destruct through, (omap parse_row rows); reflexivity.
Qed.

Lemma load_existing (d : Dir) (path : string) (header : Row) (rows : list Row) :
  d !! path = Some (text (header :: rows)) ->
  _load_trial_data d path =
  (match omap parse_row rows with
   | [] => inl (Invalid NoValidData)
   | valid => inr valid
   end,
   (if decide (header = expected_header) then [] else [WarnHeader header])
   ++ expected_warnings 2 rows).
Proof. intros E. apply (load_stored d path header rows true E). Qed.

Lemma load_missing (d : Dir) (path : string) :
  d !! path = None -> _load_trial_data d path = (inl FileNotFound, []).
Proof. intros E. unfold _load_trial_data. now rewrite E. Qed.

Lemma load_empty_file (d : Dir) (path : string) (through : bool) :
  d !! path = Some (mkFile [] through) ->
  _load_trial_data d path
  = (inl (Invalid (if through then NoHeaderRow else ReaderRaised)), []).
Proof. intros E. unfold _load_trial_data. now rewrite E. Qed.

(** C4 (as amended): a malformed data row is skipped with a warning that
    carries its line number and the rows that parse are kept in order. For a
    file that the reader reads to its end, the load fails as invalid exactly
    when no data row parses; a file on which the reader raises fails as
    invalid whatever rows parsed before the error, the warnings of the rows
    read being printed all the same. The header only decides whether a
    warning is printed: the result is the same for every header. *)
Theorem load_skips_malformed_rows (d : Dir) (path : string) (file : File) :
  d !! path = Some file ->
  let rows := tail (file_rows file) in
  let valid := omap parse_row rows in
  let '(result, messages) := _load_trial_data d path in
  (reads_through file = true ->
     (valid <> [] -> result = inr valid) /\
     ((exists cause, result = inl (Invalid cause)) <-> valid = [])) /\
  (reads_through file = false -> exists cause, result = inl (Invalid cause)) /\
  (forall header, file_rows file = header :: rows ->
     messages = (if decide (header = expected_header) then [] else [WarnHeader header])
                ++ expected_warnings 2 rows) /\
  (forall header header', file_rows file = header :: rows ->
     (_load_trial_data (<[path := mkFile (header' :: rows) (reads_through file)]> d)
                       path).1 = result).
Proof.
  intros E. destruct file as [[|header rows] through]; cbn [tail file_rows reads_through].
  - rewrite (load_empty_file d path through E). cbn [omap list_omap].
    split; [|split; [|split]].
    + intros _. split; [congruence|]. split; [reflexivity | eauto].
    + intros _. eauto.
    + intros header E'. discriminate E'.
    + intros header header' E'. discriminate E'.
  - rewrite (load_stored d path header rows through E).
    split; [|split; [|split]].
    + intros ->. split; [|split].
      * destruct (omap parse_row rows); congruence.
      * intros [cause Hc]. destruct (omap parse_row rows); congruence.
      * intros ->. eauto.
    + intros ->. eauto.
    + intros header0 E'. now injection E' as ->.
    + intros header0 header' _.
      rewrite (load_stored _ path header' rows through) by apply lookup_insert_eq.
      reflexivity.
Qed.

Section RoundTrip.
Context {round_trip : IntRoundTrip}.

Lemma parse_sample_row (s : Sample) :
  float_of_str (repr s.1.1.1) = Some s.1.1.1 ->
  parse_row (sample_row s) = Some s.
Proof.
  destruct s as [[[t x] y] e]. cbn. intros Ht.
  unfold parse_row. cbn. rewrite Ht. cbn. rewrite !int_of_str_of_int. reflexivity.
Qed.

Lemma parse_saved_rows (l : list Sample) :
  Forall (fun s : Sample => float_of_str (repr s.1.1.1) = Some s.1.1.1) l ->
  omap parse_row (map sample_row l) = l /\
  forall n, expected_warnings n (map sample_row l) = [].
Proof.
  induction 1 as [|s l Hs _ [IH1 IH2]]; [split; reflexivity|].
  cbn [map omap list_omap]. split.
  - rewrite (parse_sample_row s Hs). f_equal. exact IH1.
  - intros n. rewrite expected_warnings_cons, (parse_sample_row s Hs). apply IH2.
Qed.

(** C1: a record with at least one sample, saved and then loaded from the
    viewer's path for the same participant and trial, comes back as the same
    samples in the same order, with no warning, provided each timestamp reads
    back from its text form as itself (the round trip of [repr] and [float]);
    x, y and event read back as the same integers. *)
Theorem save_then_load_roundtrip (g : Game) (d : Dir) :
  mouse_positions g <> [] ->
  Forall (fun s : Sample => float_of_str (repr s.1.1.1) = Some s.1.1.1)
         (mouse_positions g) ->
  let '(saved, d') := _save_trajectory_data Written g d in
  saved = true /\
  _load_trial_data d' (_get_data_file_path (participant_number g) (trial_number g))
    = (inr (mouse_positions g), []).
Proof.
  intros Hne Hrt. rewrite save_result.
  rewrite bool_decide_eq_false_2 by exact Hne. cbv zeta.
  split; [reflexivity|]. unfold _get_data_file_path.
  rewrite (load_existing _ _ expected_header (map sample_row (mouse_positions g)))
    by apply lookup_insert_eq.
  destruct (parse_saved_rows _ Hrt) as [-> ->].
  rewrite decide_True by reflexivity.
  destruct (mouse_positions g); [congruence | reflexivity].
Qed.

End RoundTrip.

End Loading.

(** ** Playback *)

Section Playback.
Context {float_text : FloatText} {int_text : IntText} {pygame : Pygame}.

Ltac outcome := cbn [emit o_viewer o_cursor o_code o_frames o_trace].

Lemma sleeps_app (a b : list Effect) : sleeps (a ++ b) = sleeps a ++ sleeps b.
Proof. apply omap_app. Qed.

Lemma sleeps_prints (l : list Message) : sleeps (map Print l) = [].
Proof. induction l; [reflexivity | exact IHl]. Qed.

Lemma lines_app (a b : list Effect) : lines (a ++ b) = lines a ++ lines b.
Proof. apply omap_app. Qed.

Lemma lines_prints (l : list Message) : lines (map Print l) = [].
Proof. induction l; [reflexivity | exact IHl]. Qed.

(** The circles: no sleep, no line, no error message; all are drawn when all
    positions are ones that [pygame.draw] takes. *)
Lemma draw_circles_spec (l : list (Z * Z)) :
  sleeps (draw_circles l).1 = [] /\ lines (draw_circles l).1 = [] /\
  existsb is_draw_error (draw_circles l).1 = false /\
  (draw_circles l).2 = forallb on_screen l.
Proof.
  induction l as [|pos l IH]; [repeat split|]. cbn [draw_circles forallb].
  destruct (on_screen pos); [|repeat split].
  destruct (draw_circles l) as [out through]. exact IH.
Qed.

Lemma deltas_snoc (l : list Sample) (b : Sample) :
  deltas (l ++ [b]) =
  deltas l ++ match last l with
              | Some a => [PrimFloat.sub b.1.1.1 a.1.1.1]
              | None => []
              end.
Proof.
  induction l as [|a l IH]; [reflexivity|].
  destruct l as [|a' l]; [reflexivity|].
  change (deltas ((a :: a' :: l) ++ [b]))
    with (PrimFloat.sub a'.1.1.1 a.1.1.1 :: deltas ((a' :: l) ++ [b])).
  rewrite IH. reflexivity.
Qed.

Lemma segments_snoc (l : list Sample) (b : Sample) :
  segments (l ++ [b]) =
  segments l ++ match last l with
                | Some a => if decide ((a.1.1.2, a.1.2) = (-1, -1)) then []
                            else [((a.1.1.2, a.1.2), (b.1.1.2, b.1.2))]
                | None => []
                end.
Proof.
  induction l as [|a l IH]; [reflexivity|].
  destruct l as [|a' l]; [cbn; now rewrite app_nil_r|].
  change (segments ((a :: a' :: l) ++ [b]))
    with ((if decide ((a.1.1.2, a.1.2) = (-1, -1)) then []
           else [((a.1.1.2, a.1.2), (a'.1.1.2, a'.1.2))])
          ++ segments ((a' :: l) ++ [b])).
  rewrite IH, app_assoc. reflexivity.
Qed.

Lemma poll_spec (batch : list PgEvent) : forall v,
  sleeps (poll batch v).1.2 = [] /\ lines (poll batch v).1.2 = [] /\
  existsb is_draw_error (poll batch v).1.2 = false /\
  spacebar_events (poll batch v).1.1 = spacebar_events v /\
  ((poll batch v).2 = None \/ (poll batch v).2 = Some (-1) \/ (poll batch v).2 = Some 1).
Proof.
  induction batch as [|e batch IH]; intros v; cbn [poll]; [now auto 10|].
  destruct e as [|key|key|pos|]; try apply IH; try (cbn; now auto 10).
  destruct key; try apply IH; try (cbn; now auto 10).
  specialize (IH (mkViewer (negb (is_paused v)) (spacebar_events v))).
  destruct (poll batch _) as [[v' out] r]. cbn in *. exact IH.
Qed.

(** Playing the sample under the cursor. When every drawing call is taken,
    the cursor moves on; when one raises, the cursor stays, nothing sleeps,
    and the marker of the sample may already be in the list. *)
Lemma play_sample_spec (data : list Sample) (v : Viewer) (c : Cursor)
    (t : float) (x y e : Z) :
  data !! counter c = Some (t, x, y, e) ->
  let delay := PrimFloat.sub t (previous_timestamp c) in
  let '(v', c', out, drawn) := play_sample data v c in
  is_paused v' = is_paused v /\
  existsb is_draw_error out = false /\
  if drawn then
    counter c' = S (counter c) /\ previous_timestamp c' = t /\
    previous_position c' = (x, y) /\
    spacebar_events v' = spacebar_events v ++ flagged [(t, x, y, e)] /\
    forallb on_screen (spacebar_events v') = true /\
    sleeps out = (if (0 <? counter c)%nat && PrimFloat.ltb 0 delay
                  then [Py.fmin delay 0.1%float] else []) /\
    lines out = (if decide (previous_position c = (-1, -1)) then []
                 else [(previous_position c, (x, y))])
  else
    c' = c /\ sleeps out = [] /\
    (forallb on_screen (spacebar_events v) = true -> lines out = []) /\
    (spacebar_events v' = spacebar_events v \/
     spacebar_events v' = spacebar_events v ++ flagged [(t, x, y, e)]).
Proof.
  intros E. unfold play_sample. rewrite E. cbv zeta.
  unfold _draw_trajectory_segment, _draw_spacebar_events.
  set (v' := if e =? 1 then mkViewer (is_paused v) (spacebar_events v ++ [(x, y)]) else v).
  assert (is_paused v' = is_paused v) as Hpa by (subst v'; destruct (e =? 1); reflexivity).
  assert (spacebar_events v' = spacebar_events v ++ flagged [(t, x, y, e)]) as Hmk.
  { subst v'. cbn. destruct (e =? 1); cbn; [reflexivity | now rewrite app_nil_r]. }
  destruct (draw_circles_spec (spacebar_events v')) as (Hcs & Hcl & Hce & Hct).
  destruct (decide (previous_position c = (-1, -1))) as [Hs|Hs].
  - destruct (draw_circles (spacebar_events v')) as [circles through].
    cbn [fst snd] in Hcs, Hcl, Hce, Hct. destruct through.
    + split; [exact Hpa|]. cbn [app]. rewrite existsb_app, Hce. split.
      { cbn. case_match; reflexivity. }
      cbn [counter previous_timestamp previous_position].
      rewrite sleeps_app, lines_app, Hcs, Hcl. cbn [app].
      repeat split; try exact Hmk; try (now symmetry); case_match; reflexivity.
    + split; [exact Hpa|]. cbn [app]. split; [exact Hce|].
      repeat split; try exact Hcs; try (intros _; exact Hcl). now right.
  - destruct (on_screen (previous_position c) && on_screen (x, y)) eqn:Hon.
    + destruct (draw_circles (spacebar_events v')) as [circles through].
      cbn [fst snd] in Hcs, Hcl, Hce, Hct. destruct through.
      * split; [exact Hpa|]. rewrite existsb_app. cbn [existsb is_draw_error orb].
        rewrite existsb_app, Hce. split; [cbn; case_match; reflexivity|].
        cbn [counter previous_timestamp previous_position].
        rewrite !sleeps_app, !lines_app, Hcs, Hcl. cbn [app].
        repeat split; try exact Hmk; try (now symmetry); case_match; reflexivity.
      * split; [exact Hpa|]. rewrite existsb_app. cbn [existsb is_draw_error orb].
        split; [exact Hce|]. rewrite sleeps_app, Hcs.
        repeat split; [|now right].
        intros Hok. exfalso. apply andb_prop in Hon as [_ Hxy].
        rewrite Hmk, forallb_app, Hok in Hct. unfold flagged in Hct.
        cbn [omap list_omap] in Hct. destruct (e =? 1); cbn in Hct;
          [rewrite Hxy in Hct|]; discriminate Hct.
    + repeat split; try assumption. now left.
Qed.

Lemma replay_loop_unfold (data : list Sample) (frames : list (list PgEvent))
    (v : Viewer) (c : Cursor) :
  replay_loop data frames v c =
  if (counter c <? length data)%nat then
    match frames with
    | [] => mkOutcome v c None [] []
    | batch :: frames' =>
        match poll batch v with
        | (v1, out1, Some code) => mkOutcome v1 c (Some code) frames' out1
        | (v1, out1, None) =>
            let '(v2, c2, out2, drawn) :=
              if is_paused v1 then (v1, c, [], true) else play_sample data v1 c in
            if drawn then
              emit (out1 ++ out2 ++
                    [Status (StProgress (is_paused v2) (counter c2) (length data));
                     Flip; Tick])
                   (replay_loop data frames' v2 c2)
            else
              mkOutcome v2 c2 (Some (-1)) frames'
                        (out1 ++ out2 ++ [Print (MsgReplayError DrawFailed)])
        end
    end
  else mkOutcome v c (Some 0) frames [Status StCompleted; Flip; Print MsgCompleted].
Proof. destruct frames; reflexivity. Qed.

(** What a run of the replay loop has done when it stops or runs out of
    input: the sleeps are the capped positive differences of the samples
    played, the markers are the flagged positions among them (and, after a
    drawing error, possibly that of the sample the error struck at), and
    return code 0 means every sample was played. *)
Lemma replay_loop_spec (data : list Sample) (frames : list (list PgEvent)) :
  forall (v : Viewer) (c : Cursor),
  tracks data c ->
  let o := replay_loop data frames v c in
  tracks data (o_cursor o) /\
  playback_delays (take (counter (o_cursor o)) data)
    = playback_delays (take (counter c) data) ++ sleeps (o_trace o) /\
  (exists new extra,
     spacebar_events (o_viewer o) = spacebar_events v ++ new ++ extra /\
     flagged (take (counter (o_cursor o)) data)
     = flagged (take (counter c) data) ++ new /\
     (extra = [] \/
      (existsb is_draw_error (o_trace o) = true /\ o_code o = Some (-1) /\
       extra = flagged (take 1 (drop (counter (o_cursor o)) data))))) /\
  (o_code o = Some 0 -> counter (o_cursor o) = length data).
Proof.
  induction frames as [|batch frames IH]; intros v c Hc; rewrite replay_loop_unfold;
    destruct (counter c <? length data)%nat eqn:Hlt; cbn zeta.
  1,2,4: cbn; (repeat split; try apply Hc; try (now rewrite app_nil_r);
    [exists [], []; rewrite !app_nil_r; auto | intros; try discriminate;
       apply Nat.ltb_ge in Hlt; destruct Hc; lia]).
  apply Nat.ltb_lt in Hlt.
  destruct (poll_spec batch v) as (Hps & _ & Hpe & Hpm & Hpr).
  destruct (poll batch v) as [[v1 out1] r]. cbn [fst snd] in Hps, Hpe, Hpm, Hpr.
  destruct r as [code|].
  { outcome. repeat split; try apply Hc; try (now rewrite Hps, app_nil_r).
    - exists [], []. rewrite !app_nil_r. auto.
    - intros [= ->]. destruct Hpr as [?|[?|?]]; discriminate. }
  destruct (is_paused v1) eqn:Hp1.
  { destruct (IH v1 c Hc) as (Ht & Hs & (new & extra & Hm & Hf & Hx) & H0). outcome.
    rewrite !sleeps_app, Hps. cbn [app sleeps omap list_omap].
    refine (conj Ht (conj Hs (conj _ H0))).
    exists new, extra. rewrite Hm, Hpm. split; [reflexivity|]. split; [exact Hf|].
    destruct Hx as [-> | (He & Hcode & ->)]; [now left | right].
    rewrite !existsb_app, He. cbn. rewrite !orb_true_r. auto. }
  destruct (lookup_lt_is_Some_2 data (counter c) Hlt) as [[[[t x] y] e] Es].
  pose proof (play_sample_spec data v1 c t x y e Es) as Hplay. cbn zeta in Hplay.
  destruct (play_sample data v1 c) as [[[v2 c2] out2] drawn].
  destruct Hplay as (Hpa & Hoe & Hplay). destruct drawn.
  - destruct Hplay as (Hcnt & Hpt & _ & Hmk & _ & Hsl & _).
    assert (take (counter c2) data = take (counter c) data ++ [(t, x, y, e)]) as Htk
      by (rewrite Hcnt; now apply take_S_r).
    assert (tracks data c2) as Hc2.
    { split; [lia|]. rewrite Htk, last_snoc. exact Hpt. }
    destruct (IH v2 c2 Hc2) as (Ht & Hs & (new & extra & Hm & Hf & Hx) & H0). outcome.
    rewrite !sleeps_app, Hsl. refine (conj Ht (conj _ (conj _ H0))).
    + rewrite Hs, Htk. unfold playback_delays at 1. rewrite deltas_snoc.
      rewrite filter_app, map_app. fold (playback_delays (take (counter c) data)).
      rewrite <- !app_assoc. f_equal. cbn [sleeps omap list_omap app].
      rewrite Hps. cbn [app]. f_equal.
      destruct Hc as [_ Hlast].
      destruct (counter c) as [|i] eqn:Ei.
      * reflexivity.
      * destruct (last (take (S i) data)) as [a|] eqn:El.
        -- rewrite <- Hlast. cbn [Nat.ltb Nat.leb andb fst snd].
           rewrite filter_cons, filter_nil.
           destruct (PrimFloat.ltb 0 (PrimFloat.sub t (previous_timestamp c))) eqn:Ed.
           ++ rewrite decide_True by reflexivity. reflexivity.
           ++ rewrite decide_False by discriminate. reflexivity.
        -- apply last_None in El. apply (f_equal length) in El.
           rewrite length_take in El. cbn [length] in El. lia.
    + exists (flagged [(t, x, y, e)] ++ new), extra. split; [|split].
      * now rewrite Hm, Hmk, Hpm, !app_assoc.
      * rewrite Hf, Htk. unfold flagged. now rewrite omap_app, app_assoc.
      * destruct Hx as [-> | (He & Hcode & ->)]; [now left | right].
        rewrite !existsb_app, He. cbn. rewrite !orb_true_r. auto.
  - destruct Hplay as (-> & Hsl & _ & Hmk). outcome.
    rewrite !sleeps_app, Hps, Hsl. cbn [app sleeps omap list_omap].
    rewrite app_nil_r. refine (conj Hc (conj eq_refl (conj _ _))); [|discriminate].
    destruct Hmk as [Hmk | Hmk].
    + exists [], []. rewrite !app_nil_r, Hmk, Hpm. auto.
    + exists [], (flagged [(t, x, y, e)]). rewrite app_nil_r, Hmk, Hpm.
      split; [reflexivity|]. split; [reflexivity|]. right.
      rewrite !existsb_app. cbn [existsb is_draw_error]. rewrite !orb_true_r.
      repeat split. f_equal.
      rewrite (drop_S data (t, x, y, e) (counter c) Es). reflexivity.
Qed.

(** Markers are only ever appended during a pass. *)
Lemma markers_only_grow (data : list Sample) (frames : list (list PgEvent)) :
  forall (v : Viewer) (c : Cursor),
  spacebar_events v `prefix_of` spacebar_events (o_viewer (replay_loop data frames v c)).
Proof.
  induction frames as [|batch frames IH]; intros v c; rewrite replay_loop_unfold;
    destruct (counter c <? length data)%nat eqn:Hlt; try reflexivity.
  destruct (poll_spec batch v) as (_ & _ & _ & Hpm & _).
  destruct (poll batch v) as [[v1 out1] r]. cbn in Hpm. rewrite <- Hpm.
  destruct r as [code|]; [reflexivity|].
  destruct (is_paused v1); [apply IH|].
  apply Nat.ltb_lt in Hlt.
  destruct (lookup_lt_is_Some_2 data (counter c) Hlt) as [[[[t x] y] e] Es].
  pose proof (play_sample_spec data v1 c t x y e Es) as Hplay. cbn zeta in Hplay.
  destruct (play_sample data v1 c) as [[[v2 c2] out2] drawn].
  destruct Hplay as (_ & _ & Hplay). destruct drawn.
  - destruct Hplay as (_ & _ & _ & Hmk & _). outcome.
    etrans; [|apply IH]. rewrite Hmk. apply prefix_app_r. reflexivity.
  - destruct Hplay as (_ & _ & _ & [Hmk | Hmk]); outcome; rewrite Hmk;
      [reflexivity | apply prefix_app_r; reflexivity].
Qed.




Lemma tracks_start (data : list Sample) : tracks data start_cursor.
Proof. split; cbn; [lia | exact I]. Qed.

(** The messages of a load are warnings. *)
Lemma load_prints_no_draw_error (d : Dir) (path : string) :
  existsb is_draw_error (map Print (_load_trial_data d path).2) = false.
Proof.
  assert (forall rows n, existsb is_draw_error (map Print (load_rows n rows).2) = false)
    as Hrows.
  { induction rows as [|row rows IH]; intros n; [reflexivity|]. cbn [load_rows].
    specialize (IH (n + 1)). destruct (load_rows (n + 1) rows) as [ev w].
    destruct (parse_row row); [exact IH|]. exact IH. }
  unfold _load_trial_data. destruct (d !! path) as [[[|header rows] through]|];
    cbn [file_rows reads_through]; try reflexivity.
  specialize (Hrows rows 2). destruct (load_rows 2 rows) as [ev w]. cbn [snd] in Hrows.
  assert (existsb is_draw_error
            (map Print ((if decide (header = expected_header) then []
                         else [WarnHeader header]) ++ w)) = false) as Hall.
  { rewrite map_app, existsb_app, Hrows. destruct (decide _); reflexivity. }
  destruct through; [destruct ev|]; exact Hall.
Qed.

(** A replay of a record that loads: sleeps and markers at any point of it. *)
Lemma replay_trial_spec (d : Dir) (path : string) (data : list Sample)
    (w : list Message) (frames : list (list PgEvent)) (v : Viewer) :
  _load_trial_data d path = (inr data, w) ->
  let o := _replay_trial d path frames v in
  sleeps (o_trace o) = playback_delays (take (counter (o_cursor o)) data) /\
  (exists extra,
     spacebar_events (o_viewer o)
     = flagged (take (counter (o_cursor o)) data) ++ extra /\
     (extra = [] \/
      (existsb is_draw_error (o_trace o) = true /\ o_code o = Some (-1) /\
       extra = flagged (take 1 (drop (counter (o_cursor o)) data))))) /\
  (o_code o = Some 0 -> counter (o_cursor o) = length data).
Proof.
  intros E. pose proof (load_prints_no_draw_error d path) as Hw.
  unfold _replay_trial. rewrite E in *. cbn [snd] in Hw.
  destruct (replay_loop_spec data frames (mkViewer (is_paused v) []) start_cursor
              (tracks_start data)) as (_ & Hs & (new & extra & Hm & Hf & Hx) & H0).
  outcome. rewrite !sleeps_app, sleeps_prints. cbn [app].
  change (sleeps [Print (MsgLoaded (length data)); Blit; Status StPressP; Flip])
    with (@nil float).
  cbn [app]. split; [|split]; [| |exact H0].
  - rewrite Hs. reflexivity.
  - exists extra. rewrite Hm, Hf. split; [reflexivity|].
    destruct Hx as [-> | (He & Hcode & ->)]; [now left | right].
    rewrite !existsb_app, He. cbn. rewrite !orb_true_r. auto.
Qed.


(** Pressing R during a pass ends the pass with code 1 and touches neither
    the markers nor the pause flag. *)
Lemma restart_ends_the_pass (data : list Sample) (rest : list PgEvent)
    (frames : list (list PgEvent)) (v : Viewer) (c : Cursor) :
  (counter c < length data)%nat ->
  replay_loop data ((KEYDOWN K_r :: rest) :: frames) v c
  = mkOutcome v c (Some 1) frames [Print MsgRestarting].
Proof.
  intros Hlt. rewrite replay_loop_unfold.
  apply Nat.ltb_lt in Hlt. rewrite Hlt. reflexivity.
Qed.

End Playback.

(** C7, on the restart command: the viewer is run on the record of
    [demo_game]; the evaluator starts the replay, two samples play (the second
    carries the event flag) and R is pressed. The pass ends with the message
    that the replay restarts, but the main loop takes no notice of return code
    1: the application idles without a replay, the marker is still there, the
    pause flag is still off, and nothing is drawn or loaded afterwards. *)
Theorem restart_does_not_reload :
  let a := @viewer_run decimal_text python_int c_int demo_dir restart_frames restart_typed in
  app_running a = true /\ in_replay a = None /\ app_frames a = [] /\
  is_paused (app_viewer a) = false /\
  spacebar_events (app_viewer a) = [(110, 205)] /\
  app_trace a =
    [Blit; Status StPressR; Flip; Print (MsgLoading 1 1); Blit; Flip;
     Print (MsgLoaded 3); Blit; Status StPressP; Flip;
     Print (MsgReplay false); Status (StProgress false 1 3); Flip; Tick;
     DrawLine (100, 200) (110, 205); DrawCircle (110, 205); Sleep 0.05%float;
     Status (StProgress false 2 3); Flip; Tick;
     Print MsgRestarting; Tick; Tick; Tick; Tick].
Proof. vm_compute. repeat split. Qed.

(** * Further properties *)

(** ** Record names and the directory scan *)

Section Scan.
Context {float_text : FloatText} {int_text : IntText} {round_trip : IntRoundTrip}.

(** X1: two different (participant, trial) pairs never share a file: the
    names differ, so saving one record, whatever becomes of the write, leaves
    the file of every other pair as it was, at the path where the viewer
    looks for it. *)
Theorem save_leaves_other_records
    (disk : Disk) (g : Game) (d : Dir) (p' t' : Z) :
  (p', t') <> (participant_number g, trial_number g) ->
  _get_data_file_path p' t' <> file_name (participant_number g) (trial_number g) /\
  (_save_trajectory_data disk g d).2 !! _get_data_file_path p' t'
  = d !! _get_data_file_path p' t'.
Proof.
  intros Hne. unfold _get_data_file_path.
  assert (file_name p' t' <> file_name (participant_number g) (trial_number g)) as Hn.
  { intros E. apply file_name_inj in E as [-> ->]. now apply Hne. }
  split; [exact Hn|]. unfold _save_trajectory_data.
  destruct (mouse_positions g); [reflexivity|].
  destruct disk; cbn [snd]; try reflexivity; now apply lookup_insert_ne.
Qed.

(** X2: a participant with a stored record is never handed out again: the
    next participant number computed from the directory, and so the number
    a fresh recorder starts with, is greater. *)
Theorem stored_participant_is_skipped (d : Dir) (p t : Z) (file : File) :
  d !! file_name p t = Some file ->
  p < _get_next_participant_number (listing d) /\
  p < participant_number (init d).
Proof.
  intros E.
  assert (p < _get_next_participant_number (listing d)) as Hlt.
  { rewrite next_participant_number_omap.
    assert (p ∈ omap participant_of (listing d)) as Hin.
    { apply list_elem_of_omap. exists (file_name p t). split.
      - unfold listing. apply list_elem_of_fmap. exists (file_name p t, file).
        split; [reflexivity|]. now apply elem_of_map_to_list.
      - apply participant_of_file_name. }
    pose proof (max_default_ge _ 0 p Hin). lia. }
  split; exact Hlt.
Qed.

End Scan.

(** ** The recorder over whole runs *)

Section Runs.
Context {float_text : FloatText} {int_text : IntText}.

Ltac game g := destruct g as [? ? ? ? ? ? ? ? ?]; cbn in *; subst.

(** Case analysis on one dispatched event: the event, the key, the flags
    the handlers test, and the outcome of the save. *)
Ltac dispatch_cases i g :=
  let now0 := fresh "now0" in
  let ok0 := fresh "ok0" in
  let e := fresh "e" in
  let key := fresh "key" in
  destruct i as [now0 ok0 e]; destruct e as [|key|key|[? ?]|];
  [ | destruct key | | | ]; game g;
  unfold dispatch, _handle_keydown, _handle_keyup, _handle_mouse_motion;
  cbn [ev now disk is_key andb negb tracking mouse_positions space_event
       start_time save_prompt next_participant participant_number trial_number
       max_trials];
  rewrite ?save_result;
  cbn [tracking mouse_positions space_event start_time save_prompt
       next_participant participant_number trial_number max_trials];
  repeat match goal with
         | |- context [if ?b then _ else _] =>
             lazymatch b with
             | context [if _ then _ else _] => fail
             | _ => destruct b eqn:?
             end
         | |- context [match ?x with Written => _ | OpenFails => _ | WriteFails _ => _ end] =>
             destruct x
         | |- context [let '(_, _) := ?p in _] => destruct p eqn:?
         end;
  cbn [fst snd tracking mouse_positions space_event start_time save_prompt
       next_participant participant_number trial_number max_trials] in *.

Lemma handle_events_invariant (P : Recorder -> Prop) :
  (forall i r, P r -> P (dispatch i r)) ->
  forall inputs r, P r -> P (handle_events inputs r).
Proof.
  intros Hstep inputs. induction inputs as [|i inputs IH]; intros r Hr; [exact Hr|].
  rewrite handle_events_cons. apply IH, Hstep, Hr.
Qed.

Lemma run_invariant (P : Recorder -> Prop) :
  (forall i r, P r -> P (dispatch i r)) ->
  forall frames r, P r -> P (run frames r).
Proof.
  intros Hstep frames. induction frames as [|batch frames IH]; intros r Hr; [exact Hr|].
  cbn [run]. pose proof (handle_events_invariant P Hstep batch r Hr) as Hb.
  destruct (handle_events batch r).2; [now apply IH | exact Hb].
Qed.

(** An invariant of the inputs that satisfy [Q]. *)
Lemma run_invariant_on (Q : Input -> bool) (P : Recorder -> Prop) :
  (forall i r, Q i = true -> P r -> P (dispatch i r)) ->
  forall frames r, forallb (forallb Q) frames = true -> P r -> P (run frames r).
Proof.
  intros Hstep.
  assert (forall inputs r, forallb Q inputs = true -> P r -> P (handle_events inputs r))
    as Hbatch.
  { induction inputs as [|i inputs IH]; intros r Hq Hr; [exact Hr|].
    cbn [forallb] in Hq. apply andb_prop in Hq as [Hi Hq].
    rewrite handle_events_cons. apply IH; [exact Hq | now apply Hstep]. }
  induction frames as [|batch frames IH]; intros r Hq Hr; [exact Hr|].
  cbn [forallb] in Hq. apply andb_prop in Hq as [Hb Hq].
  cbn [run]. pose proof (Hbatch batch r Hb Hr) as Hr'.
  destruct (handle_events batch r).2; [now apply IH | exact Hr'].
Qed.

Lemma dispatch_flags (i : Input) (r : Recorder) :
  flags_ok r.1.1 -> flags_ok (dispatch i r).1.1.
Proof.
  destruct r as [[g d] running]. unfold flags_ok, flag_ok. cbn [fst snd].
  intros [Hse Hmp]. dispatch_cases i g; try (split; auto; fail).
  split; [exact Hse|]. apply Forall_app. split; [exact Hmp|].
  apply List.Forall_cons; [exact Hse | apply List.Forall_nil].
Qed.

Lemma dispatch_prompt (m : Z) (i : Input) (r : Recorder) :
  prompt_justified r.1.1 /\ max_trials r.1.1 = m ->
  prompt_justified (dispatch i r).1.1 /\ max_trials (dispatch i r).1.1 = m.
Proof.
  destruct r as [[g d] running]. unfold prompt_justified. cbn [fst snd].
  intros [Hp Hm]. dispatch_cases i g; split; try reflexivity; try (exact Hp);
    try discriminate; intros Hn; try (specialize (Hp Hn));
    repeat match goal with
           | E : (_ && _) = true |- _ => apply andb_prop in E as [? ?]
           | E : (_ <? _) = true |- _ => apply Z.ltb_lt in E
           end; try lia; try discriminate.
Qed.

Lemma dispatch_numbers (p0 : Z) (i : Input) (r : Recorder) :
  p0 <= participant_number r.1.1 /\ 1 <= trial_number r.1.1 ->
  p0 <= participant_number (dispatch i r).1.1 /\ 1 <= trial_number (dispatch i r).1.1.
Proof.
  destruct r as [[g d] running]. cbn [fst snd].
  intros [Hp Ht]. dispatch_cases i g; split; lia.
Qed.

Lemma dispatch_dir (d0 : Dir) (name : string) (i : Input) (r : Recorder) :
  (is_Some (d0 !! name) -> is_Some (r.1.2 !! name)) /\
  ((forall p t, name <> file_name p t) -> r.1.2 !! name = d0 !! name) ->
  (is_Some (d0 !! name) -> is_Some ((dispatch i r).1.2 !! name)) /\
  ((forall p t, name <> file_name p t) -> (dispatch i r).1.2 !! name = d0 !! name).
Proof.
  destruct r as [[g d] running]. cbn [fst snd].
  intros [Hk Ho]. dispatch_cases i g; try (split; assumption).
  all: split; [intros Hs | intros Hn].
  all: match goal with
       | |- context [<[?k := _]> _ !! ?n] =>
           destruct (decide (k = n)) as [Ek | Hkn];
           [ rewrite Ek, lookup_insert_eq | rewrite lookup_insert_ne by exact Hkn ]
       end; eauto.
  all: exfalso; eapply Hn; symmetry; exact Ek.
Qed.

Lemma sample_row_length (s : Sample) : length (sample_row s) = 4%nat.
Proof. destruct s as [[[t x] y] e]. reflexivity. Qed.

Lemma dispatch_stored_well (i : Input) (r : Recorder) :
  writes_through i = true ->
  stored_well r.1.2 -> stored_well (dispatch i r).1.2.
Proof.
  destruct r as [[g d] running]. cbn [fst snd]. unfold writes_through.
  intros Hi Hw. dispatch_cases i g; try exact Hw; try discriminate Hi.
  all: intros name rows;
    match goal with
    | |- context [<[?k := _]> _ !! ?n] =>
        destruct (decide (k = n)) as [Ek | Hkn];
        [ rewrite Ek, lookup_insert_eq | rewrite lookup_insert_ne by exact Hkn; apply Hw ]
    end.
  all: intros [= <-]; eexists; split; [|split; [reflexivity|]].
  all: repeat match goal with
              | E : (_ && _) = true |- _ => apply andb_prop in E as [? ?]
              | E : negb _ = true |- _ => apply negb_true_iff in E
              | E : bool_decide _ = false |- _ => apply bool_decide_eq_false in E
              end.
  all: try (destruct mouse_positions0; [congruence | discriminate]).
  all: apply Forall_forall; intros row [s [-> _]]%list_elem_of_fmap;
    apply sample_row_length.
Qed.

(** X3: the event flag never takes a value other than 0 or 1: if the key
    flag and the samples in memory start that way, they are so after any run
    of the recorder. *)
Theorem run_keeps_event_flags (frames : list (list Input)) (g : Game) (d : Dir) :
  flags_ok g -> flags_ok (run frames (g, d, true)).1.1.
Proof.
  intros Hg. apply (run_invariant (fun r => flags_ok r.1.1)); [|exact Hg].
  intros i r. apply dispatch_flags.
Qed.

(** X4: the advance prompt is up only when the trials are used up: after any
    run from a state where that holds, [max_trials] is what it was, and when
    the flag is set, or the screen asks to move to the next participant, the
    trial number exceeds [max_trials]. *)
Theorem advance_prompt_only_after_last_trial
    (frames : list (list Input)) (g : Game) (d : Dir) :
  prompt_justified g ->
  let g' := (run frames (g, d, true)).1.1 in
  max_trials g' = max_trials g /\
  (next_participant g' = true -> max_trials g < trial_number g') /\
  ((_render_ui g').2 = Some MoveToNextParticipant -> max_trials g < trial_number g').
Proof.
  intros Hg g'.
  destruct (run_invariant
              (fun r => prompt_justified r.1.1 /\ max_trials r.1.1 = max_trials g)
              (dispatch_prompt (max_trials g)) frames (g, d, true) (conj Hg eq_refl))
    as [Hp Hm].
  fold g' in Hp, Hm. unfold prompt_justified in Hp. rewrite Hm in Hp.
  split; [exact Hm|]. split; [exact Hp|].
  unfold _render_ui. cbn [snd]. intros E. apply Hp.
  destruct (save_prompt g'); [discriminate|].
  destruct (next_participant g'); [reflexivity|].
  destruct (negb (tracking g')); discriminate.
Qed.

(** X5: over any run the participant number never goes down and the trial
    number never drops below 1. *)
Theorem participant_never_decreases
    (frames : list (list Input)) (g : Game) (d : Dir) :
  1 <= trial_number g ->
  let g' := (run frames (g, d, true)).1.1 in
  participant_number g <= participant_number g' /\ 1 <= trial_number g'.
Proof.
  intros Ht g'.
  apply (run_invariant
           (fun r => participant_number g <= participant_number r.1.1 /\
                     1 <= trial_number r.1.1)
           (dispatch_numbers (participant_number g)) frames (g, d, true)).
  cbn. split; [lia | exact Ht].
Qed.

(** X6: the recorder never removes a file and never touches a file whose
    name is not a record name [SHSA_{p}_{t}.csv]. *)
Theorem recorder_never_deletes
    (frames : list (list Input)) (g : Game) (d : Dir) (name : string) :
  let d' := (run frames (g, d, true)).1.2 in
  (is_Some (d !! name) -> is_Some (d' !! name)) /\
  ((forall p t, name <> file_name p t) -> d' !! name = d !! name).
Proof.
  apply (run_invariant
           (fun r => (is_Some (d !! name) -> is_Some (r.1.2 !! name)) /\
                     ((forall p t, name <> file_name p t) -> r.1.2 !! name = d !! name))
           (dispatch_dir d name) frames (g, d, true)).
  cbn. split; auto.
Qed.

(** X7: as long as no write is cut short by an error, every file the
    recorder leaves behind reads through and is a header followed by at
    least one row of four fields: if the directory starts that way it stays
    that way over the run. Loading such a file never fails for a missing
    header row or an error of the reader, and prints no header warning. *)
Theorem recorder_files_well_formed
    (frames : list (list Input)) (g : Game) (d : Dir) :
  stored_well d ->
  forallb (forallb writes_through) frames = true ->
  let d' := (run frames (g, d, true)).1.2 in
  stored_well d' /\
  forall name file, d' !! name = Some file ->
    (_load_trial_data d' name).1 <> inl (Invalid NoHeaderRow) /\
    (_load_trial_data d' name).1 <> inl (Invalid ReaderRaised) /\
    (_load_trial_data d' name).1 <> inl FileNotFound /\
    (_load_trial_data d' name).2 = expected_warnings 2 (tail (file_rows file)).
Proof.
  intros Hd Hq d'.
  assert (stored_well d') as Hw.
  { apply (run_invariant_on writes_through (fun r => stored_well r.1.2));
      [|exact Hq | exact Hd].
    intros i r. apply dispatch_stored_well. }
  split; [exact Hw|]. intros name file E.
  destruct (Hw name file E) as (data & _ & -> & _).
  rewrite (load_existing d' name expected_header data E).
  rewrite decide_True by reflexivity. cbn [fst snd tail app text file_rows].
  repeat split; destruct (omap parse_row data); discriminate.
Qed.

Lemma dispatch_blocked (mp : list Sample) (d0 : Dir) (i : Input) (r : Recorder) :
  is_answer i = false ->
  next_participant r.1.1 = true /\ tracking r.1.1 = false /\
  mouse_positions r.1.1 = mp /\ r.1.2 = d0 ->
  next_participant (dispatch i r).1.1 = true /\ tracking (dispatch i r).1.1 = false /\
  mouse_positions (dispatch i r).1.1 = mp /\ (dispatch i r).1.2 = d0.
Proof.
  destruct r as [[g d] running]. cbn [fst snd]. intros Hi (Hn & Ht & Hm & Hd).
  dispatch_cases i g; try discriminate; repeat split.
Qed.

(** X8: while the advance prompt is up and not answered, nothing is
    recorded: from a state with the prompt up and tracking off, any input
    without a Y or N key press leaves the prompt up, tracking off, and the
    samples in memory and the directory unchanged; the start key in
    particular does nothing. *)
Theorem advance_prompt_blocks_start (inputs : list Input) (g : Game) (d : Dir) :
  next_participant g = true -> tracking g = false ->
  forallb (fun i => negb (is_answer i)) inputs = true ->
  let '(g', d', _) := handle_events inputs (g, d, true) in
  next_participant g' = true /\ tracking g' = false /\
  mouse_positions g' = mouse_positions g /\ d' = d.
Proof.
  intros Hn Ht Hall.
  assert (forall r, next_participant r.1.1 = true /\ tracking r.1.1 = false /\
                    mouse_positions r.1.1 = mouse_positions g /\ r.1.2 = d ->
          next_participant (handle_events inputs r).1.1 = true /\
          tracking (handle_events inputs r).1.1 = false /\
          mouse_positions (handle_events inputs r).1.1 = mouse_positions g /\
          (handle_events inputs r).1.2 = d) as Hgen.
  { induction inputs as [|i inputs IH]; intros r Hr; [exact Hr|].
    cbn [forallb] in Hall. apply andb_prop in Hall as [Hi Hall].
    apply negb_true_iff in Hi. rewrite handle_events_cons.
    apply (IH Hall). now apply dispatch_blocked. }
  specialize (Hgen (g, d, true) (conj Hn (conj Ht (conj eq_refl eq_refl)))).
  destruct (handle_events inputs (g, d, true)) as [[g' d'] r']. exact Hgen.
Qed.

(** The samples that a stretch of tracking appends: one per pointer motion,
    in order, stamped with the time since the start and the position. *)
Lemma body_records_motions (body : list Input) : forall (g : Game) (d : Dir) (r : bool),
  forallb during_tracking body = true ->
  tracking g = true ->
  exists extra,
    mouse_positions (handle_events body (g, d, r)).1.1 = mouse_positions g ++ extra /\
    map (fun s : Sample => (s.1.1.1, (s.1.1.2, s.1.2))) extra
    = map (fun m => (PrimFloat.sub m.1 (start_time g), m.2)) (motions body).
Proof.
  induction body as [|i body IH]; intros g d r Hall Htr.
  - exists []. now rewrite app_nil_r.
  - cbn [forallb] in Hall. apply andb_prop in Hall as [Hi Hall].
    rewrite handle_events_cons. unfold motions. cbn [omap list_omap].
    fold (motions body). unfold during_tracking in Hi.
    dispatch_cases i g; try discriminate Hi;
      match goal with
      | |- context [handle_events body (?g1, ?d1, ?r1)] =>
          destruct (IH g1 d1 r1 Hall eq_refl) as (extra & Hm & Hmap)
      end; cbn [mouse_positions start_time] in Hm, Hmap.
    all: try (exists extra; split; [exact Hm | exact Hmap]).
    eexists (_ :: extra). rewrite Hm, <- app_assoc. split; [reflexivity|].
    cbn [map fst snd]. now rewrite Hmap.
Qed.

(** X9: a recording cycle stores exactly the pointer motions between start
    and stop: the file written for the current participant and trial holds,
    after the header, one row per motion, in order, with the time since the
    start key and the position of the motion. Samples of earlier trials do
    not leak into it. *)
Theorem cycle_stores_its_motions (c : CycleIn) (g : Game) (d : Dir) :
  valid_cycle c ->
  next_participant g = false ->
  let '(g', d', _) := handle_events (cycle_inputs c) (g, d, true) in
  d' !! file_name (participant_number g) (trial_number g)
    = Some (text (expected_header :: map sample_row (mouse_positions g'))) /\
  map (fun s : Sample => (s.1.1.1, (s.1.1.2, s.1.2))) (mouse_positions g')
  = map (fun m => (PrimFloat.sub m.1 c.1.1.1, m.2)) (motions c.1.1.2).
Proof.
  destruct c as [[[t0 body] tq] ty]. intros [Hall Hmot] Hnp. cbn in Hall, Hmot.
  unfold cycle_inputs, cycle. rewrite handle_events_cons, handle_events_app.
  game g. unfold dispatch at 2. unfold _handle_keydown. cbn.
  match goal with
  | |- context [handle_events body (?g1, ?d1, ?r1)] =>
      destruct (tracking_body body g1 d1 r1 Hall eq_refl)
        as (gb & extra' & E & Htb & Hsb & Hnb & Hpb & Htnb & Hmxb & Hmb & Hex);
      destruct (body_records_motions body g1 d1 r1 Hall eq_refl)
        as (extra & Hm & Hmap)
  end.
  rewrite E in Hm |- *. cbn [fst snd mouse_positions start_time app] in Hm, Hmap, Hmb.
  specialize (Hex Hmot). rewrite Hm in Hmb. subst extra'.
  game gb. unfold handle_events, dispatch, _handle_keydown. cbn.
  rewrite save_result. cbn. rewrite bool_decide_eq_false_2 by exact Hex. cbn.
  split; [apply lookup_insert_eq | exact Hmap].
Qed.

(** X10: while tracking, the trajectory on screen is the polyline through
    the positions of the motions since the start key, and nothing is drawn
    before there are two of them. *)
Theorem trajectory_shown_while_tracking
    (t_start : float) (body : list Input) (g : Game) (d : Dir) :
  next_participant g = false ->
  forallb during_tracking body = true ->
  let g' := (handle_events (mkInput t_start Written (KEYDOWN K_s) :: body)
                           (g, d, true)).1.1 in
  _render_trajectory g' =
  if (1 <? length (motions body))%nat then Some (map snd (motions body)) else None.
Proof.
  intros Hnp Hall g'. subst g'. rewrite handle_events_cons.
  game g. unfold dispatch, _handle_keydown. cbn.
  match goal with
  | |- context [handle_events body (?g1, ?d1, ?r1)] =>
      destruct (tracking_body body g1 d1 r1 Hall eq_refl)
        as (gb & extra' & E & Htb & _);
      destruct (body_records_motions body g1 d1 r1 Hall eq_refl)
        as (extra & Hm & Hmap)
  end.
  rewrite E in Hm |- *. cbn [fst snd mouse_positions app] in Hm.
  unfold _render_trajectory. cbn [fst]. rewrite Htb, Hm. cbn [andb].
  assert (map (fun pos : Sample => (pos.1.1.2, pos.1.2)) extra = map snd (motions body))
    as Hpos.
  { apply (f_equal (map snd)) in Hmap. rewrite !map_map in Hmap. exact Hmap. }
  assert (length extra = length (motions body)) as Hlen
    by (apply (f_equal (@length _)) in Hmap; now rewrite !length_map in Hmap).
  rewrite Hpos, Hlen. reflexivity.
Qed.

Lemma dispatch_running (i : Input) (g : Game) (d : Dir) (running : bool) :
  (dispatch i (g, d, running)).2 = if is_stop i then false else running.
Proof. dispatch_cases i g; reflexivity. Qed.

Lemma handle_events_running (inputs : list Input) : forall (r : Recorder),
  (handle_events inputs r).2 = if existsb is_stop inputs then false else r.2.
Proof.
  induction inputs as [|i inputs IH]; intros [[g d] running]; [reflexivity|].
  rewrite handle_events_cons, IH. cbn [existsb].
  destruct (dispatch i (g, d, running)) as [[g1 d1] r1] eqn:E.
  pose proof (dispatch_running i g d running) as Hr. rewrite E in Hr.
  cbn [snd] in *. subst r1.
  destruct (is_stop i), (existsb is_stop inputs); reflexivity.
Qed.

(** X11: the main loop of the recorder handles every event of every frame,
    in order, as long as no frame holds a quit event or an Escape key press;
    the frame that holds one is still handled to its end, events after the
    quit included, and no later frame is looked at. *)
Theorem run_stops_after_quit_frame
    (before : list (list Input)) (batch : list Input) (after : list (list Input))
    (g : Game) (d : Dir) :
  forallb (fun b => negb (existsb is_stop b)) before = true ->
  run before (g, d, true) = handle_events (concat before) (g, d, true) /\
  (run before (g, d, true)).2 = true /\
  (existsb is_stop batch = true ->
   run (before ++ batch :: after) (g, d, true)
   = handle_events (concat before ++ batch) (g, d, true) /\
   (run (before ++ batch :: after) (g, d, true)).2 = false).
Proof.
  revert g d. induction before as [|b before IH]; intros g d Hall.
  - cbn [run concat app]. split; [reflexivity|]. split; [reflexivity|].
    intros Hstop. cbn [run].
    pose proof (handle_events_running batch (g, d, true)) as Hr.
    rewrite Hstop in Hr. rewrite Hr. split; [reflexivity | exact Hr].
  - cbn [forallb] in Hall. apply andb_prop in Hall as [Hb Hall].
    apply negb_true_iff in Hb.
    pose proof (handle_events_running b (g, d, true)) as Hr. rewrite Hb in Hr.
    cbn [snd] in Hr.
    cbn [concat]. rewrite <- !app_assoc, !handle_events_app.
    cbn [app run]. rewrite Hr.
    destruct (handle_events b (g, d, true)) as [[g1 d1] r1]. cbn [snd] in Hr.
    subst r1. pose proof (IH g1 d1 Hall) as IH1.
    rewrite handle_events_app in IH1. exact IH1.
Qed.

End Runs.

(** ** The viewer: selection, loading, and the replay pass *)

Section Replays.
Context {float_text : FloatText} {int_text : IntText} {pygame : Pygame}.

Ltac outcome := cbn [emit o_viewer o_cursor o_code o_frames o_trace].

Lemma row_warnings_expected (rows : list Row) : forall n,
  (length (row_warnings (expected_warnings n rows)) + length (omap parse_row rows)
   = length rows)%nat.
Proof.
  induction rows as [|row rows IH]; intros n; [reflexivity|].
  rewrite expected_warnings_cons. cbn [omap list_omap length].
  specialize (IH (n + 1)).
  destruct (parse_row row); cbn [row_warnings List.filter is_row_warning length];
    fold (row_warnings (expected_warnings (n + 1) rows)); lia.
Qed.

(** X13: loading accounts for every data row: the load reports a missing
    file exactly when the path holds no file, a successful load never
    returns an empty record, and the samples returned plus the row warnings
    printed are as many as the data rows of the file, which was read to its
    end. *)
Theorem load_accounts_for_every_row (d : Dir) (path : string) :
  let '(result, messages) := _load_trial_data d path in
  (result = inl FileNotFound <-> d !! path = None) /\
  (forall data, result = inr data ->
     data <> [] /\
     exists header rows,
       d !! path = Some (text (header :: rows)) /\
       (length data + length (row_warnings messages) = length rows)%nat).
Proof.
  destruct (d !! path) as [[[|header rows] through]|] eqn:E.
  - rewrite (load_empty_file d path through E).
    split; [split; discriminate|]. intros data Hd. discriminate Hd.
  - rewrite (load_stored d path header rows through E).
    pose proof (row_warnings_expected rows 2) as Hlen.
    split; [split; [destruct through, (omap parse_row rows)|]; discriminate|].
    intros data Hd. destruct through; [|discriminate Hd].
    assert (data = omap parse_row rows /\ data <> []) as [-> Hne]
      by (destruct (omap parse_row rows); [discriminate | split; congruence]).
    split; [exact Hne|]. exists header, rows. split; [reflexivity|].
    unfold row_warnings. rewrite List.filter_app.
    fold (row_warnings (expected_warnings 2 rows)).
    rewrite length_app.
    destruct (decide _); cbn [List.filter is_row_warning length]; lia.
  - rewrite (load_missing d path E).
    split; [split; reflexivity|]. intros data Hd. discriminate Hd.
Qed.

Lemma load_ok_inv (d : Dir) (path : string) (data : list Sample) (w : list Message) :
  _load_trial_data d path = (inr data, w) ->
  data <> [] /\ exists file : File, d !! path = Some file.
Proof.
  intros L. pose proof (load_accounts_for_every_row d path) as Hl.
  rewrite L in Hl. destruct Hl as [_ Hl].
  destruct (Hl data eq_refl) as (Hne & header & rows & E & _). eauto.
Qed.

Lemma poll_no_control (batch : list PgEvent) (v : Viewer) :
  forallb (fun e => negb (is_control e)) batch = true ->
  poll batch v = (v, [], None).
Proof.
  induction batch as [|e batch IH]; [reflexivity|].
  cbn [forallb]. intros [He Hb]%andb_prop. apply negb_true_iff in He.
  destruct e as [|key|key|pos|]; try discriminate He;
    [destruct key; try discriminate He|..]; cbn [poll]; exact (IH Hb).
Qed.

(** X17: a paused replay stands still: as long as the pause is on and no P,
    Q, R or close event arrives, the cursor and the markers stay where they
    are, nothing is drawn and nothing sleeps; each frame only refreshes the
    status line, and the pass keeps waiting for input. *)
Theorem paused_replay_stands_still
    (data : list Sample) (frames : list (list PgEvent)) (v : Viewer) (c : Cursor) :
  is_paused v = true ->
  (counter c < length data)%nat ->
  forallb (forallb (fun e => negb (is_control e))) frames = true ->
  let o := replay_loop data frames v c in
  o_viewer o = v /\ o_cursor o = c /\ o_code o = None /\ o_frames o = [] /\
  forallb is_refresh (o_trace o) = true /\
  length (o_trace o) = (3 * length frames)%nat.
Proof.
  intros Hp Hlt. apply Nat.ltb_lt in Hlt.
  induction frames as [|batch frames IH]; intros Hall o; subst o;
    rewrite replay_loop_unfold, Hlt.
  - repeat split.
  - cbn [forallb] in Hall. apply andb_prop in Hall as [Hb Hall].
    rewrite (poll_no_control batch v Hb).
    destruct (is_paused v) eqn:Hp'; [|discriminate Hp]. outcome.
    destruct (IH Hall) as (Hv & Hc & Hcode & Hfr & Href & Hlen).
    cbn [app forallb is_refresh andb length]. rewrite Href, Hlen.
    repeat split; try assumption. lia.
Qed.

(** X18: within one batch the pause flag flips once per P pressed, so an
    even number of presses leaves it as it was; without a Q, R or close event
    the batch ends no pass and touches no marker. *)
Theorem pause_flips_with_each_P (batch : list PgEvent) (v : Viewer) :
  forallb (fun e => negb (is_exit e)) batch = true ->
  (poll batch v).2 = None /\
  is_paused (poll batch v).1.1
  = xorb (is_paused v) (Nat.odd (length (List.filter is_p batch))) /\
  spacebar_events (poll batch v).1.1 = spacebar_events v.
Proof.
  revert v. induction batch as [|e batch IH]; intros v Hall.
  - cbn. now rewrite xorb_false_r.
  - cbn [forallb] in Hall. apply andb_prop in Hall as [He Hall].
    apply negb_true_iff in He.
    destruct e as [|key|key|pos|]; try discriminate He;
      [destruct key; try discriminate He|..]; cbn [poll List.filter is_p];
      try exact (IH v Hall).
    specialize (IH (mkViewer (negb (is_paused v)) (spacebar_events v)) Hall).
    destruct (poll batch _) as [[v' out] r]. cbn [fst snd is_paused spacebar_events] in *.
    destruct IH as (Hr & Hpa & Hm). split; [exact Hr|]. split; [|exact Hm].
    rewrite Hpa. cbn [length]. rewrite Nat.odd_succ, <- Nat.negb_odd.
    destruct (is_paused v), (Nat.odd (length (List.filter is_p batch))); reflexivity.
Qed.

Lemma follows_start (data : list Sample) : follows data start_cursor.
Proof. split; cbn; [lia | reflexivity]. Qed.

(** The line segments drawn by a run of the replay loop, from a state whose
    markers the drawing functions take. *)
Lemma replay_loop_lines (data : list Sample) (frames : list (list PgEvent)) :
  forall (v : Viewer) (c : Cursor),
  follows data c ->
  forallb on_screen (spacebar_events v) = true ->
  let o := replay_loop data frames v c in
  follows data (o_cursor o) /\
  segments (take (counter (o_cursor o)) data)
  = segments (take (counter c) data) ++ lines (o_trace o).
Proof.
  induction frames as [|batch frames IH]; intros v c Hc Hon; rewrite replay_loop_unfold;
    destruct (counter c <? length data)%nat eqn:Hlt; cbn zeta.
  1,2,4: outcome; split; [exact Hc | now rewrite app_nil_r].
  apply Nat.ltb_lt in Hlt.
  destruct (poll_spec batch v) as (_ & Hpl & _ & Hpm & _).
  destruct (poll batch v) as [[v1 out1] r]. cbn [fst snd] in Hpl, Hpm.
  rewrite <- Hpm in Hon.
  destruct r as [code|].
  { outcome. split; [exact Hc | now rewrite Hpl, app_nil_r]. }
  destruct (is_paused v1) eqn:Hp1.
  { destruct (IH v1 c Hc Hon) as (Hf & Hs). outcome.
    rewrite !lines_app, Hpl. cbn [app lines omap list_omap]. split; assumption. }
  destruct (lookup_lt_is_Some_2 data (counter c) Hlt) as [[[[t x] y] e] Es].
  pose proof (play_sample_spec data v1 c t x y e Es) as Hplay. cbn zeta in Hplay.
  destruct (play_sample data v1 c) as [[[v2 c2] out2] drawn].
  destruct Hplay as (_ & _ & Hplay). destruct drawn.
  - destruct Hplay as (Hcnt & _ & Hpp & _ & Hon2 & _ & Hlines).
    assert (take (counter c2) data = take (counter c) data ++ [(t, x, y, e)]) as Htk
      by (rewrite Hcnt; now apply take_S_r).
    assert (follows data c2) as Hc2.
    { split; [lia|]. rewrite Htk, last_snoc. exact Hpp. }
    destruct (IH v2 c2 Hc2 Hon2) as (Hf & Hs). outcome.
    split; [exact Hf|].
    rewrite Hs, Htk, segments_snoc, !lines_app, Hpl, Hlines. cbn [app].
    rewrite <- !app_assoc. f_equal. cbn [lines omap list_omap app]. f_equal.
    destruct Hc as [_ Hlast].
    destruct (last (take (counter c) data)) as [a|]; rewrite Hlast; [reflexivity|].
    rewrite decide_True by reflexivity. reflexivity.
  - destruct Hplay as (-> & _ & Hlines & _). outcome.
    rewrite !lines_app, Hpl, (Hlines Hon). cbn [app lines omap list_omap].
    split; [exact Hc | now rewrite app_nil_r].
Qed.

(** X19: the path drawn by a replay is the polyline through the samples
    played so far: one segment per pair of successive samples, in order,
    from the position of one to the position of the next, none before the
    first sample; a segment that would start at the position (-1, -1), the
    value that stands for "no previous position", is not drawn. *)
Theorem replay_draws_the_polyline
    (d : Dir) (path : string) (data : list Sample) (w : list Message)
    (frames : list (list PgEvent)) (v : Viewer) :
  _load_trial_data d path = (inr data, w) ->
  let o := _replay_trial d path frames v in
  lines (o_trace o) = segments (take (counter (o_cursor o)) data) /\
  (o_code o = Some 0 -> lines (o_trace o) = segments data).
Proof.
  intros L o.
  assert (lines (o_trace o) = segments (take (counter (o_cursor o)) data)) as Hl.
  { subst o. unfold _replay_trial. rewrite L.
    destruct (replay_loop_lines data frames (mkViewer (is_paused v) []) start_cursor
                (follows_start data) eq_refl) as (_ & Hs).
    outcome. rewrite !lines_app, lines_prints. cbn [app]. rewrite Hs. reflexivity. }
  split; [exact Hl|]. intros Hcode. rewrite Hl.
  destruct (replay_trial_spec d path data w frames v L) as (_ & _ & H0).
  fold o in H0. rewrite (H0 Hcode), firstn_all. reflexivity.
Qed.

(** X20: the markers of a pass are the positions of the samples played so
    far whose event flag is 1, in the order played, unless the pass was
    ended by an error of a drawing call: then the marker of the sample at
    which the error struck may already be in the list, and nothing else.
    Markers left from an earlier pass are gone, a sample with any other flag
    value leaves no marker, and a pass that returns 0 has the markers of the
    whole record. *)
Theorem markers_are_flagged_samples
    (d : Dir) (path : string) (data : list Sample) (w : list Message)
    (frames : list (list PgEvent)) (v : Viewer) :
  _load_trial_data d path = (inr data, w) ->
  let o := _replay_trial d path frames v in
  let played := counter (o_cursor o) in
  (o_code o <> Some (-1) \/ existsb is_draw_error (o_trace o) = false ->
   spacebar_events (o_viewer o) = flagged (take played data)) /\
  flagged (take played data) `prefix_of` spacebar_events (o_viewer o) /\
  spacebar_events (o_viewer o) `prefix_of` flagged (take (S played) data) /\
  (o_code o = Some 0 -> spacebar_events (o_viewer o) = flagged data) /\
  forall more,
    spacebar_events (o_viewer o)
    `prefix_of` spacebar_events (o_viewer (replay_loop data more (o_viewer o) (o_cursor o))).
Proof.
  intros L o played.
  destruct (replay_trial_spec d path data w frames v L) as (_ & (extra & Hm & Hx) & H0).
  fold o in Hm, Hx, H0. fold played in Hm, Hx, H0.
  assert (o_code o <> Some (-1) \/ existsb is_draw_error (o_trace o) = false ->
          spacebar_events (o_viewer o) = flagged (take played data)) as Hexact.
  { intros Hno. rewrite Hm.
    destruct Hx as [-> | (He & Hcode & _)]; [apply app_nil_r|].
    destruct Hno as [Hno | Hno]; [contradiction | congruence]. }
  split; [exact Hexact|]. split; [|split; [|split]].
  - rewrite Hm. now apply prefix_app_r.
  - rewrite Hm. replace (S played) with (played + 1)%nat by lia.
    rewrite <- take_take_drop. unfold flagged at 2. rewrite omap_app.
    apply prefix_app.
    destruct Hx as [-> | (_ & _ & ->)]; [apply prefix_nil | reflexivity].
  - intros Hcode. rewrite Hexact by (left; congruence).
    rewrite (H0 Hcode), firstn_all. reflexivity.
  - intros more. apply markers_only_grow.
Qed.

Lemma replay_loop_codes (data : list Sample) (frames : list (list PgEvent)) :
  forall (v : Viewer) (c : Cursor),
  (counter c <= length data)%nat ->
  let o := replay_loop data frames v c in
  (counter c <= counter (o_cursor o) <= length data)%nat /\
  (o_code o = Some 0 <-> counter (o_cursor o) = length data) /\
  (o_code o = None -> o_frames o = []) /\
  (o_code o = None \/ o_code o = Some 0 \/ o_code o = Some 1 \/ o_code o = Some (-1)).
Proof.
  induction frames as [|batch frames IH]; intros v c Hc; rewrite replay_loop_unfold;
    destruct (counter c <? length data)%nat eqn:Hlt; cbn zeta.
  1: { apply Nat.ltb_lt in Hlt. outcome. split; [lia|]. split; [split|].
       - discriminate.
       - intros Heq. exfalso. lia.
       - split; [reflexivity | now left]. }
  1,3: apply Nat.ltb_ge in Hlt; outcome; (split; [lia|]); (split; [split|]);
    [ intros _; lia | reflexivity | split; [discriminate | right; now left] ].
  apply Nat.ltb_lt in Hlt.
  destruct (poll_spec batch v) as (_ & _ & _ & _ & Hpr).
  destruct (poll batch v) as [[v1 out1] r]. cbn [fst snd] in Hpr.
  destruct r as [code|].
  { outcome. split; [lia|]. split; [split|].
    - intros [= ->]. destruct Hpr as [?|[?|?]]; discriminate.
    - lia.
    - split; [discriminate|].
      destruct Hpr as [?|[[= ->]|[= ->]]]; [discriminate | now do 3 right | now do 2 right; left]. }
  destruct (is_paused v1) eqn:Hp1.
  { specialize (IH v1 c Hc). cbn zeta in IH. outcome. exact IH. }
  destruct (lookup_lt_is_Some_2 data (counter c) Hlt) as [[[[t x] y] e] Es].
  pose proof (play_sample_spec data v1 c t x y e Es) as Hplay. cbn zeta in Hplay.
  destruct (play_sample data v1 c) as [[[v2 c2] out2] drawn].
  destruct Hplay as (_ & _ & Hplay). destruct drawn.
  - destruct Hplay as (Hcnt & _).
    assert (counter c2 <= length data)%nat as Hc2 by lia.
    specialize (IH v2 c2 Hc2). cbn zeta in IH. outcome.
    destruct IH as (Hb & Hrest). split; [lia | exact Hrest].
  - destruct Hplay as (-> & _). outcome. split; [lia|]. split; [split|].
    + discriminate.
    + lia.
    + split; [discriminate | now do 3 right].
Qed.

(** X21: what the return code of a pass tells: 0 is returned exactly when
    every sample has been played; -1 and 1 are only returned with samples
    left to play; and a pass that has not returned has used up the input.
    The cursor never passes the end of the record. *)
Theorem pass_returns_zero_iff_complete
    (d : Dir) (path : string) (data : list Sample) (w : list Message)
    (frames : list (list PgEvent)) (v : Viewer) :
  _load_trial_data d path = (inr data, w) ->
  let o := _replay_trial d path frames v in
  (counter (o_cursor o) <= length data)%nat /\
  (o_code o = Some 0 <-> counter (o_cursor o) = length data) /\
  (o_code o = None -> o_frames o = []) /\
  (o_code o = None \/ o_code o = Some 0 \/ o_code o = Some 1 \/ o_code o = Some (-1)).
Proof.
  intros L o. subst o. unfold _replay_trial. rewrite L. outcome.
  destruct (replay_loop_codes data frames (mkViewer (is_paused v) []) start_cursor)
    as (Hb & Hrest); [cbn; lia|].
  split; [lia | exact Hrest].
Qed.

Lemma run_events_idle (d : Dir) (batch : list PgEvent) :
  forall (v : Viewer) (running : bool) (frames : list (list PgEvent))
         (typed : list Typed) (trace : list Effect),
  forallb (fun e => negb (is_R e)) batch = true ->
  run_events d batch (mkApp v running frames typed trace None)
  = mkApp v (running && negb (existsb is_close batch)) frames typed trace None.
Proof.
  induction batch as [|e batch IH]; intros v running frames typed trace Hall.
  - cbn. now rewrite andb_true_r.
  - cbn [forallb] in Hall. apply andb_prop in Hall as [He Hall].
    apply negb_true_iff in He.
    destruct e as [|key|key|pos|]; try discriminate He;
      [|destruct key; try discriminate He|..];
      cbn [run_events in_replay app_viewer app_frames app_typed app_trace
           existsb is_close orb negb];
      rewrite (IH _ _ _ _ _ Hall); cbn [andb]; rewrite ?andb_false_r; reflexivity.
Qed.

Lemma run_loop_idle (d : Dir) (before : list (list PgEvent)) :
  forall (fuel : nat) (v : Viewer) (typed : list Typed) (trace : list Effect),
  forallb (fun b => forallb (fun e => negb (is_R e)) b && negb (existsb is_close b))
          before = true ->
  (forall tl, (length before < fuel)%nat -> tl = [] ->
     run_loop fuel d (mkApp v true (before ++ tl) typed trace None)
     = mkApp v true [] typed (trace ++ replicate (length before) Tick) None) /\
  (forall batch after,
     (length before + 2 <= fuel)%nat ->
     forallb (fun e => negb (is_R e)) batch = true ->
     existsb is_close batch = true ->
     run_loop fuel d (mkApp v true (before ++ batch :: after) typed trace None)
     = mkApp v false after typed
             (trace ++ replicate (S (length before)) Tick ++ [PygameQuit; Print MsgClosed])
             None).
Proof.
  induction before as [|b before IH]; intros fuel v typed trace Hall.
  - split.
    + intros tl Hf ->. destruct fuel; [lia|]. cbn. now rewrite app_nil_r.
    + intros batch after Hf Hb Hc. destruct fuel as [|[|fuel]]; try lia.
      cbn [app run_loop in_replay app_running app_frames app_viewer app_typed
           app_trace].
      rewrite (run_events_idle d batch v true after typed trace Hb), Hc.
      cbn [andb negb in_replay app_running app_frames app_viewer app_typed
           app_trace length replicate].
      now rewrite <- app_assoc.
  - cbn [forallb] in Hall. apply andb_prop in Hall as [[Hb Hc]%andb_prop Hall].
    apply negb_true_iff in Hc.
    split.
    + intros tl Hf ->. destruct fuel; [cbn in Hf; lia|].
      cbn [app run_loop in_replay app_running app_frames app_viewer app_typed
           app_trace].
      rewrite (run_events_idle d b v true _ typed trace Hb), Hc.
      cbn [andb negb in_replay app_running app_frames app_viewer app_typed
           app_trace length].
      destruct (IH fuel v typed (trace ++ [Tick]) Hall) as [IH1 _].
      rewrite (IH1 [] ltac:(cbn in Hf; lia) eq_refl).
      rewrite <- app_assoc. reflexivity.
    + intros batch after Hf Hb' Hc'. destruct fuel; [lia|].
      cbn [app run_loop in_replay app_running app_frames app_viewer app_typed
           app_trace].
      rewrite (run_events_idle d b v true _ typed trace Hb), Hc.
      cbn [andb negb in_replay app_running app_frames app_viewer app_typed
           app_trace length].
      destruct (IH fuel v typed (trace ++ [Tick]) Hall) as [_ IH2].
      rewrite (IH2 batch after ltac:(cbn in Hf; lia) Hb' Hc').
      rewrite <- !app_assoc. reflexivity.
Qed.

(** X22: the viewer's main loop does nothing but tick until R is pressed:
    frames without R, close or Escape leave the viewer state and the typed
    answers untouched and draw nothing; the first frame that holds a close
    event or Escape ends the application after that frame, with the frames
    behind it unread. *)
Theorem viewer_idles_until_R
    (d : Dir) (before : list (list PgEvent)) (batch : list PgEvent)
    (after : list (list PgEvent)) (typed : list Typed) :
  forallb (fun b => forallb (fun e => negb (is_R e)) b && negb (existsb is_close b))
          before = true ->
  viewer_run d before typed
  = mkApp (mkViewer true []) true [] typed
          ([Blit; Status StPressR; Flip] ++ replicate (length before) Tick) None /\
  (forallb (fun e => negb (is_R e)) batch = true ->
   existsb is_close batch = true ->
   viewer_run d (before ++ batch :: after) typed
   = mkApp (mkViewer true []) false after typed
           ([Blit; Status StPressR; Flip] ++ replicate (S (length before)) Tick
            ++ [PygameQuit; Print MsgClosed]) None).
Proof.
  intros Hall. unfold viewer_run. split.
  - destruct (run_loop_idle d before (S (S (length before))) (mkViewer true []) typed
                [Blit; Status StPressR; Flip] Hall) as [H1 _].
    specialize (H1 [] ltac:(lia) eq_refl). rewrite app_nil_r in H1. exact H1.
  - intros Hb Hc.
    destruct (run_loop_idle d before (S (S (length (before ++ batch :: after))))
                (mkViewer true []) typed [Blit; Status StPressR; Flip] Hall) as [_ H2].
    apply H2; [rewrite length_app; cbn; lia | exact Hb | exact Hc].
Qed.

Section Selection.
Context {round_trip : IntRoundTrip}.

Lemma selection_accepts (p t : Z) :
  1 <= p <= 24 -> 1 <= t <= 5 ->
  _get_trial_selection (Lines (Py.str_of_int p) (Py.str_of_int t)) = (Some (p, t), []).
Proof.
  intros Hp Ht. unfold _get_trial_selection.
  rewrite !strip_id, !int_of_str_of_int by apply all_numchar_str.
  assert ((1 <=? p) && (p <=? 24) = true) as -> by lia.
  assert ((1 <=? t) && (t <=? 5) = true) as -> by lia.
  reflexivity.
Qed.

(** X12: a trial selection is only ever a participant in 1..24 and a trial
    in 1..5, and every such pair typed in decimal is accepted; anything else
    typed, and an interrupted prompt, select nothing. So a record stored
    under a trial number above 5 cannot be selected for replay. *)
Theorem selection_within_bounds (typed : Typed) (p t : Z) :
  ((_get_trial_selection typed).1 = Some (p, t) ->
     1 <= p <= 24 /\ 1 <= t <= 5 /\ (_get_trial_selection typed).2 = []) /\
  (1 <= p <= 24 /\ 1 <= t <= 5 <->
     _get_trial_selection (Lines (Py.str_of_int p) (Py.str_of_int t))
     = (Some (p, t), [])) /\
  (_get_trial_selection KeyboardInterrupt).1 = None.
Proof.
  split; [|split; [split|reflexivity]].
  - unfold _get_trial_selection. destruct typed as [a b|]; [|discriminate].
    destruct (int_of_str (Py.strip a)) as [pn|]; [|discriminate].
    destruct (int_of_str (Py.strip b)) as [tn|]; [|discriminate].
    destruct ((1 <=? pn) && (pn <=? 24)) eqn:Ep; cbn [negb fst snd]; [|discriminate].
    destruct ((1 <=? tn) && (tn <=? 5)) eqn:Et; cbn [negb fst snd]; [|discriminate].
    intros [= -> ->]. repeat split; lia.
  - intros [Hp Ht]. now apply selection_accepts.
  - unfold _get_trial_selection.
    rewrite !strip_id, !int_of_str_of_int by apply all_numchar_str.
    destruct ((1 <=? p) && (p <=? 24)) eqn:Ep; cbn [negb]; [|discriminate].
    destruct ((1 <=? t) && (t <=? 5)) eqn:Et; cbn [negb]; [|discriminate].
    intros _. lia.
Qed.

(** X14: selecting a participant and trial with no stored record is reported
    and changes nothing else: the application keeps running, the viewer
    state and the pending events are untouched, no replay is entered, and
    only the typed answer is used up. *)
Theorem missing_record_is_reported (d : Dir) (a : App) (p t : Z) (typed : list Typed) :
  1 <= p <= 24 -> 1 <= t <= 5 ->
  app_typed a = Lines (Py.str_of_int p) (Py.str_of_int t) :: typed ->
  d !! _get_data_file_path p t = None ->
  load_and_replay d a
  = mkApp (app_viewer a) (app_running a) (app_frames a) typed
          (app_trace a ++ [Print (MsgFileNotFound (_get_data_file_path p t))]) None.
Proof.
  intros Hp Ht Ety Ed. unfold load_and_replay.
  rewrite Ety, (selection_accepts p t Hp Ht). cbv zeta. cbn [tail].
  now rewrite Ed.
Qed.

(** X15: a stored file that does not load, because no row of it parses or
    because the reader raises on it, ends the application: the failed replay
    returns -1 without polling any event, and the main loop stops on that
    code. The markers of the previous pass are still in the viewer. *)
Theorem invalid_record_quits (d : Dir) (a : App) (p t : Z) (typed : list Typed)
    (file : File) :
  1 <= p <= 24 -> 1 <= t <= 5 ->
  app_typed a = Lines (Py.str_of_int p) (Py.str_of_int t) :: typed ->
  d !! _get_data_file_path p t = Some file ->
  reads_through file = false \/ omap parse_row (tail (file_rows file)) = [] ->
  let a' := load_and_replay d a in
  app_running a' = false /\ app_frames a' = app_frames a /\ in_replay a' = None /\
  spacebar_events (app_viewer a') = spacebar_events (app_viewer a) /\
  lines (app_trace a') = lines (app_trace a) /\
  sleeps (app_trace a') = sleeps (app_trace a).
Proof.
  intros Hp Ht Ety Ed Hrows a'. subst a'. unfold load_and_replay.
  rewrite Ety, (selection_accepts p t Hp Ht). cbv zeta. cbn [tail].
  rewrite Ed. unfold _replay_trial.
  assert (exists e w, _load_trial_data d (_get_data_file_path p t) = (inl e, w))
    as (e & w & ->).
  { destruct file as [[|header rows] through].
    - rewrite (load_empty_file d _ through Ed). eauto.
    - rewrite (load_stored d _ header rows through Ed).
      cbn [tail file_rows reads_through] in Hrows.
      destruct Hrows as [-> | ->]; [eauto | destruct through; eauto]. }
  cbn [o_code o_viewer o_frames o_cursor o_trace app_running app_frames in_replay
       app_viewer spacebar_events app_trace Z.eqb].
  repeat split.
  - rewrite !lines_app, lines_prints. cbn [lines omap list_omap app].
    now rewrite app_nil_r.
  - rewrite !sleeps_app, sleeps_prints. cbn [sleeps omap list_omap app].
    now rewrite app_nil_r.
Qed.

(** X16: the keys that end a pass. With a record loaded and the first event
    polled by the replay being the window's close event or Q, the replay
    returns -1 and the whole application stops; being R, the replay returns
    1 and the application goes on in the main loop with no replay. Either
    way the events that followed in the same batch are dropped. *)
Theorem exit_keys_during_replay
    (d : Dir) (a : App) (p t : Z) (typed : list Typed)
    (data : list Sample) (w : list Message)
    (e : PgEvent) (rest : list PgEvent) (more : list (list PgEvent)) :
  1 <= p <= 24 -> 1 <= t <= 5 ->
  app_typed a = Lines (Py.str_of_int p) (Py.str_of_int t) :: typed ->
  _load_trial_data d (_get_data_file_path p t) = (inr data, w) ->
  app_frames a = (e :: rest) :: more ->
  is_exit e = true ->
  let a' := load_and_replay d a in
  app_frames a' = more /\ in_replay a' = None /\
  app_viewer a' = mkViewer true [] /\
  app_running a' = match e with KEYDOWN K_r => app_running a | _ => false end.
Proof.
  intros Hp Ht Ety L Efr He a'. subst a'.
  destruct (load_ok_inv _ _ _ _ L) as [Hne [file Ed]].
  unfold load_and_replay.
  rewrite Ety, (selection_accepts p t Hp Ht). cbv zeta. cbn [tail].
  rewrite Ed. unfold _replay_trial. rewrite L, Efr.
  rewrite replay_loop_unfold.
  assert ((counter start_cursor <? length data)%nat = true) as ->.
  { apply Nat.ltb_lt. destruct data; [congruence | cbn; lia]. }
  destruct e as [|key|key|pos|]; try discriminate He;
    [|destruct key; try discriminate He]; cbn; repeat split.
Qed.

End Selection.

End Replays.

(** ** The programs on concrete input

    The properties above, instantiated with the decimal text form of floats,
    the reading of integers given above and 32-bit drawing coordinates, and
    run on a small session. *)

#[local] Existing Instance decimal_text.
#[local] Existing Instance python_int.
#[local] Existing Instance python_int_law.
#[local] Existing Instance c_int.

Example text_of_floats :
  map repr [0%float; 0.05%float; 0.2%float; 1.5e-5%float; 12%float;
            0x1p-24%float; 1e22%float; 1e16%float; 123456789.125%float]
    = ["0.0"; "0.05"; "0.2"; "1.5e-05"; "12.0"; "5.960464477539063e-08"; "1e+22";
       "1e+16"; "123456789.125"] /\
  map float_of_str ["0.05"; " 1e3 "; "abc"; ""; "0.15000000000000002"; "1_0.5"; "1E2";
                    "_1"; "1__0"]
    = [Some 0.05%float; Some 1000%float; None; None;
       Some (PrimFloat.sub 0.2 0.05); Some 10.5%float; Some 100%float; None; None].
Proof. split; vm_compute; reflexivity. Qed.

Example demo_file_rows :
  demo_dir !! "SHSA_1_1.csv"
  = Some (text [["Timestamp"; "X"; "Y"; "Event"];
                ["0.0"; "100"; "200"; "0"];
                ["0.05"; "110"; "205"; "1"];
                ["0.2"; "130"; "220"; "0"]]).
Proof. vm_compute. reflexivity. Qed.

(** The round trip on the demo record, with the decimal text form. *)
Lemma save_then_load_roundtrip_witness :
  mouse_positions demo_game <> [] /\
  Forall (fun s : Sample => float_of_str (repr s.1.1.1) = Some s.1.1.1)
         (mouse_positions demo_game) /\
  let '(saved, d') := _save_trajectory_data Written demo_game ∅ in
  saved = true /\
  _load_trial_data d' (_get_data_file_path 1 1) = (inr demo_samples, []).
Proof.
  assert (mouse_positions demo_game <> []) as H1 by discriminate.
  assert (Forall (fun s : Sample => float_of_str (repr s.1.1.1) = Some s.1.1.1)
                 (mouse_positions demo_game)) as H2
    by (repeat (apply List.Forall_cons; [vm_compute; reflexivity|]);
        apply List.Forall_nil).
  split; [exact H1|]. split; [exact H2|].
  pose proof (save_then_load_roundtrip (round_trip := python_int_law) demo_game ∅ H1 H2)
    as Hthm.
  exact Hthm.
Defined.

(** Five demo cycles from a fresh recorder over an empty directory. *)
Lemma five_cycles_reach_advance_prompt_witness :
  let g := init ∅ in
  let cs := replicate 5 demo_cycle in
  Idle g /\ length cs = 5%nat /\ Forall valid_cycle cs /\
  let '(g5, d5, running) := handle_events (concat (map cycle_inputs cs)) (g, ∅, true) in
  AdvancePrompt g5 /\ trial_number g5 = 6 /\
  participant_number g5 = participant_number g /\ running = true /\
  (forall now disk,
     let '(g6, d6, _) := _handle_keydown now disk K_y g5 d5 in
     participant_number g6 = participant_number g + 1 /\ trial_number g6 = 1 /\
     Idle g6 /\ d6 = d5) /\
  (forall now disk,
     let '(g6, d6, _) := _handle_keydown now disk K_n g5 d5 in
     participant_number g6 = participant_number g /\ trial_number g6 = 6 /\
     Idle g6 /\ d6 = d5 /\
     forall c, valid_cycle c ->
       let '(g7, d7, _) := handle_events (cycle_inputs c) (g6, d6, true) in
       is_Some (d7 !! file_name (participant_number g) 6) /\
       AdvancePrompt g7 /\ trial_number g7 = 7 /\
       participant_number g7 = participant_number g).
Proof.
  intros g cs.
  assert (Idle g) as H1 by (repeat split).
  assert (length cs = 5%nat) as H2 by reflexivity.
  assert (Forall valid_cycle cs) as H3 by (repeat constructor).
  assert (trial_number g = 1) as H4 by reflexivity.
  assert (max_trials g = 5) as H5 by reflexivity.
  split; [exact H1|]. split; [exact H2|]. split; [exact H3|].
  pose proof (five_cycles_reach_advance_prompt g ∅ cs H1 H4 H5 H2 H3) as Hthm.
  exact Hthm.
Defined.

(** C2 (as stated) fails on its last part: after five saved trials and a
    cancelled advance prompt the recorder is not blocked; one more cycle
    stores [SHSA_1_6.csv]. *)
Lemma recording_goes_on_after_cancel :
  let r5 := handle_events (concat (map cycle_inputs (replicate 5 demo_cycle)))
                          (init ∅, ∅, true) in
  let r6 := dispatch (mkInput 20 Written (KEYDOWN K_n)) r5 in
  AdvancePrompt r5.1.1 /\ Idle r6.1.1 /\
  trial_number r6.1.1 = 6 /\ participant_number r6.1.1 = 1 /\
  r6.1.2 !! "SHSA_1_6.csv" = None /\
  is_Some ((handle_events (cycle_inputs demo_cycle) r6).1.2 !! "SHSA_1_6.csv") /\
  ~ recording_blocked r6.
Proof.
  intros r5 r6.
  assert (r6.1.2 !! "SHSA_1_6.csv" = None) as Hnone by (vm_compute; reflexivity).
  assert (is_Some ((handle_events (cycle_inputs demo_cycle) r6).1.2 !! "SHSA_1_6.csv"))
    as Hsome by (vm_compute; eauto).
  split; [vm_compute; repeat split|]. split; [vm_compute; repeat split|].
  split; [vm_compute; reflexivity|]. split; [vm_compute; reflexivity|].
  split; [exact Hnone|]. split; [exact Hsome|].
  intros Hblocked. destruct (Hblocked (cycle_inputs demo_cycle)) as [Hd _].
  rewrite Hd, Hnone in Hsome. destruct Hsome as [x Hx]. discriminate Hx.
Qed.


(** The whole pass over the demo record: each sleep follows the drawing of
    its sample and precedes the flip that shows it. *)
Example demo_playback :
  let o := _replay_trial demo_dir "SHSA_1_1.csv" [[KEYDOWN K_p]; []; []]
                         (mkViewer true []) in
  forallb fits_screen demo_samples = true /\
  o_code o = Some 0 /\ sleeps (o_trace o) = [0.05%float; 0.1%float] /\
  spacebar_events (o_viewer o) = [(110, 205)] /\
  o_trace o =
    [Print (MsgLoaded 3); Blit; Status StPressP; Flip;
     Print (MsgReplay false); Status (StProgress false 1 3); Flip; Tick;
     DrawLine (100, 200) (110, 205); DrawCircle (110, 205); Sleep 0.05%float;
     Status (StProgress false 2 3); Flip; Tick;
     DrawLine (110, 205) (130, 220); DrawCircle (110, 205); Sleep 0.1%float;
     Status (StProgress false 3 3); Flip; Tick;
     Status StCompleted; Flip; Print MsgCompleted].
Proof. vm_compute. repeat split. Qed.

(** A pass over a record whose first sample cannot be drawn: the marker of
    the sample is appended, the circle raises, and the pass ends with -1,
    the cursor still at 0 and the frame behind unread. *)
Example drawing_error_ends_the_pass :
  let o := _replay_trial far_dir "SHSA_3_1.csv" [[KEYDOWN K_p]; []] (mkViewer true []) in
  _load_trial_data far_dir "SHSA_3_1.csv" = (inr far_samples, []) /\
  forallb fits_screen far_samples = false /\
  o_code o = Some (-1) /\ counter (o_cursor o) = 0%nat /\ o_frames o = [[]] /\
  spacebar_events (o_viewer o) = [(5000000000, 205)] /\
  o_trace o =
    [Print (MsgLoaded 2); Blit; Status StPressP; Flip;
     Print (MsgReplay false); Print (MsgReplayError DrawFailed)].
Proof. vm_compute. repeat split. Qed.

(** Only a second R in the main loop, with a new selection, brings the viewer
    to the start of a pass: paused, cursor at 0, no marker. *)
Example second_R_reloads :
  let a := viewer_run demo_dir [[KEYDOWN K_r]; [KEYDOWN K_p]; []; [KEYDOWN K_r];
                                [KEYDOWN K_r]]
                      [Lines "1" "1"; Lines " 1" "1 "] in
  in_replay a = Some start_cursor /\
  app_viewer a = mkViewer true [] /\ app_running a = true.
Proof. vm_compute. repeat split. Qed.

(** Loading the damaged file. *)
Lemma load_skips_malformed_rows_witness :
  let file := text damaged_file in
  damaged_dir !! "SHSA_2_1.csv" = Some file /\
  let rows := tail (file_rows file) in
  let valid := omap parse_row rows in
  let '(result, messages) := _load_trial_data damaged_dir "SHSA_2_1.csv" in
  (reads_through file = true ->
     (valid <> [] -> result = inr valid) /\
     ((exists cause, result = inl (Invalid cause)) <-> valid = [])) /\
  (reads_through file = false -> exists cause, result = inl (Invalid cause)) /\
  (forall header, file_rows file = header :: rows ->
     messages = (if decide (header = expected_header) then [] else [WarnHeader header])
                ++ expected_warnings 2 rows) /\
  (forall header header', file_rows file = header :: rows ->
     (_load_trial_data (<["SHSA_2_1.csv" := mkFile (header' :: rows) (reads_through file)]>
                          damaged_dir)
                       "SHSA_2_1.csv").1 = result).
Proof.
  intros file.
  assert (damaged_dir !! "SHSA_2_1.csv" = Some file) as H1
    by (vm_compute; reflexivity).
  split; [exact H1|].
  pose proof (load_skips_malformed_rows damaged_dir "SHSA_2_1.csv" file H1)
    as Hthm.
  exact Hthm.
Defined.

Example damaged_file_loads :
  _load_trial_data damaged_dir "SHSA_2_1.csv"
  = (inr [(0%float, 100, 200, 0); (0.25%float, 140, 230, 1)],
     [WarnHeader ["time"; "x"; "y"; "flag"];
      WarnRow 3 ["0.05"; "abc"; "205"; "1"];
      WarnRow 4 ["0.2"; "130"]]).
Proof. vm_compute. reflexivity. Qed.

(** C4 (as stated) fails on a file that the reader does not read to its end:
    two data rows parse and are kept while the rows are read, yet the load
    fails, the warnings of the malformed rows having been printed. *)
Lemma reader_error_fails_the_load :
  let rows := tail damaged_file in
  broken_dir !! "SHSA_2_1.csv" = Some (mkFile damaged_file false) /\
  omap parse_row rows = [(0%float, 100, 200, 0); (0.25%float, 140, 230, 1)] /\
  _load_trial_data broken_dir "SHSA_2_1.csv"
  = (inl (Invalid ReaderRaised),
     [WarnHeader ["time"; "x"; "y"; "flag"];
      WarnRow 3 ["0.05"; "abc"; "205"; "1"];
      WarnRow 4 ["0.2"; "130"]]) /\
  ~ ((exists cause, (_load_trial_data broken_dir "SHSA_2_1.csv").1 = inl (Invalid cause))
     <-> omap parse_row rows = []).
Proof.
  intros rows.
  assert (omap parse_row rows = [(0%float, 100, 200, 0); (0.25%float, 140, 230, 1)])
    as Hvalid by (vm_compute; reflexivity).
  assert (_load_trial_data broken_dir "SHSA_2_1.csv"
          = (inl (Invalid ReaderRaised),
             [WarnHeader ["time"; "x"; "y"; "flag"];
              WarnRow 3 ["0.05"; "abc"; "205"; "1"];
              WarnRow 4 ["0.2"; "130"]])) as Hload by (vm_compute; reflexivity).
  split; [vm_compute; reflexivity|]. split; [exact Hvalid|]. split; [exact Hload|].
  intros [Hfails _]. rewrite Hload, Hvalid in Hfails.
  assert (exists cause, (inl (Invalid ReaderRaised) : LoadError + list Sample)
                        = inl (Invalid cause)) as Hex by eauto.
  specialize (Hfails Hex). discriminate Hfails.
Qed.

(** A fresh recorder has nothing to save. *)
Lemma save_empty_record_fails_witness :
  let g := init ∅ in
  mouse_positions g = [] /\
  _save_trajectory_data Written g demo_dir = (false, demo_dir) /\
  (forall name, (_save_trajectory_data Written g demo_dir).2 !! name = demo_dir !! name) /\
  (save_prompt g = true ->
   let '(g', d', _) := _handle_keydown 15 Written K_y g demo_dir in
   d' = demo_dir /\ trial_number g' = trial_number g /\
   participant_number g' = participant_number g /\
   next_participant g' = next_participant g).
Proof.
  intros g.
  assert (mouse_positions g = []) as H1 by reflexivity.
  split; [exact H1|].
  pose proof (save_empty_record_fails 15 Written g demo_dir H1) as Hthm.
  exact Hthm.
Defined.


(** Confirming the demo record when the write is cut short after the header:
    the trial stays unsaved, and the file of the trial holds the header
    alone. *)
Lemma confirm_increments_trial_iff_saved_witness :
  let disk := WriteFails [expected_header] in
  save_prompt demo_game = true /\
  let name := file_name (participant_number demo_game) (trial_number demo_game) in
  let saved := (_save_trajectory_data disk demo_game demo_dir).1 in
  let '(g', d', continue) := _handle_keydown 15 disk K_y demo_game demo_dir in
  (trial_number g' = trial_number demo_game + 1 <-> saved = true) /\
  (saved = false -> trial_number g' = trial_number demo_game) /\
  participant_number g' = participant_number demo_game /\
  mouse_positions g' = mouse_positions demo_game /\
  save_prompt g' = false /\
  (disk <> Written ->
     saved = false /\ trial_number g' = trial_number demo_game /\
     (forall other, other <> name -> d' !! other = demo_dir !! other) /\
     (disk = OpenFails -> d' = demo_dir) /\
     (forall remains, disk = WriteFails remains -> mouse_positions demo_game <> [] ->
        d' !! name = Some (text remains)) /\
     forall now1 now2,
       mouse_positions demo_game <> [] ->
       let '(g1, d1, _) := _handle_keydown now1 Written K_q g' d' in
       let '(g2, d2, _) := _handle_keydown now2 Written K_y g1 d1 in
       d2 !! name
         = Some (text (expected_header :: map sample_row (mouse_positions demo_game))) /\
       trial_number g2 = trial_number demo_game + 1).
Proof.
  intros disk.
  assert (save_prompt demo_game = true) as H1 by reflexivity.
  split; [exact H1|].
  pose proof (confirm_increments_trial_iff_saved 15 disk demo_game demo_dir H1) as Hthm.
  exact Hthm.
Defined.

(** The write that is cut short empties the record that the name held. *)
Example failed_write_leaves_a_stub :
  let '(g', d', _) :=
    _handle_keydown 15 (WriteFails [expected_header]) K_y demo_game demo_dir in
  trial_number g' = 1 /\
  demo_dir !! "SHSA_1_1.csv"
    = Some (text (expected_header :: map sample_row demo_samples)) /\
  d' !! "SHSA_1_1.csv" = Some (text [expected_header]) /\
  (_load_trial_data d' "SHSA_1_1.csv").1 = inl (Invalid NoValidData) /\
  (_handle_keydown 15 (WriteFails []) K_y demo_game demo_dir).1.2 !! "SHSA_1_1.csv"
    = Some (text []).
Proof. vm_compute. repeat split. Qed.

(** The demo record saved twice, as trials 1 and 2. *)
Lemma stop_is_not_guarded_witness :
  tracking demo_game = false /\ save_prompt demo_game = true /\
  mouse_positions demo_game <> [] /\
  let stored := text (expected_header :: map sample_row (mouse_positions demo_game)) in
  let '(g1, d1, _) := _handle_keydown 15 Written K_y demo_game ∅ in
  let '(g2, d2, _) := _handle_keydown 16 Written K_q g1 d1 in
  let '(g3, d3, _) := _handle_keydown 17 Written K_y g2 d2 in
  d1 !! file_name 1 1 = Some stored /\
  tracking g1 = false /\ save_prompt g2 = true /\
  d3 !! file_name 1 (1 + 1) = Some stored /\
  trial_number g3 = 1 + 2.
Proof.
  assert (tracking demo_game = false) as H1 by reflexivity.
  assert (save_prompt demo_game = true) as H2 by reflexivity.
  assert (mouse_positions demo_game <> []) as H3 by discriminate.
  split; [exact H1|]. split; [exact H2|]. split; [exact H3|].
  pose proof (proj2 (stop_is_not_guarded 15 16 17 demo_game ∅ H1 H2 H3)) as Hthm.
  exact Hthm.
Defined.

(** The demo record saved over the damaged file. *)
Lemma save_overwrites_existing_file_witness :
  let name := file_name (participant_number demo_game) (trial_number demo_game) in
  let d := <[name := text damaged_file]> ∅ in
  mouse_positions demo_game <> [] /\
  d !! name = Some (text damaged_file) /\
  let '(saved, d') := _save_trajectory_data Written demo_game d in
  saved = true /\
  d' !! name = Some (text (expected_header :: map sample_row (mouse_positions demo_game))) /\
  (forall other, other <> name -> d' !! other = d !! other) /\
  d' = (_save_trajectory_data Written demo_game (delete name d)).2.
Proof.
  intros name d.
  assert (mouse_positions demo_game <> []) as H1 by discriminate.
  assert (d !! name = Some (text damaged_file)) as H2 by (vm_compute; reflexivity).
  split; [exact H1|]. split; [exact H2|].
  pose proof (save_overwrites_existing_file demo_game d (text damaged_file) H1 H2) as Hthm.
  exact Hthm.
Defined.

(** ** The further properties on concrete input *)

(** Saving trial 1 of participant 1 leaves the file of participant 2 alone. *)
Lemma save_leaves_other_records_witness :
  (2, 1) <> (participant_number demo_game, trial_number demo_game) /\
  damaged_dir !! _get_data_file_path 2 1 = Some (text damaged_file) /\
  _get_data_file_path 2 1 <> file_name (participant_number demo_game) (trial_number demo_game) /\
  (_save_trajectory_data Written demo_game damaged_dir).2 !! _get_data_file_path 2 1
  = damaged_dir !! _get_data_file_path 2 1.
Proof.
  assert ((2, 1) <> (participant_number demo_game, trial_number demo_game)) as H1
    by (cbn; congruence).
  split; [exact H1|]. split; [vm_compute; reflexivity|].
  pose proof (save_leaves_other_records Written demo_game damaged_dir 2 1 H1) as Hthm.
  exact Hthm.
Defined.

(** With the demo record stored, participant 1 is not handed out again. *)
Lemma stored_participant_is_skipped_witness :
  demo_dir !! file_name 1 1 = Some (text (expected_header :: map sample_row demo_samples)) /\
  1 < _get_next_participant_number (listing demo_dir) /\
  1 < participant_number (init demo_dir).
Proof.
  assert (demo_dir !! file_name 1 1
          = Some (text (expected_header :: map sample_row demo_samples)))
    as H1 by (vm_compute; reflexivity).
  split; [exact H1|].
  pose proof (stored_participant_is_skipped (round_trip := python_int_law)
                demo_dir 1 1 _ H1) as Hthm.
  exact Hthm.
Defined.

(** Two demo cycles from a fresh recorder. *)
Lemma run_keeps_event_flags_witness :
  flags_ok (init ∅) /\ flags_ok (run demo_frames (init ∅, ∅, true)).1.1.
Proof.
  assert (flags_ok (init ∅)) as H1 by (split; [now left | apply List.Forall_nil]).
  split; [exact H1|].
  pose proof (run_keeps_event_flags demo_frames (init ∅) ∅ H1) as Hthm.
  exact Hthm.
Defined.

(** Five demo cycles from a fresh recorder raise the advance prompt. *)
Lemma advance_prompt_only_after_last_trial_witness :
  prompt_justified (init ∅) /\
  next_participant (run five_frames (init ∅, ∅, true)).1.1 = true /\
  let g' := (run five_frames (init ∅, ∅, true)).1.1 in
  max_trials g' = max_trials (init ∅) /\
  (next_participant g' = true -> max_trials (init ∅) < trial_number g') /\
  ((_render_ui g').2 = Some MoveToNextParticipant -> max_trials (init ∅) < trial_number g').
Proof.
  assert (prompt_justified (init ∅)) as H1 by (intros E; discriminate E).
  split; [exact H1|]. split; [vm_compute; reflexivity|].
  pose proof (advance_prompt_only_after_last_trial five_frames (init ∅) ∅ H1) as Hthm.
  exact Hthm.
Defined.

Lemma participant_never_decreases_witness :
  1 <= trial_number (init ∅) /\
  let g' := (run demo_frames (init ∅, ∅, true)).1.1 in
  participant_number (init ∅) <= participant_number g' /\ 1 <= trial_number g'.
Proof.
  assert (1 <= trial_number (init ∅)) as H1 by (cbn; lia).
  split; [exact H1|].
  pose proof (participant_never_decreases demo_frames (init ∅) ∅ H1) as Hthm.
  exact Hthm.
Defined.

Lemma recorder_files_well_formed_witness :
  stored_well ∅ /\
  forallb (forallb writes_through) demo_frames = true /\
  let d' := (run demo_frames (init ∅, ∅, true)).1.2 in
  stored_well d' /\
  forall name file, d' !! name = Some file ->
    (_load_trial_data d' name).1 <> inl (Invalid NoHeaderRow) /\
    (_load_trial_data d' name).1 <> inl (Invalid ReaderRaised) /\
    (_load_trial_data d' name).1 <> inl FileNotFound /\
    (_load_trial_data d' name).2 = expected_warnings 2 (tail (file_rows file)).
Proof.
  assert (stored_well ∅) as H1
    by (intros name file E; rewrite lookup_empty in E; discriminate E).
  assert (forallb (forallb writes_through) demo_frames = true) as H2 by reflexivity.
  split; [exact H1|]. split; [exact H2|].
  pose proof (recorder_files_well_formed demo_frames (init ∅) ∅ H1 H2) as Hthm.
  exact Hthm.
Defined.

(** The start key, a motion and the stop key while the advance prompt is up. *)
Lemma advance_prompt_blocks_start_witness :
  next_participant prompt_up = true /\ tracking prompt_up = false /\
  forallb (fun i => negb (is_answer i)) unanswered = true /\
  let '(g', d', _) := handle_events unanswered (prompt_up, demo_dir, true) in
  next_participant g' = true /\ tracking g' = false /\
  mouse_positions g' = mouse_positions prompt_up /\ d' = demo_dir.
Proof.
  assert (next_participant prompt_up = true) as H1 by reflexivity.
  assert (tracking prompt_up = false) as H2 by reflexivity.
  assert (forallb (fun i => negb (is_answer i)) unanswered = true) as H3 by reflexivity.
  split; [exact H1|]. split; [exact H2|]. split; [exact H3|].
  pose proof (advance_prompt_blocks_start unanswered prompt_up demo_dir H1 H2 H3) as Hthm.
  exact Hthm.
Defined.

Lemma cycle_stores_its_motions_witness :
  valid_cycle demo_cycle /\ next_participant (init ∅) = false /\
  let '(g', d', _) := handle_events (cycle_inputs demo_cycle) (init ∅, ∅, true) in
  d' !! file_name (participant_number (init ∅)) (trial_number (init ∅))
    = Some (text (expected_header :: map sample_row (mouse_positions g'))) /\
  map (fun s : Sample => (s.1.1.1, (s.1.1.2, s.1.2))) (mouse_positions g')
  = map (fun m => (PrimFloat.sub m.1 demo_cycle.1.1.1, m.2)) (motions demo_cycle.1.1.2).
Proof.
  assert (valid_cycle demo_cycle) as H1 by (split; reflexivity).
  assert (next_participant (init ∅) = false) as H2 by reflexivity.
  split; [exact H1|]. split; [exact H2|].
  pose proof (cycle_stores_its_motions demo_cycle (init ∅) ∅ H1 H2) as Hthm.
  exact Hthm.
Defined.

Lemma trajectory_shown_while_tracking_witness :
  next_participant (init ∅) = false /\
  forallb during_tracking demo_body = true /\
  let g' := (handle_events (mkInput 10 Written (KEYDOWN K_s) :: demo_body)
                           (init ∅, ∅, true)).1.1 in
  _render_trajectory g' =
  if (1 <? length (motions demo_body))%nat then Some (map snd (motions demo_body))
  else None.
Proof.
  assert (next_participant (init ∅) = false) as H1 by reflexivity.
  assert (forallb during_tracking demo_body = true) as H2 by reflexivity.
  split; [exact H1|]. split; [exact H2|].
  pose proof (trajectory_shown_while_tracking 10 demo_body (init ∅) ∅ H1 H2) as Hthm.
  exact Hthm.
Defined.

Lemma run_stops_after_quit_frame_witness :
  forallb (fun b => negb (existsb is_stop b)) demo_frames = true /\
  run demo_frames (init ∅, ∅, true)
  = handle_events (concat demo_frames) (init ∅, ∅, true) /\
  (run demo_frames (init ∅, ∅, true)).2 = true /\
  (existsb is_stop quit_batch = true ->
   run (demo_frames ++ quit_batch :: unread_frames) (init ∅, ∅, true)
   = handle_events (concat demo_frames ++ quit_batch) (init ∅, ∅, true) /\
   (run (demo_frames ++ quit_batch :: unread_frames) (init ∅, ∅, true)).2 = false).
Proof.
  assert (forallb (fun b => negb (existsb is_stop b)) demo_frames = true) as H1
    by reflexivity.
  split; [exact H1|].
  pose proof (run_stops_after_quit_frame demo_frames quit_batch unread_frames
                (init ∅) ∅ H1) as Hthm.
  exact Hthm.
Defined.

(** Participant 3 and trial 2 typed at the prompt, and trial 6. *)
Lemma selection_within_bounds_witness :
  (forall z, int_of_str (Py.str_of_int z) = Some z) /\
  ((_get_trial_selection (Lines " 3" "2 ")).1 = Some (3, 2) ->
     1 <= 3 <= 24 /\ 1 <= 2 <= 5 /\ (_get_trial_selection (Lines " 3" "2 ")).2 = []) /\
  (1 <= 3 <= 24 /\ 1 <= 2 <= 5 <->
     _get_trial_selection (Lines (Py.str_of_int 3) (Py.str_of_int 2))
     = (Some (3, 2), [])) /\
  (_get_trial_selection KeyboardInterrupt).1 = None.
Proof.
  split; [exact python_int_round_trip|].
  pose proof (selection_within_bounds (round_trip := python_int_law)
                (Lines " 3" "2 ") 3 2) as Hthm.
  exact Hthm.
Defined.

Example selection_samples :
  map (fun t => (_get_trial_selection t).1)
      [Lines " 3" "2 "; Lines "3" "6"; Lines "25" "1"; Lines "0" "1"; Lines "3" "two";
       Lines "" "1"; Lines "+3" "0_2"; KeyboardInterrupt]
  = [Some (3, 2); None; None; None; None; None; Some (3, 2); None].
Proof. vm_compute. reflexivity. Qed.

(** Participant 3, trial 2 is asked for, and nothing is stored. *)
Lemma missing_record_is_reported_witness :
  let a := fresh_app idle_frames [Lines "3" "2"; KeyboardInterrupt] in
  1 <= 3 <= 24 /\ 1 <= 2 <= 5 /\
  app_typed a = Lines (Py.str_of_int 3) (Py.str_of_int 2) :: [KeyboardInterrupt] /\
  demo_dir !! _get_data_file_path 3 2 = None /\
  load_and_replay demo_dir a
  = mkApp (app_viewer a) (app_running a) (app_frames a) [KeyboardInterrupt]
          (app_trace a ++ [Print (MsgFileNotFound (_get_data_file_path 3 2))]) None.
Proof.
  intros a.
  assert (1 <= 3 <= 24) as H1 by lia.
  assert (1 <= 2 <= 5) as H2 by lia.
  assert (app_typed a = Lines (Py.str_of_int 3) (Py.str_of_int 2) :: [KeyboardInterrupt])
    as H3 by reflexivity.
  assert (demo_dir !! _get_data_file_path 3 2 = None) as H4 by (vm_compute; reflexivity).
  split; [exact H1|]. split; [exact H2|]. split; [exact H3|]. split; [exact H4|].
  pose proof (missing_record_is_reported (round_trip := python_int_law)
                demo_dir a 3 2 [KeyboardInterrupt] H1 H2 H3 H4)
    as Hthm.
  exact Hthm.
Defined.

(** Participant 2, trial 1 holds a file in which no row parses. *)
Lemma invalid_record_quits_witness :
  let a := fresh_app idle_frames [Lines "2" "1"] in
  let file := text hopeless_file in
  1 <= 2 <= 24 /\ 1 <= 1 <= 5 /\
  app_typed a = Lines (Py.str_of_int 2) (Py.str_of_int 1) :: [] /\
  hopeless_dir !! _get_data_file_path 2 1 = Some file /\
  (reads_through file = false \/ omap parse_row (tail (file_rows file)) = []) /\
  let a' := load_and_replay hopeless_dir a in
  app_running a' = false /\ app_frames a' = app_frames a /\ in_replay a' = None /\
  spacebar_events (app_viewer a') = spacebar_events (app_viewer a) /\
  lines (app_trace a') = lines (app_trace a) /\
  sleeps (app_trace a') = sleeps (app_trace a).
Proof.
  intros a file.
  assert (1 <= 2 <= 24) as H1 by lia.
  assert (1 <= 1 <= 5) as H2 by lia.
  assert (app_typed a = Lines (Py.str_of_int 2) (Py.str_of_int 1) :: []) as H3
    by reflexivity.
  assert (hopeless_dir !! _get_data_file_path 2 1 = Some file) as H4
    by (vm_compute; reflexivity).
  assert (reads_through file = false \/ omap parse_row (tail (file_rows file)) = [])
    as H5 by (right; vm_compute; reflexivity).
  split; [exact H1|]. split; [exact H2|]. split; [exact H3|]. split; [exact H4|].
  split; [exact H5|].
  pose proof (invalid_record_quits (round_trip := python_int_law)
                hopeless_dir a 2 1 [] file H1 H2 H3 H4 H5)
    as Hthm.
  exact Hthm.
Defined.

(** The file on which the reader raises ends the application as well. *)
Example unreadable_record_quits :
  let a := load_and_replay broken_dir (fresh_app idle_frames [Lines "2" "1"]) in
  app_running a = false /\ app_frames a = idle_frames /\
  app_trace a =
    [Print (MsgLoading 2 1); Blit; Flip;
     Print (WarnHeader ["time"; "x"; "y"; "flag"]);
     Print (WarnRow 3 ["0.05"; "abc"; "205"; "1"]);
     Print (WarnRow 4 ["0.2"; "130"]);
     Print (MsgReplayError (LoadFailed (Invalid ReaderRaised)))].
Proof. vm_compute. repeat split. Qed.

(** Q is the first key the replay of the demo record sees. *)
Lemma exit_keys_during_replay_witness :
  let a := fresh_app [[KEYDOWN K_q; KEYDOWN K_p]; []] [Lines "1" "1"] in
  1 <= 1 <= 24 /\ 1 <= 1 <= 5 /\
  app_typed a = Lines (Py.str_of_int 1) (Py.str_of_int 1) :: [] /\
  _load_trial_data demo_dir (_get_data_file_path 1 1) = (inr demo_samples, []) /\
  app_frames a = (KEYDOWN K_q :: [KEYDOWN K_p]) :: [[]] /\
  is_exit (KEYDOWN K_q) = true /\
  let a' := load_and_replay demo_dir a in
  app_frames a' = [[]] /\ in_replay a' = None /\
  app_viewer a' = mkViewer true [] /\
  app_running a' = false.
Proof.
  intros a.
  assert (1 <= 1 <= 24) as H1 by lia.
  assert (1 <= 1 <= 5) as H2 by lia.
  assert (app_typed a = Lines (Py.str_of_int 1) (Py.str_of_int 1) :: []) as H3
    by reflexivity.
  assert (_load_trial_data demo_dir (_get_data_file_path 1 1) = (inr demo_samples, []))
    as H4 by (vm_compute; reflexivity).
  assert (app_frames a = (KEYDOWN K_q :: [KEYDOWN K_p]) :: [[]]) as H5 by reflexivity.
  assert (is_exit (KEYDOWN K_q) = true) as H6 by reflexivity.
  split; [exact H1|]. split; [exact H2|]. split; [exact H3|]. split; [exact H4|].
  split; [exact H5|]. split; [exact H6|].
  pose proof (exit_keys_during_replay (round_trip := python_int_law)
                demo_dir a 1 1 [] demo_samples []
                (KEYDOWN K_q) [KEYDOWN K_p] [[]] H1 H2 H3 H4 H5 H6) as Hthm.
  exact Hthm.
Defined.

(** Three frames go by with the pause on. *)
Lemma paused_replay_stands_still_witness :
  let v := mkViewer true [(110, 205)] in
  let c := mkCursor 2 (110, 205) 0.05%float in
  is_paused v = true /\ (counter c < length demo_samples)%nat /\
  forallb (forallb (fun e => negb (is_control e))) idle_frames = true /\
  let o := replay_loop demo_samples idle_frames v c in
  o_viewer o = v /\ o_cursor o = c /\ o_code o = None /\ o_frames o = [] /\
  forallb is_refresh (o_trace o) = true /\
  length (o_trace o) = (3 * length idle_frames)%nat.
Proof.
  intros v c.
  assert (is_paused v = true) as H1 by reflexivity.
  assert (counter c < length demo_samples)%nat as H2 by (cbn; lia).
  assert (forallb (forallb (fun e => negb (is_control e))) idle_frames = true) as H3
    by reflexivity.
  split; [exact H1|]. split; [exact H2|]. split; [exact H3|].
  pose proof (paused_replay_stands_still demo_samples idle_frames v c H1 H2 H3) as Hthm.
  exact Hthm.
Defined.

(** P pressed twice in one batch. *)
Lemma pause_flips_with_each_P_witness :
  let batch := [KEYDOWN K_p; MOUSEMOTION (1, 1); KEYDOWN K_p] in
  let v := mkViewer true [(110, 205)] in
  forallb (fun e => negb (is_exit e)) batch = true /\
  (poll batch v).2 = None /\
  is_paused (poll batch v).1.1
  = xorb (is_paused v) (Nat.odd (length (List.filter is_p batch))) /\
  spacebar_events (poll batch v).1.1 = spacebar_events v.
Proof.
  intros batch v.
  assert (forallb (fun e => negb (is_exit e)) batch = true) as H1 by reflexivity.
  split; [exact H1|].
  pose proof (pause_flips_with_each_P batch v H1) as Hthm.
  exact Hthm.
Defined.

(** The replay of the demo record, started and left to run. *)
Lemma replay_draws_the_polyline_witness :
  let frames := [[KEYDOWN K_p]; []; []] in
  let v := mkViewer true [] in
  _load_trial_data demo_dir "SHSA_1_1.csv" = (inr demo_samples, []) /\
  let o := _replay_trial demo_dir "SHSA_1_1.csv" frames v in
  lines (o_trace o) = segments (take (counter (o_cursor o)) demo_samples) /\
  (o_code o = Some 0 -> lines (o_trace o) = segments demo_samples).
Proof.
  intros frames v.
  assert (_load_trial_data demo_dir "SHSA_1_1.csv" = (inr demo_samples, [])) as H1
    by (vm_compute; reflexivity).
  split; [exact H1|].
  pose proof (replay_draws_the_polyline demo_dir "SHSA_1_1.csv" demo_samples []
                frames v H1) as Hthm.
  exact Hthm.
Defined.

(** The pass over the record whose first sample cannot be drawn, entered
    with a marker left from an earlier pass. *)
Lemma markers_are_flagged_samples_witness :
  let frames := [[KEYDOWN K_p]; []] in
  let v := mkViewer true [(7, 7)] in
  _load_trial_data far_dir "SHSA_3_1.csv" = (inr far_samples, []) /\
  let o := _replay_trial far_dir "SHSA_3_1.csv" frames v in
  let played := counter (o_cursor o) in
  (o_code o <> Some (-1) \/ existsb is_draw_error (o_trace o) = false ->
   spacebar_events (o_viewer o) = flagged (take played far_samples)) /\
  flagged (take played far_samples) `prefix_of` spacebar_events (o_viewer o) /\
  spacebar_events (o_viewer o) `prefix_of` flagged (take (S played) far_samples) /\
  (o_code o = Some 0 -> spacebar_events (o_viewer o) = flagged far_samples) /\
  forall more,
    spacebar_events (o_viewer o)
    `prefix_of` spacebar_events
                  (o_viewer (replay_loop far_samples more (o_viewer o) (o_cursor o))).
Proof.
  intros frames v.
  assert (_load_trial_data far_dir "SHSA_3_1.csv" = (inr far_samples, [])) as H1
    by (vm_compute; reflexivity).
  split; [exact H1|].
  pose proof (markers_are_flagged_samples far_dir "SHSA_3_1.csv" far_samples []
                frames v H1) as Hthm.
  exact Hthm.
Defined.

Lemma pass_returns_zero_iff_complete_witness :
  let frames := [[KEYDOWN K_p]; [KEYDOWN K_r]; []] in
  let v := mkViewer true [] in
  _load_trial_data demo_dir "SHSA_1_1.csv" = (inr demo_samples, []) /\
  let o := _replay_trial demo_dir "SHSA_1_1.csv" frames v in
  (counter (o_cursor o) <= length demo_samples)%nat /\
  (o_code o = Some 0 <-> counter (o_cursor o) = length demo_samples) /\
  (o_code o = None -> o_frames o = []) /\
  (o_code o = None \/ o_code o = Some 0 \/ o_code o = Some 1 \/ o_code o = Some (-1)).
Proof.
  intros frames v.
  assert (_load_trial_data demo_dir "SHSA_1_1.csv" = (inr demo_samples, [])) as H1
    by (vm_compute; reflexivity).
  split; [exact H1|].
  pose proof (pass_returns_zero_iff_complete demo_dir "SHSA_1_1.csv" demo_samples []
                frames v H1) as Hthm.
  exact Hthm.
Defined.

(** Two idle frames, then Escape, then a frame with R that is never read. *)
Lemma viewer_idles_until_R_witness :
  let before := [[]; [KEYDOWN K_p; MOUSEMOTION (3, 4)]] in
  let batch := [KEYDOWN K_ESCAPE; KEYDOWN K_s] in
  let after := [[KEYDOWN K_r]] in
  let typed := [Lines "1" "1"] in
  forallb (fun b => forallb (fun e => negb (is_R e)) b && negb (existsb is_close b))
          before = true /\
  viewer_run demo_dir before typed
  = mkApp (mkViewer true []) true [] typed
          ([Blit; Status StPressR; Flip] ++ replicate (length before) Tick) None /\
  (forallb (fun e => negb (is_R e)) batch = true ->
   existsb is_close batch = true ->
   viewer_run demo_dir (before ++ batch :: after) typed
   = mkApp (mkViewer true []) false after typed
           ([Blit; Status StPressR; Flip] ++ replicate (S (length before)) Tick
            ++ [PygameQuit; Print MsgClosed]) None).
Proof.
  intros before batch after typed.
  assert (forallb (fun b => forallb (fun e => negb (is_R e)) b
                            && negb (existsb is_close b)) before = true) as H1
    by reflexivity.
  split; [exact H1|].
  pose proof (viewer_idles_until_R demo_dir before batch after typed H1) as Hthm.
  exact Hthm.
Defined.
